(** * cryptogreed: the crypto risk analyzer

    A shallow embedding of the analyzer class [CryptoRiskAnalyzer]:
    - [src/api/analyze.js] (module [PagesApi] below), and
    - the name-resolving revision of the same file, the one that opens with
      "Drop-in replacement that lets clients send ONLY a plain-language coin
      name" (module [Api] below).

    JavaScript numbers are IEEE-754 binary64 values and are modelled by the
    kernel's primitive floats, so that every arithmetic expression of the
    source evaluates here to the very value it has in Node.  Instants
    ([Date.now()]) are integers of milliseconds.  The two [Map]s of the class
    are finite maps: the cache from digests, the request counts from client
    identifiers.  The upstream providers are an oracle that answers a
    request by its variable part and the instant it is issued, with a
    latency.

    An async function is a computation on the state of the process (the
    analyzer instance, the clock, the pending timers) that completes
    normally or throws.  Time passes while an invocation awaits the
    providers and between invocations, and the timers that come due fire
    then.  Invocations are run one at a time: the interleaving of several
    invocations at their [await]s is not represented.  Every request and
    every access to the cache is recorded, in order, in a trace. *)

From Stdlib Require Import ZArith Floats Uint63 Bool Ascii Lia.
From stdpp Require Import base option list strings gmap pretty.

Set Warnings "-inexact-float".
Set Default Proof Using "Type".

(* ===================================================================== *)
(** ** JavaScript values, numbers and the [Math] functions the code calls *)
(* ===================================================================== *)

Module JS.

(** The identity fields ([coinId], [contractAddress], [chain], [coinName])
    as the handlers pass them: a string, [null] or [undefined]. *)
Inductive value :=
| Undefined
| Null
| Str (s : string).

(** ToBoolean: the empty string, [null] and [undefined] are falsy. *)
Definition truthy (v : value) : bool :=
  match v with
  | Str s => negb (String.eqb s "")
  | _ => false
  end.

(** ToString, as a template literal or [RegExp.prototype.test] applies it. *)
Definition to_string (v : value) : string :=
  match v with
  | Undefined => "undefined"
  | Null => "null"
  | Str s => s
  end.

(** [a || b] *)
Definition or (a b : value) : value := if truthy a then a else b.

(** [a === 'literal'] *)
Definition is_str (v : value) (lit : string) : bool :=
  match v with
  | Str s => String.eqb s lit
  | _ => false
  end.

(** A parameter default [p = 'literal']: applies to [undefined] only. *)
Definition param_default (v : value) (lit : string) : value :=
  match v with
  | Undefined => Str lit
  | _ => v
  end.

Open Scope float_scope.

Definition number := float.

(** An integer as a number (exact below 2^53, which is all the code needs). *)
Definition of_Z (n : Z) : number :=
  if (n <? 0)%Z then - PrimFloat.of_uint63 (Uint63.of_Z (- n))
  else PrimFloat.of_uint63 (Uint63.of_Z n).

Definition of_nat (n : nat) : number := of_Z (Z.of_nat n).

Definition signed_zero (negative : bool) : number := if negative then (-0) else 0.

(** [Math.round]: the nearest integer, ties towards +infinity; NaN, the
    infinities and the zeros are returned as they are; a value in
    [[-0.5, 0)] gives [-0].  A finite number is [(-1)^s * m * 2^e]; when
    [e < 0] the result is [floor ((2*v + d) / (2*d))] with [d = 2^(-e)]. *)
Definition Math_round (x : number) : number :=
  match Prim2SF x with
  | S754_finite s m e =>
      if (0 <=? e)%Z then x
      else
        let d := (2 ^ (- e))%Z in
        let v := if s then Z.neg m else Z.pos m in
        let n := ((2 * v + d) / (2 * d))%Z in
        if (n =? 0)%Z then signed_zero s else of_Z n
  | _ => x
  end.

(** [Math.ceil] *)
Definition Math_ceil (x : number) : number :=
  match Prim2SF x with
  | S754_finite s m e =>
      if (0 <=? e)%Z then x
      else
        let d := (2 ^ (- e))%Z in
        let v := if s then Z.neg m else Z.pos m in
        let n := (- ((- v) / d))%Z in
        if (n =? 0)%Z then signed_zero s else of_Z n
  | _ => x
  end.

Definition is_negative (x : number) : bool :=
  match Prim2SF x with
  | S754_zero s | S754_infinity s | S754_finite s _ _ => s
  | S754_nan => false
  end.

(** [Math.min(a, b)]: NaN if either is NaN; [-0] is below [+0]. *)
Definition Math_min (a b : number) : number :=
  if is_nan a || is_nan b then nan
  else if a <? b then a
  else if b <? a then b
  else if is_negative a then a else b.

(** [Math.max(a, b)] *)
Definition Math_max (a b : number) : number :=
  if is_nan a || is_nan b then nan
  else if b <? a then a
  else if a <? b then b
  else if is_negative a then b else a.

Definition Math_abs (x : number) : number := abs x.

(** ToBoolean on a number: [0], [-0] and NaN are falsy. *)
Definition truthy_number (x : number) : bool := negb (PrimFloat.is_nan x || PrimFloat.is_zero x).

(** [x || d] on numbers *)
Definition or_number (x d : number) : number := if truthy_number x then x else d.

(** ToIntegerOrInfinity restricted to what [slice] does with it on the
    counts the code computes: NaN and negative counts select nothing, a
    count is truncated, and a count beyond the length selects everything
    ([take] saturates just as [slice] does). *)
Definition to_index (x : number) : nat :=
  match Prim2SF x with
  | S754_finite false m e =>
      if (0 <=? e)%Z then Z.to_nat (Z.pos m * 2 ^ e) else Z.to_nat (Z.pos m / 2 ^ (- e))
  | _ => 0%nat
  end.

(** [xs.slice(0, count)] for a finite count *)
Definition slice0 {A} (count : number) (xs : list A) : list A := take (to_index count) xs.

(** [xs.reduce((s, x) => s + f(x), 0)] *)
Definition sum_by {A} (f : A -> number) (xs : list A) : number :=
  fold_left (fun s x => s + f x) xs 0.

(** A value the spec calls a score: an integer between 0 and 100. *)
Definition is_score (x : number) : bool :=
  (0 <=? x) && (x <=? 100) && (Math_round x =? x).

End JS.

(* ===================================================================== *)
(** ** The host: what Node and the process environment provide            *)
(* ===================================================================== *)

(** [Math.log10] is specified by ECMAScript as an implementation-approximated
    function and the digest is the [crypto] module's; both are taken as
    given.  [NODE_ENV] is the process environment variable that [CONFIG]
    reads. *)
Record host := {
  Math_log10 : JS.number -> JS.number;
  sha256_hex : string -> string;
  NODE_ENV : option string
}.

(* ===================================================================== *)
(** ** CONFIG                                                             *)
(* ===================================================================== *)

Module CONFIG.
Definition CACHE_TTL : Z := 300000.
Definition MAX_REQUESTS_PER_MINUTE : nat := 100.
Definition API_TIMEOUT : Z := 10000.
Definition MAX_RETRIES : nat := 3.
(** [process.env.NODE_ENV === 'production'] *)
Definition ENCRYPT_CACHE (h : host) : bool :=
  match NODE_ENV h with
  | Some v => String.eqb v "production"
  | None => false
  end.
End CONFIG.

(* ===================================================================== *)
(** ** The snapshots the fetchers return                                  *)
(* ===================================================================== *)

Record MarketData := {
  current_price : JS.number;
  price_change_percentage_24h : JS.number;
  market_cap : JS.number;
  volume_24h : JS.number;
  avg_volume_7d : JS.number;
  avg_price_7d : JS.number
}.

(** A field the fetcher leaves out reads as [undefined]; every use of these
    fields is arithmetic, where [undefined] converts to NaN, so an absent
    field is held as NaN. *)
Record ChainData := {
  top_1_pct : JS.number;
  top_10_pct : JS.number;
  top_100_pct : JS.number;
  top_10_holders : JS.number;
  retail_pct : JS.number;
  total_holders : JS.number
}.

(** [top_5_pool_concentration] is computed by the fetcher and read nowhere;
    only [liquidity] reaches the scores. *)
Record DexData := {
  liquidity : JS.number
}.

(* ===================================================================== *)
(** ** The scoring engine                                                 *)
(* ===================================================================== *)

Module Scoring.
Import JS.
Open Scope float_scope.

Definition _calculateGreedScore (m : MarketData) (c : ChainData) : number :=
  let volumeSpike := Math_min 100 (((volume_24h m / avg_volume_7d m) - 1) * 40) in
  let priceSurge := Math_min 100 (((current_price m / avg_price_7d m) - 1) * 100) in
  let whaleDominance := Math_min 100 (top_10_holders c * 1.5) in
  Math_round ((volumeSpike * 0.25) + (priceSurge * 0.3) + (whaleDominance * 0.25)).

Definition _calculateDecentralization (c : ChainData) : number :=
  let weighted := (top_1_pct c * 0.65) + (top_10_pct c * 0.25) + (top_100_pct c * 0.10) in
  Math_round (Math_max 0 (100 - weighted)).

Definition _calculateVolatility (m : MarketData) : number :=
  let priceChange := Math_abs (price_change_percentage_24h m) in
  let volumeRatio := volume_24h m / market_cap m in
  Math_round (Math_min 100 ((priceChange * 1.5) + ((1 - volumeRatio) * 30))).

Definition _calculateLiquidity (m : MarketData) (d : DexData) : number :=
  let liquidityRatio := liquidity d / market_cap m in
  let multiplier := 175 in
  let multiplier := if market_cap m <? 1e8 then 200 else multiplier in
  let multiplier := if 1e9 <? market_cap m then 150 else multiplier in
  Math_round (Math_min 100 (liquidityRatio * multiplier)).

Section WithHost.
Variable h : host.

(** [src/api/analyze.js]: [Math.log10(chainData.total_holders)] *)
Definition _calculateRetailScore (c : ChainData) : number :=
  let holderFactor := Math_min 10 (Math_log10 h (total_holders c)) * 2 in
  Math_round (Math_max 0 ((retail_pct c * 1.5) - (top_1_pct c * 0.8) + holderFactor)).

(** the name-resolving revision: [Math.log10(c.total_holders || 1)] *)
Definition _calculateRetailScore_guarded (c : ChainData) : number :=
  let holderFactor := Math_min 10 (Math_log10 h (or_number (total_holders c) 1)) * 2 in
  Math_round (Math_max 0 ((retail_pct c * 1.5) - (top_1_pct c * 0.8) + holderFactor)).
End WithHost.

End Scoring.

Record Scores := {
  greed : JS.number;
  decentralization : JS.number;
  retail : JS.number;
  volatility : JS.number;
  liquidity_score : JS.number
}.

(* ===================================================================== *)
(** ** VALIDATION_PATTERNS                                                *)
(* ===================================================================== *)

Module VALIDATION_PATTERNS.

Definition code (c : ascii) : N := Ascii.N_of_ascii c.

Definition between (lo hi c : ascii) : bool :=
  (code lo <=? code c)%N && (code c <=? code hi)%N.

Fixpoint all_chars (p : ascii -> bool) (s : string) : bool :=
  match s with
  | EmptyString => true
  | String c rest => p c && all_chars p rest
  end.

Definition lower_digit_hyphen (c : ascii) : bool :=
  between "a" "z" c || between "0" "9" c || Ascii.eqb c "-".

Definition hex_digit (c : ascii) : bool :=
  between "a" "f" c || between "A" "F" c || between "0" "9" c.

Definition base58_digit (c : ascii) : bool :=
  between "1" "9" c || between "A" "H" c || between "J" "N" c
  || between "P" "Z" c || between "a" "k" c || between "m" "z" c.

(** [/^[a-z0-9-]+$/] *)
Definition COIN_ID (s : string) : bool :=
  negb (String.eqb s "") && all_chars lower_digit_hyphen s.

(** [/^0x[a-fA-F0-9]{40}$/] *)
Definition CONTRACT_ADDRESS (s : string) : bool :=
  match s with
  | String "0" (String "x" digits) =>
      Nat.eqb (String.length digits) 40 && all_chars hex_digit digits
  | _ => false
  end.

(** [/^[1-9A-HJ-NP-Za-km-z]{32,44}$/] *)
Definition SOLANA_ADDRESS (s : string) : bool :=
  Nat.leb 32 (String.length s) && Nat.leb (String.length s) 44
  && all_chars base58_digit s.

(** [/^(eth|sol)$/] (declared, tested nowhere) *)
Definition CHAIN (s : string) : bool := String.eqb s "eth" || String.eqb s "sol".

(** [pattern.test(v)]: the argument is converted to a string first. *)
Definition test (pattern : string -> bool) (v : JS.value) : bool :=
  pattern (JS.to_string v).

End VALIDATION_PATTERNS.

(* ===================================================================== *)
(** ** Results                                                            *)
(* ===================================================================== *)

(** [basic]; [basic_name] is [None] in the revision that has no such key. *)
Record Basic := {
  basic_name : option JS.value;
  price : JS.number;
  price_change_24h : JS.number;
  basic_market_cap : JS.number;
  basic_volume_24h : JS.number;
  contract_address : JS.value
}.

(** The object built on the fetch path; this is what the cache holds. *)
Record Analysis := {
  basic : Basic;
  scores : Scores;
  processingTime : Z;
  timestamp : Z          (* the instant [new Date()] that [toISOString] renders *)
}.

(** What [analyze] resolves to.  [Computed r fc]: [r] with the key
    [fromCache: true] when [fc], without that key otherwise.
    [Failed message processingTime timestamp]: the object with [error: true]. *)
Inductive AnalysisResult :=
| Computed (r : Analysis) (fromCache : bool)
| Failed (message : string) (processingTime : Z) (timestamp : Z).

Definition is_error (r : AnalysisResult) : bool :=
  match r with Failed _ _ _ => true | Computed _ _ => false end.

Definition from_cache (r : AnalysisResult) : bool :=
  match r with Computed _ fc => fc | Failed _ _ _ => false end.

Definition result_processingTime (r : AnalysisResult) : Z :=
  match r with
  | Computed a _ => processingTime a
  | Failed _ t _ => t
  end.

Definition result_scores (r : AnalysisResult) : option Scores :=
  match r with Computed a _ => Some (scores a) | Failed _ _ _ => None end.

Definition result_basic (r : AnalysisResult) : option Basic :=
  match r with Computed a _ => Some (basic a) | Failed _ _ _ => None end.

(* ===================================================================== *)
(** ** The process: analyzer instance, clock, timers, and what went out   *)
(* ===================================================================== *)

Global Instance value_eq_dec : EqDecision JS.value.
Proof. solve_decision. Defined.

Global Instance value_countable : Countable JS.value.
Proof.
  refine (inj_countable'
    (fun v => match v with
              | JS.Undefined => inl false
              | JS.Null => inl true
              | JS.Str s => inr s
              end)
    (fun x => match x with
              | inl false => JS.Undefined
              | inl true => JS.Null
              | inr s => JS.Str s
              end) _).
  intros []; reflexivity.
Defined.

(** The observable steps of an invocation, in the order they happen: every
    outbound request, the admission decision, and the accesses to the cache. *)
Inductive event :=
| SearchRequest (name : string)
| PlatformRequest (slug : string)
| ContractRequest (base address : string)
| Admission (clientId : JS.value) (admitted : bool)
| CacheLookup (key : string) (hit : bool)
| MarketRequest (coinId : string)
| HolderRequest (address : string)
| TransferRequest (address : string)
| PoolRequest (address : string)
| CacheStore (key : string).

Global Instance event_eq_dec : EqDecision event.
Proof. solve_decision. Defined.

Record process := {
  cache : gmap string Analysis;            (* this.cache *)
  requestCounts : gmap JS.value (list Z);  (* this.requestCounts *)
  clock : Z;                               (* what Date.now() reads *)
  timers : list (Z * string);              (* pending setTimeout(() => cache.delete(key)) *)
  trace : list event
}.

(** [new CryptoRiskAnalyzer()] in a process started at instant [t]. *)
Definition new_process (t : Z) : process :=
  {| cache := ∅; requestCounts := ∅; clock := t; timers := []; trace := [] |}.

Inductive completion (A : Type) :=
| Normal (a : A)
| Throw (message : string).
Arguments Normal {A} a.
Arguments Throw {A} message.

Definition M (A : Type) : Type := process -> completion A * process.

Definition ret {A} (a : A) : M A := fun p => (Normal a, p).

Definition throw {A} (message : string) : M A := fun p => (Throw message, p).

Definition bind {A B} (m : M A) (k : A -> M B) : M B :=
  fun p =>
    match m p with
    | (Normal a, p') => k a p'
    | (Throw e, p') => (Throw e, p')
    end.

Notation "'let*' x ':=' m 'in' k" := (bind m (fun x => k))
  (at level 10, x binder, m at level 100, k at level 200).

(** [try { body } catch (error) { handler(error.message) }] *)
Definition try_catch {A} (body : M A) (handler : string -> M A) : M A :=
  fun p =>
    match body p with
    | (Normal a, p') => (Normal a, p')
    | (Throw e, p') => handler e p'
    end.

Definition Date_now : M Z := fun p => (Normal (clock p), p).

Definition log (e : event) : M unit :=
  fun p => (Normal tt,
            {| cache := cache p; requestCounts := requestCounts p; clock := clock p;
               timers := timers p; trace := trace p ++ [e] |}).

Definition get_cache : M (gmap string Analysis) := fun p => (Normal (cache p), p).

Definition set_cache (c : gmap string Analysis) : M unit :=
  fun p => (Normal tt,
            {| cache := c; requestCounts := requestCounts p; clock := clock p;
               timers := timers p; trace := trace p |}).

Definition get_requestCounts : M (gmap JS.value (list Z)) :=
  fun p => (Normal (requestCounts p), p).

Definition set_requestCounts (rc : gmap JS.value (list Z)) : M unit :=
  fun p => (Normal tt,
            {| cache := cache p; requestCounts := rc; clock := clock p;
               timers := timers p; trace := trace p |}).

(** [setTimeout(() => this.cache.delete(key), delay)] *)
Definition setTimeout_delete (key : string) (delay : Z) : M unit :=
  fun p => (Normal tt,
            {| cache := cache p; requestCounts := requestCounts p; clock := clock p;
               timers := timers p ++ [(clock p + delay, key)%Z]; trace := trace p |}).

(** The event loop runs the callbacks of the timers that are due. *)
Definition due (now : Z) (timer : Z * string) : bool := (timer.1 <=? now)%Z.

Definition run_timers (now : Z) (ts : list (Z * string)) (c : gmap string Analysis)
  : gmap string Analysis :=
  fold_left (fun c timer => if due now timer then delete timer.2 c else c) ts c.

(** Time passes until instant [t] (never backwards); due timers fire. *)
Definition elapse_until (t : Z) (p : process) : process :=
  let now := Z.max (clock p) t in
  {| cache := run_timers now (timers p) (cache p);
     requestCounts := requestCounts p;
     clock := now;
     timers := List.filter (fun timer => negb (due now timer)) (timers p);
     trace := trace p |}.

(** A promise: when it settles and how. *)
Record promise (A : Type) := {
  settles_at : Z;
  settled : string + A     (* [inl message]: rejected with [Error(message)] *)
}.
Arguments settles_at {A} _.
Arguments settled {A} _.

(** [Promise.resolve(v)] *)
Definition Promise_resolve {A} (v : A) : M (promise A) :=
  fun p => (Normal {| settles_at := clock p; settled := inr v |}, p).

(** [await promise] *)
Definition await {A} (pr : promise A) : M A :=
  fun p =>
    let p' := elapse_until (settles_at pr) p in
    match settled pr with
    | inl e => (Throw e, p')
    | inr a => (Normal a, p')
    end.

Definition rejection {A} (pr : promise A) : option (Z * string) :=
  match settled pr with
  | inl e => Some (settles_at pr, e)
  | inr _ => None
  end.

(** The rejection that comes first in time; the leftmost among equals. *)
Definition earlier (a b : option (Z * string)) : option (Z * string) :=
  match a, b with
  | Some (ta, ea), Some (tb, eb) => if (tb <? ta)%Z then Some (tb, eb) else Some (ta, ea)
  | Some x, None => Some x
  | None, y => y
  end.

(** [await Promise.all([pa, pb, pc])]: rejects as soon as one of the three
    rejects, with that one's error; otherwise resolves when the last one has. *)
Definition Promise_all3 {A B C} (pa : promise A) (pb : promise B) (pc : promise C)
  : M (A * B * C) :=
  fun p =>
    match settled pa, settled pb, settled pc with
    | inr a, inr b, inr c =>
        (Normal (a, b, c),
         elapse_until (Z.max (settles_at pa) (Z.max (settles_at pb) (settles_at pc))) p)
    | _, _, _ =>
        match earlier (rejection pa) (earlier (rejection pb) (rejection pc)) with
        | Some (t, e) => (Throw e, elapse_until t p)
        | None => (Throw "", elapse_until (clock p) p)   (* not reached: one is rejected *)
        end
    end.

(* ===================================================================== *)
(** ** The upstream providers                                             *)
(* ===================================================================== *)

(** What [await fetch(url, ...)] followed by [await res.json()] and the
    reading of the payload comes to. *)
Inductive response (P : Type) :=
| Unreachable (message : string)                 (* [fetch] rejects: network error, timeout *)
| Answered (ok : bool) (status : Z) (body : string + P).
    (* [body = inl message]: [res.json()] or the reading of the payload throws *)
Arguments Unreachable {P} message.
Arguments Answered {P} ok status body.

Record reply (P : Type) := {
  latency : N;                    (* milliseconds until the fetcher's promise settles *)
  answer : response P
}.
Arguments latency {P} _.
Arguments answer {P} _.

(** [d.platforms?.ethereum], [d.platforms?.solana] *)
Record Platforms := {
  ethereum : JS.value;
  solana : JS.value
}.

(** The parts of [d.market_data] the fetcher reads into the snapshot. *)
Record MarketPayload := {
  current_price_usd : JS.number;
  price_change_percentage_24h_ : JS.number;
  market_cap_usd : JS.number;
  total_volume_usd : JS.number
}.

Record Transfer := {
  transfer_timestamp : JS.number;
  fromUserAccount : JS.value;
  toUserAccount : JS.value
}.

(** Each provider answers a request by its variable part and the instant it
    is issued. *)
Record upstream := {
  coingecko_search : string -> Z -> reply (list JS.value);      (* ids of [data.coins] *)
  coingecko_platforms : string -> Z -> reply Platforms;
  coingecko_contract : string -> string -> Z -> reply JS.value; (* [data.id] *)
  coingecko_market : string -> Z -> reply MarketPayload;
  etherscan_holders : string -> Z -> reply (list JS.number);    (* [parseFloat(h.balance)] of [data.result] *)
  helius_transfers : string -> Z -> reply (list Transfer);
  dexscreener_pairs : string -> Z -> reply (list JS.number)     (* [p.liquidity?.usd || 0] of [data.pairs] *)
}.

(** [if (!res.ok) throw new Error(`<label> ${res.status}`)], then the payload. *)
Definition read_checked {P A} (label : Z -> string) (map : P -> string + A) (r : response P)
  : string + A :=
  match r with
  | Unreachable e => inl e
  | Answered ok status body =>
      if negb ok then inl (label status)
      else match body with
           | inl e => inl e
           | inr payload => map payload
           end
  end.

Definition read_response {P A} (label : Z -> string) (map : P -> A) : response P -> string + A :=
  read_checked label (fun payload => inr (map payload)).

(** The outcomes on which a fetcher throws: no answer, a status that is
    not a success, a payload that cannot be read. *)
Definition failed {P} (r : response P) : bool :=
  match r with
  | Unreachable _ => true
  | Answered ok _ body => negb ok || match body with inl _ => true | inr _ => false end
  end.

(** An async function that issues one request at once and settles later. *)
Definition request {P A} (e : event) (ask : Z -> reply P) (read : response P -> string + A)
  : M (promise A) :=
  let* _ := log e in
  fun p =>
    let r := ask (clock p) in
    (Normal {| settles_at := clock p + Z.of_N (latency r); settled := read (answer r) |}, p).

(** The same with the [try { ... } catch (error) { throw new Error(failure) }]
    that the fetchers of [src/api/analyze.js] are wrapped in. *)
Definition rethrow_as {A} (failure : string) (x : string + A) : string + A :=
  match x with
  | inl _ => inl failure
  | inr a => inr a
  end.

(* ===================================================================== *)
(** ** The rate limiter                                                   *)
(* ===================================================================== *)

Module RateLimiter.

(** [stamps.filter(t => t > windowStart)] followed by [push(now)] *)
Definition window (now : Z) (stamps : list Z) : list Z :=
  List.filter (fun t => (now - 60000 <? t)%Z) stamps ++ [now].

(** whether [timestamps.length > MAX_REQUESTS_PER_MINUTE] does not hold *)
Definition admitted (timestamps : list Z) : bool :=
  negb (CONFIG.MAX_REQUESTS_PER_MINUTE <? length timestamps)%nat.

(** [_checkRateLimit(clientId)], the same in both revisions up to the
    message of the error. *)
Definition _checkRateLimit (clientId : JS.value) : M unit :=
  let* now := Date_now in
  let* counts := get_requestCounts in
  let counts :=
    match counts !! clientId with
    | None => <[clientId := []]> counts
    | Some _ => counts
    end in
  let timestamps := window now (default [] (counts !! clientId)) in
  let* _ := set_requestCounts (<[clientId := timestamps]> counts) in
  let* _ := log (Admission clientId (admitted timestamps)) in
  if admitted timestamps then ret tt else throw "Rate limit exceeded".

(** A client's calls at the given instants, one after the other, on its
    own record of timestamps: the record left and each call's decision. *)
Fixpoint calls (stamps : list Z) (instants : list Z) : list Z * list bool :=
  match instants with
  | [] => (stamps, [])
  | now :: later =>
      let timestamps := window now stamps in
      let '(final, decisions) := calls timestamps later in
      (final, admitted timestamps :: decisions)
  end.

End RateLimiter.

(* ===================================================================== *)
(** ** Holder statistics and liquidity, as the fetchers compute them       *)
(* ===================================================================== *)

Module Fetchers.
Import JS.
Open Scope float_scope.

(** [_calculateHolderPercentage] / [_holderPct] *)
Definition _calculateHolderPercentage (holders : list number) (percentage totalSupply : number)
  : number :=
  let count :=
    if percentage <=? 1 then Math_ceil (of_nat (length holders) * percentage)
    else of_nat (length holders) in
  let sum := sum_by id (slice0 count holders) in
  (sum / totalSupply) * 100.

(** the object [_fetchEtherscanData] returns, from [data.result] *)
Definition holder_statistics (holders : list number) : ChainData :=
  let totalSupply := sum_by id holders in
  {| top_1_pct := _calculateHolderPercentage holders 0.01 totalSupply;
     top_10_pct := _calculateHolderPercentage holders 0.10 totalSupply;
     top_100_pct := _calculateHolderPercentage (take 100 holders) 1 totalSupply;
     top_10_holders := _calculateHolderPercentage (take 10 holders) 1 totalSupply;
     retail_pct :=
       _calculateHolderPercentage
         (List.filter (fun balance => balance / totalSupply <? 0.001) holders) 1 totalSupply;
     total_holders := of_nat (length holders) |}.

(** the object [_fetchCoinGeckoData] returns *)
Definition market_snapshot (d : MarketPayload) : MarketData :=
  {| current_price := current_price_usd d;
     price_change_percentage_24h := price_change_percentage_24h_ d;
     market_cap := market_cap_usd d;
     volume_24h := total_volume_usd d;
     avg_volume_7d := total_volume_usd d / 7;
     avg_price_7d := current_price_usd d |}.

(** [data.pairs.reduce((sum, p) => sum + (p.liquidity?.usd || 0), 0)] *)
Definition liquidity_snapshot (pairs : list number) : DexData :=
  {| liquidity := sum_by id pairs |}.

(** [src/api/analyze.js]: the Solana object has the three activity counters
    only, so the six holder fields read as [undefined]. *)
Definition activity_only (transfers : list Transfer) : ChainData :=
  {| top_1_pct := nan; top_10_pct := nan; top_100_pct := nan;
     top_10_holders := nan; retail_pct := nan; total_holders := nan |}.

(** the literal with the six holder fields at [0] *)
Definition no_holders : ChainData :=
  {| top_1_pct := 0; top_10_pct := 0; top_100_pct := 0;
     top_10_holders := 0; retail_pct := 0; total_holders := 0 |}.

(** the name-resolving revision: "map to ETH-style fields so later
    calculations work" *)
Definition activity_with_zeros (transfers : list Transfer) : ChainData := no_holders.

(** [{ liquidity: 0, top_5_pool_concentration: 0 }] *)
Definition no_liquidity : DexData := {| liquidity := 0 |}.

Definition status_message (label : string) (status : Z) : string :=
  label +:+ pretty status.

End Fetchers.

(* ===================================================================== *)
(** ** [src/api/analyze.js]                                               *)
(* ===================================================================== *)

Module PagesApi.
Import JS VALIDATION_PATTERNS Fetchers.

Section Analyzer.
Variable h : host.
Variable net : upstream.

Definition _validateInput (coinId contractAddress chain : value) : M unit :=
  let errors : list string := [] in
  let errors :=
    if negb (test COIN_ID coinId) then errors ++ ["Invalid coin ID format"] else errors in
  let errors :=
    if is_str chain "eth" && negb (test CONTRACT_ADDRESS contractAddress)
    then errors ++ ["Invalid Ethereum contract address"] else errors in
  let errors :=
    if is_str chain "sol" && negb (test SOLANA_ADDRESS contractAddress)
    then errors ++ ["Invalid Solana token address"] else errors in
  if (0 <? length errors)%nat
  then throw ("Validation failed: " +:+ String.concat ", " errors)
  else ret tt.

Definition _fetchCoinGeckoData (coinId : value) : M (promise MarketData) :=
  request (MarketRequest (to_string coinId))
    (coingecko_market net (to_string coinId))
    (fun r => rethrow_as "Failed to fetch market data"
                (read_response (status_message "CoinGecko API error: ") market_snapshot r)).

Definition _fetchEtherscanData (contractAddress : value) : M (promise ChainData) :=
  request (HolderRequest (to_string contractAddress))
    (etherscan_holders net (to_string contractAddress))
    (fun r => rethrow_as "Failed to fetch holder data"
                (read_response (status_message "Etherscan API error: ") holder_statistics r)).

Definition _fetchSolanaData (contractAddress : value) : M (promise ChainData) :=
  request (TransferRequest (to_string contractAddress))
    (helius_transfers net (to_string contractAddress))
    (fun r => rethrow_as "Failed to fetch Solana activity data"
                (read_response (status_message "Helius API error: ") activity_only r)).

Definition _fetchDexScreenerData (contractAddress : value) : M (promise DexData) :=
  request (PoolRequest (to_string contractAddress))
    (dexscreener_pairs net (to_string contractAddress))
    (fun r => rethrow_as "Failed to fetch liquidity data"
                (read_response (status_message "DexScreener API error: ") liquidity_snapshot r)).

(** [sha256(`${coinId}:${contractAddress}:${chain}`)] in hex *)
Definition cacheKey (coinId contractAddress chain : value) : string :=
  sha256_hex h
    (to_string coinId +:+ ":" +:+ to_string contractAddress +:+ ":" +:+ to_string chain).

Definition score (marketData : MarketData) (chainData : ChainData) (dexData : DexData)
  : Scores :=
  {| greed := Scoring._calculateGreedScore marketData chainData;
     decentralization := Scoring._calculateDecentralization chainData;
     retail := Scoring._calculateRetailScore h chainData;
     volatility := Scoring._calculateVolatility marketData;
     liquidity_score := Scoring._calculateLiquidity marketData dexData |}.

(** the [catch] block of [analyze] *)
Definition error_result (startTime : Z) (message : string) : M AnalysisResult :=
  let* finished := Date_now in
  let* today := Date_now in
  ret (Failed message (finished - startTime) today).

(** the three fetchers, launched in this order, and [await Promise.all] *)
Definition aggregate (coinId contractAddress chain : value)
  : M (MarketData * ChainData * DexData) :=
  let* marketP := _fetchCoinGeckoData coinId in
  let* chainP :=
    if is_str chain "eth" then _fetchEtherscanData contractAddress
    else _fetchSolanaData contractAddress in
  let* dexP := _fetchDexScreenerData contractAddress in
  Promise_all3 marketP chainP dexP.

(** whether one of the three fetchers launched at instant [t] fails *)
Definition a_fetcher_fails (coinId contractAddress chain : value) (t : Z) : bool :=
  failed (answer (coingecko_market net (to_string coinId) t))
  || (if is_str chain "eth"
      then failed (answer (etherscan_holders net (to_string contractAddress) t))
      else failed (answer (helius_transfers net (to_string contractAddress) t)))
  || failed (answer (dexscreener_pairs net (to_string contractAddress) t)).

(** the [try] block up to the cache lookup: validation, admission, and
    [this.cache.has(cacheKey)] / [this.cache.get(cacheKey)] *)
Definition admit_and_lookup (coinId contractAddress chain clientId : value)
  : M (option Analysis) :=
  let* _ := _validateInput coinId contractAddress chain in
  let* _ := RateLimiter._checkRateLimit clientId in
  let key := cacheKey coinId contractAddress chain in
  let* entries := get_cache in
  let* _ := log (CacheLookup key (bool_decide (is_Some (entries !! key)))) in
  ret (entries !! key).

(** the [try] block after a cache miss: aggregation, scoring, the store
    under [ENCRYPT_CACHE], and the result *)
Definition compute (startTime : Z) (coinId contractAddress chain : value)
  : M AnalysisResult :=
  let key := cacheKey coinId contractAddress chain in
  let* data := aggregate coinId contractAddress chain in
  let '(marketData, chainData, dexData) := data in
  let* finished := Date_now in
  let* today := Date_now in
  let result :=
    {| basic :=
         {| basic_name := None;
            price := current_price marketData;
            price_change_24h := price_change_percentage_24h marketData;
            basic_market_cap := market_cap marketData;
            basic_volume_24h := volume_24h marketData;
            contract_address := contractAddress |};
       scores := score marketData chainData dexData;
       processingTime := finished - startTime;
       timestamp := today |} in
  let* _ :=
    if CONFIG.ENCRYPT_CACHE h
    then
      let* entries := get_cache in
      let* _ := set_cache (<[key := result]> entries) in
      log (CacheStore key)
    else ret tt in
  ret (Computed result false).

(** the [try] block of [analyze] *)
Definition analyze_try (startTime : Z) (coinId contractAddress chain clientId : value)
  : M AnalysisResult :=
  let* found := admit_and_lookup coinId contractAddress chain clientId in
  match found with
  | Some cached => ret (Computed cached true)   (* [{ ...cached, fromCache: true }] *)
  | None => compute startTime coinId contractAddress chain
  end.

(** [analyze(coinId, contractAddress, chain = 'eth', clientId = 'default')] *)
Definition analyze (coinId contractAddress chain clientId : value) : M AnalysisResult :=
  let chain := param_default chain "eth" in
  let clientId := param_default clientId "default" in
  let* startTime := Date_now in
  try_catch (analyze_try startTime coinId contractAddress chain clientId)
            (error_result startTime).

(** What the handler sends: [res.status(code).json(body)]. *)
Inductive sent :=
| Json (code : Z) (result : AnalysisResult)
| JsonError (code : Z) (error : string).

(** [handler(req, res)] for a request with the given method and the
    four fields of its body *)
Definition handler (method : string) (coinId contractAddress chain clientId : value)
  : M sent :=
  if negb (String.eqb method "POST") then ret (JsonError 405 "Only POST requests allowed")
  else
    try_catch
      (if negb (truthy coinId) || negb (truthy contractAddress) || negb (truthy chain)
       then ret (JsonError 400 "Missing required fields")
       else
         let* result :=
           analyze coinId contractAddress chain (or clientId (Str "default")) in
         if is_error result then ret (Json 400 result) else ret (Json 200 result))
      (fun message => ret (JsonError 500 "Server error")).

End Analyzer.
End PagesApi.

(* ===================================================================== *)
(** ** The name-resolving revision of [api/analyze.js]                    *)
(* ===================================================================== *)

Module Api.
Import JS VALIDATION_PATTERNS Fetchers.

Definition parenthesised (label : string) (status : Z) : string :=
  label +:+ "(" +:+ pretty status +:+ ")".

Section Analyzer.
Variable h : host.
Variable net : upstream.

(** [await slugFromName(name)] *)
Definition slugFromName (name : value) : M value :=
  let* answer :=
    request (SearchRequest (to_string name))
      (coingecko_search net (to_string name))
      (read_checked (parenthesised "CoinGecko search failed ")
         (fun coins =>
            match coins with
            | [] => inl "Coin not found on CoinGecko"
            | first :: _ => inr first
            end)) in
  await answer.

(** [await contractAndChainFromSlug(slug)]: the pair
    [(info.contractAddress, info.chain)] *)
Definition contractAndChainFromSlug (slug : value) : M (value * value) :=
  let* answer :=
    request (PlatformRequest (to_string slug))
      (coingecko_platforms net (to_string slug))
      (read_response (parenthesised "CoinGecko lookup failed ")
         (fun d =>
            if truthy (ethereum d) then (ethereum d, Str "eth")
            else if truthy (solana d) then (solana d, Str "sol")
            else (Null, Null))) in
  await answer.

(** [await resolveCoinId(contractAddress, chain)] *)
Definition resolveCoinId (contractAddress chain : value) : M value :=
  let base := if is_str chain "eth" then "ethereum" else "solana" in
  let* answer :=
    request (ContractRequest base (to_string contractAddress))
      (coingecko_contract net base (to_string contractAddress))
      (read_response (parenthesised "CoinGecko contract-to-slug failed ") id) in
  await answer.

Definition _validateInput (coinId contractAddress chain : value) : M unit :=
  let errors : list string := [] in
  let errors :=
    if truthy coinId && negb (test COIN_ID coinId)
    then errors ++ ["Invalid coin ID format"] else errors in
  let errors :=
    if truthy contractAddress && is_str chain "eth"
       && negb (test CONTRACT_ADDRESS contractAddress)
    then errors ++ ["Invalid Ethereum contract address"] else errors in
  let errors :=
    if truthy contractAddress && is_str chain "sol"
       && negb (test SOLANA_ADDRESS contractAddress)
    then errors ++ ["Invalid Solana token address"] else errors in
  if (0 <? length errors)%nat
  then throw ("Validation failed: " +:+ String.concat ", " errors)
  else ret tt.

Definition _fetchCoinGeckoData (coinId : value) : M (promise MarketData) :=
  request (MarketRequest (to_string coinId))
    (coingecko_market net (to_string coinId))
    (read_response (status_message "CoinGecko API error: ") market_snapshot).

Definition _fetchEtherscanData (contractAddress : value) : M (promise ChainData) :=
  request (HolderRequest (to_string contractAddress))
    (etherscan_holders net (to_string contractAddress))
    (read_response (status_message "Etherscan API error: ") holder_statistics).

Definition _fetchSolanaData (contractAddress : value) : M (promise ChainData) :=
  request (TransferRequest (to_string contractAddress))
    (helius_transfers net (to_string contractAddress))
    (read_response (status_message "Helius API error: ") activity_with_zeros).

Definition _fetchDexScreenerData (contractAddress : value) : M (promise DexData) :=
  request (PoolRequest (to_string contractAddress))
    (dexscreener_pairs net (to_string contractAddress))
    (read_response (status_message "DexScreener API error: ") liquidity_snapshot).

Definition cacheKey (coinId contractAddress chain : value) : string :=
  sha256_hex h
    (to_string coinId +:+ ":" +:+ to_string contractAddress +:+ ":" +:+ to_string chain).

Definition score (marketData : MarketData) (chainData : ChainData) (dexData : DexData)
  : Scores :=
  {| greed := Scoring._calculateGreedScore marketData chainData;
     decentralization := Scoring._calculateDecentralization chainData;
     retail := Scoring._calculateRetailScore_guarded h chainData;
     volatility := Scoring._calculateVolatility marketData;
     liquidity_score := Scoring._calculateLiquidity marketData dexData |}.

(** "auto-fill missing pieces": the three conditional lookups, giving
    [(coinId, contractAddress, chain)] *)
Definition resolve (coinId contractAddress chain coinName : value)
  : M (value * value * value) :=
  let* coinId :=
    if negb (truthy coinId) && truthy coinName then slugFromName coinName
    else ret coinId in
  let* found :=
    if (negb (truthy contractAddress) || negb (truthy chain)) && truthy coinId
    then
      let* info := contractAndChainFromSlug coinId in
      ret (or contractAddress info.1, or chain info.2)
    else ret (contractAddress, chain) in
  let '(contractAddress, chain) := found in
  let* coinId :=
    if negb (truthy coinId) && truthy contractAddress && truthy chain
    then resolveCoinId contractAddress chain
    else ret coinId in
  ret (coinId, contractAddress, chain).

(** "fetch data in parallel, but only if we have a contract" *)
Definition aggregate (coinId contractAddress chain : value)
  : M (MarketData * ChainData * DexData) :=
  let* marketP := _fetchCoinGeckoData coinId in
  let* chainP :=
    if truthy contractAddress && truthy chain
    then (if is_str chain "eth" then _fetchEtherscanData contractAddress
          else _fetchSolanaData contractAddress)
    else Promise_resolve no_holders in
  let* dexP :=
    if truthy contractAddress && truthy chain
    then _fetchDexScreenerData contractAddress
    else Promise_resolve no_liquidity in
  Promise_all3 marketP chainP dexP.

(** whether one of the fetchers launched at instant [t] fails *)
Definition a_fetcher_fails (coinId contractAddress chain : value) (t : Z) : bool :=
  failed (answer (coingecko_market net (to_string coinId) t))
  || (truthy contractAddress && truthy chain
      && ((if is_str chain "eth"
           then failed (answer (etherscan_holders net (to_string contractAddress) t))
           else failed (answer (helius_transfers net (to_string contractAddress) t)))
          || failed (answer (dexscreener_pairs net (to_string contractAddress) t)))).

Definition error_result (t0 : Z) (message : string) : M AnalysisResult :=
  let* finished := Date_now in
  let* today := Date_now in
  ret (Failed message (finished - t0) today).

(** the [try] block up to the cache lookup: resolution, validation,
    admission and the lookup; gives the resolved triple and the entry found *)
Definition admit_and_lookup (coinId contractAddress chain clientId coinName : value)
  : M (value * value * value * option Analysis) :=
  let* identity := resolve coinId contractAddress chain coinName in
  let '(coinId, contractAddress, chain) := identity in
  let* _ :=
    if truthy contractAddress && truthy chain
    then _validateInput coinId contractAddress chain
    else _validateInput coinId Null Null in
  let* _ := RateLimiter._checkRateLimit clientId in
  let key := cacheKey coinId contractAddress chain in
  let* entries := get_cache in
  let* _ := log (CacheLookup key (bool_decide (is_Some (entries !! key)))) in
  ret (coinId, contractAddress, chain, entries !! key).

(** the [try] block after a cache miss *)
Definition compute (t0 : Z) (coinId contractAddress chain coinName : value)
  : M AnalysisResult :=
  let key := cacheKey coinId contractAddress chain in
  let* data := aggregate coinId contractAddress chain in
  let '(marketData, chainData, dexData) := data in
  let* finished := Date_now in
  let* today := Date_now in
  let result :=
    {| basic :=
         {| basic_name := Some (or coinName coinId);
            price := current_price marketData;
            price_change_24h := price_change_percentage_24h marketData;
            basic_market_cap := market_cap marketData;
            basic_volume_24h := volume_24h marketData;
            contract_address := contractAddress |};
       scores := score marketData chainData dexData;
       processingTime := finished - t0;
       timestamp := today |} in
  let* _ :=
    if CONFIG.ENCRYPT_CACHE h
    then
      let* entries := get_cache in
      let* _ := set_cache (<[key := result]> entries) in
      let* _ := log (CacheStore key) in
      setTimeout_delete key CONFIG.CACHE_TTL   (* "naive TTL eviction" *)
    else ret tt in
  ret (Computed result false).

Definition analyze_try (t0 : Z) (coinId contractAddress chain clientId coinName : value)
  : M AnalysisResult :=
  let* found := admit_and_lookup coinId contractAddress chain clientId coinName in
  let '(coinId, contractAddress, chain, entry) := found in
  match entry with
  | Some cached => ret (Computed cached true)
  | None => compute t0 coinId contractAddress chain coinName
  end.

(** [analyze(coinId, contractAddress, chain = 'eth', clientId = 'default',
    coinName = '')] *)
Definition analyze (coinId contractAddress chain clientId coinName : value)
  : M AnalysisResult :=
  let chain := param_default chain "eth" in
  let clientId := param_default clientId "default" in
  let coinName := param_default coinName "" in
  let* t0 := Date_now in
  try_catch (analyze_try t0 coinId contractAddress chain clientId coinName)
            (error_result t0).

(** [handler(req, res)] for a request with the given method and the five
    fields of its body, each with the default of the destructuring *)
Definition handler (method : string) (coinId coinName contractAddress chain clientId : value)
  : M PagesApi.sent :=
  if negb (String.eqb method "POST")
  then ret (PagesApi.JsonError 405 "Only POST requests allowed")
  else
    try_catch
      (let coinId := param_default coinId "" in
       let coinName := param_default coinName "" in
       let contractAddress := param_default contractAddress "" in
       let chain := param_default chain "" in
       let clientId := param_default clientId "default" in
       if negb (truthy coinId) && negb (truthy coinName) && negb (truthy contractAddress)
       then ret (PagesApi.JsonError 400 "Provide coinName, coinId or contractAddress")
       else
         let* data := analyze coinId contractAddress chain clientId coinName in
         ret (PagesApi.Json (if is_error data then 400 else 200) data))
      (fun message => ret (PagesApi.JsonError 500 "Server error")).

End Analyzer.
End Api.

(** A call from the HTTP handler arrives at some instant: until then the
    process is idle and the timers that come due fire. *)
Definition at_instant {A} (t : Z) (call : M A) : M A :=
  fun p => call (elapse_until t p).

(* ===================================================================== *)
(** ** Worlds to run the analyzer in                                      *)
(* ===================================================================== *)

Module Scenario.
Import JS.
Open Scope float_scope.

(** A host in production and one with [NODE_ENV] unset.  The digest is
    the identity here (as collision-free as a digest can be).  The logarithm
    is a stand-in: in the runs below the retail score is 0 whatever number
    it returns, the top holder's half of the supply outweighing it. *)
Definition production : host :=
  {| Math_log10 := fun _ => 0; sha256_hex := fun s => s; NODE_ENV := Some "production" |}.

Definition development : host :=
  {| Math_log10 := fun _ => 0; sha256_hex := fun s => s; NODE_ENV := None |}.

Definition ok {P} (ms : N) (payload : P) : reply P :=
  {| latency := ms; answer := Answered true 200 (inr payload) |}.

Definition down {P} (ms : N) (status : Z) : reply P :=
  {| latency := ms; answer := Answered false status (inl "unreadable") |}.

Definition uniswap : value := Str "uniswap".
Definition UNI : value := Str "0x1f9840a85d5af5bf1d1762f925bdaddc4201f984".

(** All providers up; the 24h volume CoinGecko reports rises after the
    first second. *)
Definition steady : upstream :=
  {| coingecko_search := fun _ _ => ok 40 [uniswap];
     coingecko_platforms := fun _ _ => ok 60 {| ethereum := UNI; solana := Undefined |};
     coingecko_contract := fun _ _ _ => ok 50 uniswap;
     coingecko_market := fun _ t =>
       ok 500 {| current_price_usd := 10;
                 price_change_percentage_24h_ := 5;
                 market_cap_usd := 5e9;
                 total_volume_usd := if (t <? 1000)%Z then 2e8 else 3e9 |};
     etherscan_holders := fun _ _ => ok 300 [50; 30; 20];
     helius_transfers := fun _ _ => ok 100 [];
     dexscreener_pairs := fun _ _ => ok 200 [1e7] |}.

(** The same with the liquidity provider answering 503. *)
Definition liquidity_down : upstream :=
  {| coingecko_search := coingecko_search steady;
     coingecko_platforms := coingecko_platforms steady;
     coingecko_contract := coingecko_contract steady;
     coingecko_market := coingecko_market steady;
     etherscan_holders := etherscan_holders steady;
     helius_transfers := helius_transfers steady;
     dexscreener_pairs := fun _ _ => down 200 503 |}.

(** A market payload for an asset CoinGecko lists with no market cap and
    no volume. *)
Definition unlisted : MarketPayload :=
  {| current_price_usd := 1; price_change_percentage_24h_ := 0;
     market_cap_usd := 0; total_volume_usd := 0 |}.

(** A market payload whose 24h volume is twenty times the market cap. *)
Definition churned : MarketPayload :=
  {| current_price_usd := 1; price_change_percentage_24h_ := 0;
     market_cap_usd := 1e8; total_volume_usd := 2e9 |}.

(** A market payload with a volume and no market cap. *)
Definition capless : MarketPayload :=
  {| current_price_usd := 1; price_change_percentage_24h_ := 0;
     market_cap_usd := 0; total_volume_usd := 1000 |}.

(** What the analysis of UNI comes to in [steady] when it starts at
    instant 0: the market answer, the slowest, arrives at 500. *)
Definition first_result : Analysis :=
  {| basic :=
       {| basic_name := None; price := 10; price_change_24h := 5;
          basic_market_cap := 5e9; basic_volume_24h := 2e8; contract_address := UNI |};
     scores :=
       {| greed := 50; decentralization := 45; retail := 0; volatility := 36;
          liquidity_score := 0 |};
     processingTime := 500;
     timestamp := 500 |}.

(** The same for a request that gives the name only to the name-resolving
    revision: the two lookups take 100 ms before the fetchers start. *)
Definition resolved_result : Analysis :=
  {| basic :=
       {| basic_name := Some uniswap; price := 10; price_change_24h := 5;
          basic_market_cap := 5e9; basic_volume_24h := 2e8; contract_address := UNI |};
     scores := scores first_result;
     processingTime := 600;
     timestamp := 600 |}.

(** The process after a client has made [n] calls at instants [1..n]. *)
Definition after_calls (clientId : value) (n : nat) : process :=
  {| cache := ∅;
     requestCounts := {[ clientId := List.map Z.of_nat (seq 1 n) ]};
     clock := Z.of_nat n; timers := []; trace := [] |}.

End Scenario.

(* ===================================================================== *)
(** ** Properties of runs                                                 *)
(* ===================================================================== *)

(** The timer does not remove [key] by instant [t]. *)
Definition spares (key : string) (t : Z) (timer : Z * string) : Prop :=
  timer.2 = key -> (t < timer.1)%Z.

(** From [p] to [p'] time did not go back, no entry was put into the cache
    and no timer was set; and an entry is as it was if no timer of [p] has
    removed it by the instant of [p']. *)
Definition quiet (p p' : process) : Prop :=
  cache p' ⊆ cache p
  /\ (clock p <= clock p')%Z
  /\ incl (timers p') (timers p)
  /\ (forall key, Forall (spares key (clock p')) (timers p) ->
                  cache p' !! key = cache p !! key).

(** From [p] to [p'] the events [evs] happened, and the cache was quiet. *)
Definition evolves (evs : list event) (p p' : process) : Prop :=
  trace p' = trace p ++ evs /\ quiet p p'.

Definition is_resolution (e : event) : bool :=
  match e with
  | SearchRequest _ | PlatformRequest _ | ContractRequest _ _ => true
  | _ => false
  end.

Definition is_fetch (e : event) : bool :=
  match e with
  | MarketRequest _ | HolderRequest _ | TransferRequest _ | PoolRequest _ => true
  | _ => false
  end.

(** Every event of [m] satisfies [ok], and [m] leaves the cache quiet. *)
Definition emits {A} (ok : event -> bool) (m : M A) : Prop :=
  forall p, exists evs, forallb ok evs = true /\ evolves evs p (m p).2.

(** What may follow a cache miss on [key]: requests of the three fetchers,
    then at most the store under [key]. *)
Fixpoint after_miss (key : string) (evs : list event) : bool :=
  match evs with
  | [] => true
  | [CacheStore k] => String.eqb k key
  | e :: rest => is_fetch e && after_miss key rest
  end.

(** What follows an admission: one cache lookup, and after a miss the above. *)
Definition after_admission (evs : list event) : bool :=
  match evs with
  | [CacheLookup _ true] => true
  | CacheLookup key false :: rest => after_miss key rest
  | _ => false
  end.

(** The order of the steps of one invocation: resolution requests, then the
    admission decision, and only after an admission the lookup, the fetches
    and the store. *)
Fixpoint in_order (evs : list event) : bool :=
  match evs with
  | [] => true
  | Admission _ false :: rest => match rest with [] => true | _ => false end
  | Admission _ true :: rest => after_admission rest
  | e :: rest => is_resolution e && in_order rest
  end.

(** The order the specification gives: nothing happens before the admission
    decision. *)
Definition admission_first (evs : list event) : bool :=
  match evs with
  | [] => true
  | Admission _ _ :: _ => true
  | _ => false
  end.

(** Calls arriving one after the other, each at its instant. *)
Fixpoint serve (calls : list (Z * M AnalysisResult)) (p : process)
  : list AnalysisResult * process :=
  match calls with
  | [] => ([], p)
  | (t, call) :: later =>
      match at_instant t call p with
      | (Normal r, p') => let '(rs, p'') := serve later p' in (r :: rs, p'')
      | (Throw _, p') => serve later p'
      end
  end.

(** A call of [analyze], of either revision. *)
Inductive is_analyze (h : host) (net : upstream) : M AnalysisResult -> Prop :=
| pages_call coinId contractAddress chain clientId :
    is_analyze h net (PagesApi.analyze h net coinId contractAddress chain clientId)
| api_call coinId contractAddress chain clientId coinName :
    is_analyze h net (Api.analyze h net coinId contractAddress chain clientId coinName).

(** Every entry of the cache has a pending timer that removes it, due after
    now and not later than [CACHE_TTL] after the entry's timestamp. *)
Definition unexpired (p : process) : Prop :=
  forall key r,
    cache p !! key = Some r ->
    exists due,
      In (due, key) (timers p)
      /\ (clock p < due)%Z
      /\ (due <= timestamp r + CONFIG.CACHE_TTL)%Z.

(** [m] keeps every entry of the cache covered by such a timer. *)
Definition keeps {A} (m : M A) : Prop :=
  forall p, unexpired p -> unexpired (m p).2.

(** A string with no colon in it. *)
Definition no_colon (s : string) : bool :=
  VALIDATION_PATTERNS.all_chars (fun c => negb (Ascii.eqb c ":")) s.

(** The latency of the holder (or transfer) request [analyze] sends for
    [chain] at instant [t]. *)
Definition chain_latency (net : upstream) (contractAddress chain : JS.value) (t : Z) : N :=
  if JS.is_str chain "eth"
  then latency (etherscan_holders net (JS.to_string contractAddress) t)
  else latency (helius_transfers net (JS.to_string contractAddress) t).

(* --------------------------------------------------------------------- *)
(** *** The runtime                                                       *)
(* --------------------------------------------------------------------- *)

Lemma quiet_same p p' :
  cache p' = cache p -> timers p' = timers p -> clock p' = clock p -> quiet p p'.
Proof.
  intros Hc Ht Hk. split; [rewrite Hc; reflexivity|]. split; [lia|].
  split; [rewrite Ht; apply incl_refl|]. intros key _. rewrite Hc. reflexivity.
Qed.

Lemma quiet_refl p : quiet p p.
Proof. apply quiet_same; reflexivity. Qed.

Lemma spares_earlier key t t' timers :
  (t <= t')%Z -> Forall (spares key t') timers -> Forall (spares key t) timers.
Proof.
  intros Hle H. eapply Forall_impl; [exact H|]. unfold spares. simpl. intros timer Ht Hk.
  specialize (Ht Hk). lia.
Qed.

Lemma quiet_trans p q r : quiet p q -> quiet q r -> quiet p r.
Proof.
  intros (Hs1 & Hk1 & Hi1 & Hq1) (Hs2 & Hk2 & Hi2 & Hq2).
  split; [etrans; eassumption|]. split; [lia|].
  split; [eapply incl_tran; eassumption|].
  intros key Hspared. rewrite Hq2, Hq1; [reflexivity | |].
  - eapply spares_earlier; [exact Hk2 | exact Hspared].
  - eapply incl_Forall; [exact Hi1 | exact Hspared].
Qed.

Lemma quiet_without_timers p q :
  quiet p q -> timers p = [] -> cache q = cache p /\ timers q = [].
Proof.
  intros (_ & _ & Hi & Hq) Ht. rewrite Ht in Hi, Hq. split.
  - apply map_eq. intros key. apply Hq. constructor.
  - apply incl_l_nil. exact Hi.
Qed.

Lemma evolves_refl p : evolves [] p p.
Proof. split; [symmetry; apply app_nil_r | apply quiet_refl]. Qed.

Lemma evolves_trans e1 e2 p q r :
  evolves e1 p q -> evolves e2 q r -> evolves (e1 ++ e2) p r.
Proof.
  intros [Ht1 Hq1] [Ht2 Hq2]. split.
  - rewrite Ht2, Ht1. symmetry. apply app_assoc.
  - eapply quiet_trans; eassumption.
Qed.

Lemma run_timers_subseteq now ts (c : gmap string Analysis) : run_timers now ts c ⊆ c.
Proof.
  unfold run_timers. revert c. induction ts as [|timer ts IH]; intros c; simpl.
  - reflexivity.
  - etrans; [apply IH|]. destruct (due now timer); [apply delete_subseteq | reflexivity].
Qed.

Lemma run_timers_spares key now ts (c : gmap string Analysis) :
  Forall (spares key now) ts -> run_timers now ts c !! key = c !! key.
Proof.
  unfold run_timers. intros H. revert c.
  induction H as [|timer ts Hspared _ IH]; intros c; simpl; [reflexivity|].
  rewrite IH. destruct (due now timer) eqn:Hdue; [|reflexivity].
  apply lookup_delete_ne. intros Hkey. specialize (Hspared Hkey).
  unfold due in Hdue. lia.
Qed.

Lemma elapse_until_evolves t p : evolves [] p (elapse_until t p).
Proof.
  split; [simpl; symmetry; apply app_nil_r|]. split; [apply run_timers_subseteq|].
  split; simpl; [lia|]. split; [apply incl_filter|].
  intros key. apply run_timers_spares.
Qed.

Lemma log_evolves e p : evolves [e] p (log e p).2.
Proof. split; [reflexivity | apply quiet_same; reflexivity]. Qed.

Lemma request_run {P A} e (ask : Z -> reply P) (read : response P -> string + A) p :
  request e ask read p =
    (Normal {| settles_at := clock p + Z.of_N (latency (ask (clock p)));
               settled := read (answer (ask (clock p))) |},
     (log e p).2).
Proof. reflexivity. Qed.

Lemma await_run {A} (pr : promise A) p :
  await pr p =
    (match settled pr with inl e => Throw e | inr a => Normal a end,
     elapse_until (settles_at pr) p).
Proof. unfold await. destruct (settled pr); reflexivity. Qed.

Lemma Promise_all3_elapses {A B C} (pa : promise A) (pb : promise B) (pc : promise C) p :
  exists t, (Promise_all3 pa pb pc p).2 = elapse_until t p.
Proof.
  unfold Promise_all3.
  destruct (settled pa), (settled pb), (settled pc);
    try (destruct (earlier _ _) as [[t e]|]); simpl; eauto.
Qed.

Lemma Promise_all3_resolved {A B C} (pa : promise A) (pb : promise B) (pc : promise C) p x :
  (Promise_all3 pa pb pc p).1 = Normal x ->
  settled pa = inr x.1.1 /\ settled pb = inr x.1.2 /\ settled pc = inr x.2.
Proof.
  unfold Promise_all3.
  destruct (settled pa), (settled pb), (settled pc);
    try (destruct (earlier _ _) as [[t e]|]); simpl; intros H; try discriminate.
  injection H as <-. auto.
Qed.

Lemma Promise_all3_rejected {A B C} (pa : promise A) (pb : promise B) (pc : promise C) p :
  (exists e, settled pa = inl e) \/ (exists e, settled pb = inl e) \/ (exists e, settled pc = inl e) ->
  exists e, (Promise_all3 pa pb pc p).1 = Throw e.
Proof.
  unfold Promise_all3. intros H.
  destruct (settled pa), (settled pb), (settled pc);
    try (destruct (earlier _ _) as [[t e]|]); simpl; eauto.
  destruct H as [[e H]|[[e H]|[e H]]]; discriminate.
Qed.

Lemma checkRateLimit_run clientId p :
  exists (b : bool) rc,
    RateLimiter._checkRateLimit clientId p =
      (if b then Normal tt else Throw "Rate limit exceeded",
       {| cache := cache p; requestCounts := rc; clock := clock p; timers := timers p;
          trace := trace p ++ [Admission clientId b] |}).
Proof.
  unfold RateLimiter._checkRateLimit, bind, Date_now, get_requestCounts, set_requestCounts, log.
  simpl.
  match goal with |- context [RateLimiter.admitted ?ts] => exists (RateLimiter.admitted ts) end.
  eexists. destruct (RateLimiter.admitted _); reflexivity.
Qed.

Lemma read_checked_failed {P A} label (map : P -> string + A) r :
  failed r = true -> exists e, read_checked label map r = inl e.
Proof.
  destruct r as [e|ok status [e|payload]]; simpl; eauto.
  - destruct ok; simpl; eauto.
  - destruct ok; simpl; [discriminate | eauto].
Qed.

Lemma read_response_failed {P A} label (map : P -> A) r :
  failed r = true -> exists e, read_response label map r = inl e.
Proof. apply read_checked_failed. Qed.

Lemma rethrow_as_failed {A} failure (x : string + A) :
  (exists e, x = inl e) -> exists e, rethrow_as failure x = inl e.
Proof. intros [e ->]. simpl. eauto. Qed.

Lemma pages_validateInput_state coinId ca chain p :
  (PagesApi._validateInput coinId ca chain p).2 = p.
Proof. unfold PagesApi._validateInput. cbv zeta. destruct (0 <? _)%nat; reflexivity. Qed.

Lemma api_validateInput_state coinId ca chain p :
  (Api._validateInput coinId ca chain p).2 = p.
Proof. unfold Api._validateInput. cbv zeta. destruct (0 <? _)%nat; reflexivity. Qed.

Lemma pages_admit_and_lookup_run h coinId ca chain clientId p :
  let key := PagesApi.cacheKey h coinId ca chain in
  exists c p' evs,
    PagesApi.admit_and_lookup h coinId ca chain clientId p = (c, p') /\
    cache p' = cache p /\ timers p' = timers p /\ clock p' = clock p /\
    trace p' = trace p ++ evs /\
    ((evs = [] /\ exists e, c = Throw e)
     \/ (evs = [Admission clientId false] /\ c = Throw "Rate limit exceeded")
     \/ (evs = [Admission clientId true; CacheLookup key (bool_decide (is_Some (cache p !! key)))]
         /\ c = Normal (cache p !! key))).
Proof.
  intros key. unfold PagesApi.admit_and_lookup, bind.
  pose proof (pages_validateInput_state coinId ca chain p) as Hv.
  destruct (PagesApi._validateInput coinId ca chain p) as [[[]|e] p0]; simpl in Hv; subst p0.
  - destruct (checkRateLimit_run clientId p) as (b & rc & ->). destruct b; simpl.
    + do 3 eexists. split; [reflexivity|]. simpl. repeat split.
      * rewrite <- app_assoc. reflexivity.
      * right. right. split; reflexivity.
    + do 3 eexists. split; [reflexivity|]. simpl. repeat split. right. left. split; reflexivity.
  - exists (Throw e), p, []. repeat split; [symmetry; apply app_nil_r | left; eauto].
Qed.

Lemma evolves_elapse evs p q t : evolves evs p q -> evolves evs p (elapse_until t q).
Proof.
  intros H. rewrite <- (app_nil_r evs). eapply evolves_trans; [exact H | apply elapse_until_evolves].
Qed.

Lemma pages_aggregate_evolves net coinId ca chain p :
  evolves [MarketRequest (JS.to_string coinId);
           (if JS.is_str chain "eth" then HolderRequest (JS.to_string ca)
            else TransferRequest (JS.to_string ca));
           PoolRequest (JS.to_string ca)]
          p (PagesApi.aggregate net coinId ca chain p).2.
Proof.
  unfold PagesApi.aggregate, PagesApi._fetchCoinGeckoData, PagesApi._fetchEtherscanData,
    PagesApi._fetchSolanaData, PagesApi._fetchDexScreenerData, bind.
  rewrite request_run.
  destruct (JS.is_str chain "eth"); rewrite !request_run;
    match goal with |- context [Promise_all3 ?a ?b ?c ?q] =>
      destruct (Promise_all3_elapses a b c q) as [t ->] end;
    apply evolves_elapse;
    (split; [simpl; rewrite <- !app_assoc; reflexivity | apply quiet_same; reflexivity]).
Qed.

Lemma emits_ret {A} ok (a : A) : emits ok (ret a).
Proof. intros p. exists []. split; [reflexivity | apply evolves_refl]. Qed.

Lemma emits_throw {A} ok e : emits ok (@throw A e).
Proof. intros p. exists []. split; [reflexivity | apply evolves_refl]. Qed.

Lemma emits_bind {A B} ok (m : M A) (k : A -> M B) :
  emits ok m -> (forall a, emits ok (k a)) -> emits ok (bind m k).
Proof.
  intros Hm Hk p. destruct (Hm p) as (e1 & Hok1 & H1). unfold bind.
  destruct (m p) as [[a|e] q]; simpl in H1.
  - destruct (Hk a q) as (e2 & Hok2 & H2). exists (e1 ++ e2). split.
    + rewrite forallb_app, Hok1, Hok2. reflexivity.
    + eapply evolves_trans; eassumption.
  - exists e1. split; assumption.
Qed.

Lemma emits_if {A} ok (b : bool) (m1 m2 : M A) :
  emits ok m1 -> emits ok m2 -> emits ok (if b then m1 else m2).
Proof. destruct b; auto. Qed.

Lemma emits_request {P A} ok e (ask : Z -> reply P) (read : response P -> string + A) :
  ok e = true -> emits ok (request e ask read).
Proof.
  intros He p. exists [e]. rewrite request_run. split.
  - simpl. rewrite He. reflexivity.
  - apply log_evolves.
Qed.

Lemma emits_await {A} ok (pr : promise A) : emits ok (await pr).
Proof.
  intros p. exists []. rewrite await_run. split; [reflexivity | apply elapse_until_evolves].
Qed.

Lemma emits_Promise_resolve {A} ok (v : A) : emits ok (Promise_resolve v).
Proof. intros p. exists []. split; [reflexivity | apply evolves_refl]. Qed.

Lemma emits_Promise_all3 {A B C} ok (pa : promise A) (pb : promise B) (pc : promise C) :
  emits ok (Promise_all3 pa pb pc).
Proof.
  intros p. exists []. destruct (Promise_all3_elapses pa pb pc p) as [t ->].
  split; [reflexivity | apply elapse_until_evolves].
Qed.

Lemma emits_Date_now ok : emits ok Date_now.
Proof. intros p. exists []. split; [reflexivity | apply evolves_refl]. Qed.

Create HintDb emits.
#[local] Hint Resolve emits_ret emits_throw emits_await emits_Promise_resolve
  emits_Promise_all3 emits_Date_now : emits.

Ltac emits_step :=
  first
    [ apply emits_request; reflexivity
    | solve [ auto with emits ]
    | apply emits_bind; [| intros ? ]
    | apply emits_if
    | match goal with |- emits _ (match ?x with _ => _ end) => destruct x end ].

Lemma api_resolve_emits net coinId ca chain coinName :
  emits is_resolution (Api.resolve net coinId ca chain coinName).
Proof.
  unfold Api.resolve, Api.slugFromName, Api.contractAndChainFromSlug, Api.resolveCoinId.
  repeat emits_step.
Qed.

Lemma api_aggregate_emits net coinId ca chain :
  emits is_fetch (Api.aggregate net coinId ca chain).
Proof.
  unfold Api.aggregate, Api._fetchCoinGeckoData, Api._fetchEtherscanData,
    Api._fetchSolanaData, Api._fetchDexScreenerData.
  repeat emits_step.
Qed.

Lemma pages_aggregate_fails net coinId ca chain p :
  PagesApi.a_fetcher_fails net coinId ca chain (clock p) = true ->
  exists e, (PagesApi.aggregate net coinId ca chain p).1 = Throw e.
Proof.
  unfold PagesApi.a_fetcher_fails, PagesApi.aggregate, PagesApi._fetchCoinGeckoData,
    PagesApi._fetchEtherscanData, PagesApi._fetchSolanaData, PagesApi._fetchDexScreenerData, bind.
  intros H. rewrite request_run.
  destruct (JS.is_str chain "eth"); rewrite !request_run; apply Promise_all3_rejected; simpl;
    apply orb_true_iff in H as [H|H]; try apply orb_true_iff in H as [H|H];
    eauto using rethrow_as_failed, read_response_failed.
Qed.

Lemma pages_compute_run h net startTime coinId ca chain p :
  let key := PagesApi.cacheKey h coinId ca chain in
  let q := (PagesApi.aggregate net coinId ca chain p).2 in
  PagesApi.compute h net startTime coinId ca chain p =
    match (PagesApi.aggregate net coinId ca chain p).1 with
    | Throw e => (Throw e, q)
    | Normal (m, c, d) =>
        let result :=
          {| basic :=
               {| basic_name := None;
                  price := current_price m;
                  price_change_24h := price_change_percentage_24h m;
                  basic_market_cap := market_cap m;
                  basic_volume_24h := volume_24h m;
                  contract_address := ca |};
             scores := PagesApi.score h m c d;
             processingTime := clock q - startTime;
             timestamp := clock q |} in
        (Normal (Computed result false),
         if CONFIG.ENCRYPT_CACHE h
         then {| cache := <[key := result]> (cache q); requestCounts := requestCounts q;
                 clock := clock q; timers := timers q; trace := trace q ++ [CacheStore key] |}
         else q)
    end.
Proof.
  intros key q. subst q. unfold PagesApi.compute, bind.
  destruct (PagesApi.aggregate net coinId ca chain p) as [[[[m c] d]|e] q]; simpl; [|reflexivity].
  destruct (CONFIG.ENCRYPT_CACHE h); reflexivity.
Qed.

Lemma api_admit_and_lookup_run h net coinId ca chain clientId coinName p :
  exists c p' res rest,
    Api.admit_and_lookup h net coinId ca chain clientId coinName p = (c, p') /\
    forallb is_resolution res = true /\ evolves (res ++ rest) p p' /\
    ((rest = [] /\ exists e, c = Throw e)
     \/ (rest = [Admission clientId false] /\ c = Throw "Rate limit exceeded")
     \/ (exists id ca' ch',
           rest = [Admission clientId true;
                   CacheLookup (Api.cacheKey h id ca' ch')
                     (bool_decide (is_Some (cache p' !! Api.cacheKey h id ca' ch')))]
           /\ c = Normal (id, ca', ch', cache p' !! Api.cacheKey h id ca' ch'))).
Proof.
  unfold Api.admit_and_lookup. unfold bind at 1.
  destruct (api_resolve_emits net coinId ca chain coinName p) as (res & Hres & Hev).
  destruct (Api.resolve net coinId ca chain coinName p) as [[[[id ca'] ch']|e] q]; simpl in Hev.
  2:{ exists (Throw e), q, res, []. rewrite app_nil_r.
      split; [reflexivity|]. split; [exact Hres|]. split; [exact Hev|]. left. eauto. }
  unfold bind at 1.
  assert (exists c0,
    (if JS.truthy ca' && JS.truthy ch' then Api._validateInput id ca' ch'
     else Api._validateInput id JS.Null JS.Null) q = (c0, q)) as [c0 ->].
  { destruct (JS.truthy ca' && JS.truthy ch');
      [ pose proof (api_validateInput_state id ca' ch' q) as Hv
      | pose proof (api_validateInput_state id JS.Null JS.Null q) as Hv ];
      destruct (Api._validateInput _ _ _ q) as [c0 q0]; simpl in Hv; subst q0; eauto. }
  destruct c0 as [[]|e].
  2:{ exists (Throw e), q, res, []. rewrite app_nil_r.
      split; [reflexivity|]. split; [exact Hres|]. split; [exact Hev|]. left. eauto. }
  unfold bind. destruct (checkRateLimit_run clientId q) as (b & rc & ->).
  destruct b; simpl.
  - do 2 eexists. exists res. eexists. split; [reflexivity|]. split; [exact Hres|]. split.
    2:{ right. right. exists id, ca', ch'. simpl. split; reflexivity. }
    eapply evolves_trans; [exact Hev|]. split; simpl.
    + rewrite <- app_assoc. reflexivity.
    + apply quiet_same; reflexivity.
  - do 2 eexists. exists res. eexists. split; [reflexivity|]. split; [exact Hres|]. split.
    2:{ right. left. split; reflexivity. }
    eapply evolves_trans; [exact Hev|]. split; simpl; [reflexivity | apply quiet_same; reflexivity].
Qed.

Lemma api_compute_run h net t0 coinId ca chain coinName p :
  let key := Api.cacheKey h coinId ca chain in
  let q := (Api.aggregate net coinId ca chain p).2 in
  Api.compute h net t0 coinId ca chain coinName p =
    match (Api.aggregate net coinId ca chain p).1 with
    | Throw e => (Throw e, q)
    | Normal (m, c, d) =>
        let result :=
          {| basic :=
               {| basic_name := Some (JS.or coinName coinId);
                  price := current_price m;
                  price_change_24h := price_change_percentage_24h m;
                  basic_market_cap := market_cap m;
                  basic_volume_24h := volume_24h m;
                  contract_address := ca |};
             scores := Api.score h m c d;
             processingTime := clock q - t0;
             timestamp := clock q |} in
        (Normal (Computed result false),
         if CONFIG.ENCRYPT_CACHE h
         then {| cache := <[key := result]> (cache q); requestCounts := requestCounts q;
                 clock := clock q;
                 timers := timers q ++ [(clock q + CONFIG.CACHE_TTL, key)%Z];
                 trace := trace q ++ [CacheStore key] |}
         else q)
    end.
Proof.
  intros key q. subst q. unfold Api.compute, bind.
  destruct (Api.aggregate net coinId ca chain p) as [[[[m c] d]|e] q]; simpl; [|reflexivity].
  destruct (CONFIG.ENCRYPT_CACHE h); reflexivity.
Qed.

Lemma api_aggregate_fails net coinId ca chain p :
  Api.a_fetcher_fails net coinId ca chain (clock p) = true ->
  exists e, (Api.aggregate net coinId ca chain p).1 = Throw e.
Proof.
  unfold Api.a_fetcher_fails, Api.aggregate, Api._fetchCoinGeckoData,
    Api._fetchEtherscanData, Api._fetchSolanaData, Api._fetchDexScreenerData, bind.
  intros H. rewrite request_run.
  destruct (JS.truthy ca && JS.truthy chain); simpl in H.
  - destruct (JS.is_str chain "eth"); rewrite !request_run; apply Promise_all3_rejected; simpl;
      apply orb_true_iff in H as [H|H]; try apply orb_true_iff in H as [H|H];
      eauto using read_response_failed.
  - rewrite orb_false_r in H. simpl. apply Promise_all3_rejected; simpl.
    eauto using read_response_failed.
Qed.

Lemma api_aggregate_events net coinId ca chain p :
  evolves
    (MarketRequest (JS.to_string coinId)
       :: (if JS.truthy ca && JS.truthy chain
           then [ (if JS.is_str chain "eth" then HolderRequest (JS.to_string ca)
                   else TransferRequest (JS.to_string ca));
                  PoolRequest (JS.to_string ca) ]
           else []))
    p (Api.aggregate net coinId ca chain p).2.
Proof.
  unfold Api.aggregate, Api._fetchCoinGeckoData, Api._fetchEtherscanData,
    Api._fetchSolanaData, Api._fetchDexScreenerData, bind.
  rewrite request_run.
  destruct (JS.truthy ca && JS.truthy chain); [destruct (JS.is_str chain "eth")|];
    rewrite ?request_run; simpl;
    match goal with |- context [Promise_all3 ?a ?b ?c ?q] =>
      destruct (Promise_all3_elapses a b c q) as [t ->] end;
    apply evolves_elapse;
    (split; [simpl; rewrite <- ?app_assoc; reflexivity | apply quiet_same; reflexivity]).
Qed.

Lemma api_aggregate_substitutes net coinId ca chain p m c d :
  JS.truthy ca && JS.truthy chain = false ->
  (Api.aggregate net coinId ca chain p).1 = Normal (m, c, d) ->
  c = Fetchers.no_holders /\ d = Fetchers.no_liquidity.
Proof.
  unfold Api.aggregate, Api._fetchCoinGeckoData, bind. intros ->. rewrite request_run. simpl.
  intros H. apply Promise_all3_resolved in H as (_ & Hc & Hd). simpl in Hc, Hd.
  split; congruence.
Qed.

(* --------------------------------------------------------------------- *)
(** *** The [try] block                                                   *)
(* --------------------------------------------------------------------- *)

(** What the [try] block of [src/api/analyze.js] comes to, case by case. *)
Lemma pages_analyze_try_run h net startTime coinId ca chain clientId p :
  let key := PagesApi.cacheKey h coinId ca chain in
  exists c p1 evs,
    PagesApi.admit_and_lookup h coinId ca chain clientId p = (c, p1) /\
    cache p1 = cache p /\ timers p1 = timers p /\ clock p1 = clock p /\
    trace p1 = trace p ++ evs /\
    ((evs = [] /\ exists e, c = Throw e /\
        PagesApi.analyze_try h net startTime coinId ca chain clientId p = (Throw e, p1))
     \/ (evs = [Admission clientId false] /\ c = Throw "Rate limit exceeded" /\
        PagesApi.analyze_try h net startTime coinId ca chain clientId p
          = (Throw "Rate limit exceeded", p1))
     \/ (exists cached,
           evs = [Admission clientId true; CacheLookup key true] /\
           cache p !! key = Some cached /\ c = Normal (Some cached) /\
           PagesApi.analyze_try h net startTime coinId ca chain clientId p
             = (Normal (Computed cached true), p1))
     \/ (evs = [Admission clientId true; CacheLookup key false] /\
         cache p !! key = None /\ c = Normal None /\
         PagesApi.analyze_try h net startTime coinId ca chain clientId p
           = PagesApi.compute h net startTime coinId ca chain p1)).
Proof.
  intros key.
  destruct (pages_admit_and_lookup_run h coinId ca chain clientId p)
    as (c & p1 & evs & Hrun & Hc & Ht & Hk & Htr & Hcases).
  exists c, p1, evs. unfold PagesApi.analyze_try, bind. rewrite Hrun.
  split; [reflexivity|]. do 4 (split; [assumption|]).
  destruct Hcases as [(-> & e & ->)|[(-> & ->)|(-> & ->)]].
  - left. eauto.
  - right. left. auto.
  - fold key. destruct (cache p !! key) as [cached|] eqn:Hlook.
    + right. right. left. exists cached. rewrite bool_decide_eq_true_2 by eauto. auto.
    + right. right. right. rewrite bool_decide_eq_false_2 by (intros [? ?]; discriminate). auto.
Qed.

(** The same for the name-resolving revision. *)
Lemma api_analyze_try_run h net t0 coinId ca chain clientId coinName p :
  exists c p1 res rest,
    Api.admit_and_lookup h net coinId ca chain clientId coinName p = (c, p1) /\
    forallb is_resolution res = true /\ evolves (res ++ rest) p p1 /\
    ((rest = [] /\ exists e, c = Throw e /\
        Api.analyze_try h net t0 coinId ca chain clientId coinName p = (Throw e, p1))
     \/ (rest = [Admission clientId false] /\ c = Throw "Rate limit exceeded" /\
        Api.analyze_try h net t0 coinId ca chain clientId coinName p
          = (Throw "Rate limit exceeded", p1))
     \/ (exists id ca' ch' cached,
           rest = [Admission clientId true; CacheLookup (Api.cacheKey h id ca' ch') true] /\
           cache p1 !! Api.cacheKey h id ca' ch' = Some cached /\
           c = Normal (id, ca', ch', Some cached) /\
           Api.analyze_try h net t0 coinId ca chain clientId coinName p
             = (Normal (Computed cached true), p1))
     \/ (exists id ca' ch',
           rest = [Admission clientId true; CacheLookup (Api.cacheKey h id ca' ch') false] /\
           cache p1 !! Api.cacheKey h id ca' ch' = None /\
           c = Normal (id, ca', ch', None) /\
           Api.analyze_try h net t0 coinId ca chain clientId coinName p
             = Api.compute h net t0 id ca' ch' coinName p1)).
Proof.
  destruct (api_admit_and_lookup_run h net coinId ca chain clientId coinName p)
    as (c & p1 & res & rest & Hrun & Hres & Hev & Hcases).
  exists c, p1, res, rest. unfold Api.analyze_try, bind. rewrite Hrun.
  split; [reflexivity|]. do 2 (split; [assumption|]).
  destruct Hcases as [(-> & e & ->)|[(-> & ->)|(id & ca' & ch' & -> & ->)]].
  - left. eauto.
  - right. left. auto.
  - destruct (cache p1 !! Api.cacheKey h id ca' ch') as [cached|] eqn:Hlook.
    + right. right. left. exists id, ca', ch', cached.
      rewrite bool_decide_eq_true_2 by eauto. auto.
    + right. right. right. exists id, ca', ch'.
      rewrite bool_decide_eq_false_2 by (intros [? ?]; discriminate). auto.
Qed.

Lemma pages_analyze_run h net coinId ca chain clientId p :
  PagesApi.analyze h net coinId ca chain clientId p =
    match PagesApi.analyze_try h net (clock p) coinId ca
            (JS.param_default chain "eth") (JS.param_default clientId "default") p with
    | (Normal r, q) => (Normal r, q)
    | (Throw e, q) => (Normal (Failed e (clock q - clock p) (clock q)), q)
    end.
Proof.
  unfold PagesApi.analyze, bind, Date_now, try_catch.
  destruct (PagesApi.analyze_try _ _ _ _ _ _ _ p) as [[r|e] q]; reflexivity.
Qed.

Lemma api_analyze_run h net coinId ca chain clientId coinName p :
  Api.analyze h net coinId ca chain clientId coinName p =
    match Api.analyze_try h net (clock p) coinId ca
            (JS.param_default chain "eth") (JS.param_default clientId "default")
            (JS.param_default coinName "") p with
    | (Normal r, q) => (Normal r, q)
    | (Throw e, q) => (Normal (Failed e (clock q - clock p) (clock q)), q)
    end.
Proof.
  unfold Api.analyze, bind, Date_now, try_catch.
  destruct (Api.analyze_try _ _ _ _ _ _ _ _ p) as [[r|e] q]; reflexivity.
Qed.

Lemma pages_compute_computed h net startTime coinId ca chain p r q :
  PagesApi.compute h net startTime coinId ca chain p = (Normal r, q) -> is_error r = false.
Proof.
  rewrite pages_compute_run.
  destruct (PagesApi.aggregate net coinId ca chain p).1 as [[[m c] d]|e]; [|discriminate].
  intros [= <- _]. reflexivity.
Qed.

Lemma api_compute_computed h net t0 coinId ca chain coinName p r q :
  Api.compute h net t0 coinId ca chain coinName p = (Normal r, q) -> is_error r = false.
Proof.
  rewrite api_compute_run.
  destruct (Api.aggregate net coinId ca chain p).1 as [[[m c] d]|e]; [|discriminate].
  intros [= <- _]. reflexivity.
Qed.

Lemma pages_analyze_try_computed h net startTime coinId ca chain clientId p r q :
  PagesApi.analyze_try h net startTime coinId ca chain clientId p = (Normal r, q) ->
  is_error r = false.
Proof.
  destruct (pages_analyze_try_run h net startTime coinId ca chain clientId p)
    as (c & p1 & evs & _ & _ & _ & _ & _ & Hcases).
  destruct Hcases as [(_ & e & _ & ->)|[(_ & _ & ->)|[(cached & _ & _ & _ & ->)|(_ & _ & _ & ->)]]];
    try discriminate.
  - intros [= <- _]. reflexivity.
  - apply pages_compute_computed.
Qed.

Lemma api_analyze_try_computed h net t0 coinId ca chain clientId coinName p r q :
  Api.analyze_try h net t0 coinId ca chain clientId coinName p = (Normal r, q) ->
  is_error r = false.
Proof.
  destruct (api_analyze_try_run h net t0 coinId ca chain clientId coinName p)
    as (c & p1 & res & rest & _ & _ & _ & Hcases).
  destruct Hcases as [(_ & e & _ & ->)|[(_ & _ & ->)
    |[(id & ca' & ch' & cached & _ & _ & _ & ->)|(id & ca' & ch' & _ & _ & _ & ->)]]];
    try discriminate.
  - intros [= <- _]. reflexivity.
  - apply api_compute_computed.
Qed.

(* --------------------------------------------------------------------- *)
(** *** C2                                                                *)
(* --------------------------------------------------------------------- *)

(** C2. [analyze] never raises, in either revision: for every input, every
    analyzer state and every behaviour of the providers it completes
    normally with a result; whatever the [try] block throws (a validation
    failure, a denied admission, a failed resolution, a failed fetch)
    becomes the result [{error: true, message, processingTime, timestamp}]
    whose message is the error's and whose [processingTime] is the time from
    entry to exit; and a result is error-shaped only in that way. *)
Theorem analyze_never_raises (h : host) (net : upstream) :
  (forall coinId ca chain clientId p,
      exists r p',
        PagesApi.analyze h net coinId ca chain clientId p = (Normal r, p')
        /\ (forall e q,
              PagesApi.analyze_try h net (clock p) coinId ca (JS.param_default chain "eth")
                (JS.param_default clientId "default") p = (Throw e, q) ->
              r = Failed e (clock p' - clock p) (clock p') /\ p' = q)
        /\ (is_error r = true ->
            exists e, r = Failed e (clock p' - clock p) (clock p')))
  /\ (forall coinId ca chain clientId coinName p,
        exists r p',
          Api.analyze h net coinId ca chain clientId coinName p = (Normal r, p')
          /\ (forall e q,
                Api.analyze_try h net (clock p) coinId ca (JS.param_default chain "eth")
                  (JS.param_default clientId "default") (JS.param_default coinName "") p
                  = (Throw e, q) ->
                r = Failed e (clock p' - clock p) (clock p') /\ p' = q)
          /\ (is_error r = true ->
              exists e, r = Failed e (clock p' - clock p) (clock p'))).
Proof.
  split.
  - intros coinId ca chain clientId p. rewrite pages_analyze_run.
    destruct (PagesApi.analyze_try _ _ _ _ _ _ _ p) as [[r|e] q] eqn:Htry.
    + exists r, q. split; [reflexivity|]. split; [discriminate|].
      rewrite (pages_analyze_try_computed _ _ _ _ _ _ _ _ _ _ Htry). discriminate.
    + eexists _, q. split; [reflexivity|]. split; [|eauto].
      intros e' q' [= <- <-]. auto.
  - intros coinId ca chain clientId coinName p. rewrite api_analyze_run.
    destruct (Api.analyze_try _ _ _ _ _ _ _ _ p) as [[r|e] q] eqn:Htry.
    + exists r, q. split; [reflexivity|]. split; [discriminate|].
      rewrite (api_analyze_try_computed _ _ _ _ _ _ _ _ _ _ _ Htry). discriminate.
    + eexists _, q. split; [reflexivity|]. split; [|eauto].
      intros e' q' [= <- <-]. auto.
Qed.

(* --------------------------------------------------------------------- *)
(** *** The order of events                                               *)
(* --------------------------------------------------------------------- *)

Lemma after_miss_fetches key fetches :
  forallb is_fetch fetches = true ->
  after_miss key fetches = true /\ after_miss key (fetches ++ [CacheStore key]) = true.
Proof.
  induction fetches as [|e rest IH]; intros H.
  - split; [reflexivity|]. simpl. apply String.eqb_refl.
  - simpl in H. apply andb_true_iff in H as [He Hrest]. destruct (IH Hrest) as [IH1 IH2].
    split.
    + destruct e; try discriminate; simpl; exact IH1.
    + destruct e; try discriminate; simpl;
        (destruct rest; [simpl; apply String.eqb_refl | exact IH2]).
Qed.

Lemma in_order_resolution res rest :
  forallb is_resolution res = true -> in_order rest = true -> in_order (res ++ rest) = true.
Proof.
  induction res as [|e res IH]; intros H Hrest; [exact Hrest|].
  simpl in H. apply andb_true_iff in H as [He Hres].
  destruct e; try discriminate; simpl; apply IH; assumption.
Qed.

Lemma forallb_is_resolution_in_order res :
  forallb is_resolution res = true -> in_order res = true.
Proof.
  intros H. rewrite <- (app_nil_r res). apply in_order_resolution; [exact H | reflexivity].
Qed.

(* --------------------------------------------------------------------- *)
(** *** The effect of the part after a cache miss                         *)
(* --------------------------------------------------------------------- *)

Lemma quiet_of_evolves evs p q : evolves evs p q -> quiet p q.
Proof. intros [_ H]. exact H. Qed.

Lemma pages_compute_effect h net startTime coinId ca chain p :
  let key := PagesApi.cacheKey h coinId ca chain in
  let run := PagesApi.compute h net startTime coinId ca chain p in
  exists fetches stores,
    forallb is_fetch fetches = true
    /\ trace run.2 = trace p ++ fetches ++ stores
    /\ ((stores = [] /\ quiet p run.2)
        \/ (stores = [CacheStore key] /\ CONFIG.ENCRYPT_CACHE h = true
            /\ exists r, run.1 = Normal (Computed r false)))
    /\ ((exists e, run.1 = Throw e) \/ CONFIG.ENCRYPT_CACHE h = false -> stores = []).
Proof.
  intros key run. subst run. rewrite pages_compute_run. fold key.
  pose proof (pages_aggregate_evolves net coinId ca chain p) as Hev.
  set (fetches := [MarketRequest _; _; _]) in Hev.
  assert (forallb is_fetch fetches = true) as Hf
    by (subst fetches; destruct (JS.is_str chain "eth"); reflexivity).
  destruct Hev as [Htr Hq].
  destruct (PagesApi.aggregate net coinId ca chain p) as [[[[m c] d]|e] q]; simpl in *.
  - destruct (CONFIG.ENCRYPT_CACHE h) eqn:Hflag.
    + exists fetches, [CacheStore key]. simpl. rewrite Htr, <- app_assoc.
      split; [exact Hf|]. split; [reflexivity|]. split; [right; eauto|].
      intros [[e He]|He]; discriminate.
    + exists fetches, []. rewrite app_nil_r.
      split; [exact Hf|]. split; [exact Htr|]. split; [left; split; [reflexivity | exact Hq]|].
      intros _. reflexivity.
  - exists fetches, []. rewrite app_nil_r.
      split; [exact Hf|]. split; [exact Htr|]. split; [left; split; [reflexivity | exact Hq]|].
      intros _. reflexivity.
Qed.

Lemma api_compute_effect h net t0 coinId ca chain coinName p :
  let key := Api.cacheKey h coinId ca chain in
  let run := Api.compute h net t0 coinId ca chain coinName p in
  exists fetches stores,
    forallb is_fetch fetches = true
    /\ trace run.2 = trace p ++ fetches ++ stores
    /\ ((stores = [] /\ quiet p run.2)
        \/ (stores = [CacheStore key] /\ CONFIG.ENCRYPT_CACHE h = true
            /\ exists r, run.1 = Normal (Computed r false)))
    /\ ((exists e, run.1 = Throw e) \/ CONFIG.ENCRYPT_CACHE h = false -> stores = []).
Proof.
  intros key run. subst run. rewrite api_compute_run. fold key.
  destruct (api_aggregate_emits net coinId ca chain p) as (fetches & Hf & Htr & Hq).
  destruct (Api.aggregate net coinId ca chain p) as [[[[m c] d]|e] q]; simpl in *.
  - destruct (CONFIG.ENCRYPT_CACHE h) eqn:Hflag.
    + exists fetches, [CacheStore key]. simpl. rewrite Htr, <- app_assoc.
      split; [exact Hf|]. split; [reflexivity|]. split; [right; eauto|].
      intros [[e He]|He]; discriminate.
    + exists fetches, []. rewrite app_nil_r.
      split; [exact Hf|]. split; [exact Htr|]. split; [left; split; [reflexivity | exact Hq]|].
      intros _. reflexivity.
  - exists fetches, []. rewrite app_nil_r.
      split; [exact Hf|]. split; [exact Htr|]. split; [left; split; [reflexivity | exact Hq]|].
      intros _. reflexivity.
Qed.

(* --------------------------------------------------------------------- *)
(** *** The effect of one call                                            *)
(* --------------------------------------------------------------------- *)

Lemma subseteq_empty_lookup (c c0 : gmap string Analysis) key :
  c ⊆ c0 -> c0 = ∅ -> c !! key = None.
Proof.
  intros Hsub ->. destruct (c !! key) as [x|] eqn:Hx; [|reflexivity].
  eapply lookup_weaken in Hx; [|exact Hsub]. rewrite lookup_empty in Hx. discriminate.
Qed.

Lemma subseteq_empty (c c0 : gmap string Analysis) : c ⊆ c0 -> c0 = ∅ -> c = ∅.
Proof.
  intros Hsub Hc. apply map_eq. intros key. rewrite lookup_empty.
  eapply subseteq_empty_lookup; eassumption.
Qed.

Lemma pages_analyze_effect h net coinId ca chain clientId p :
  let run := PagesApi.analyze h net coinId ca chain clientId p in
  exists r evs,
    run.1 = Normal r
    /\ trace run.2 = trace p ++ evs
    /\ in_order evs = true
    /\ (CONFIG.ENCRYPT_CACHE h = false \/ is_error r = true -> quiet p run.2)
    /\ (cache p = ∅ -> from_cache r = false).
Proof.
  intros run. subst run. rewrite pages_analyze_run.
  destruct (pages_analyze_try_run h net (clock p) coinId ca (JS.param_default chain "eth")
              (JS.param_default clientId "default") p)
    as (c & p1 & evs & _ & Hc & Ht & Hk & Htr & Hcases).
  assert (quiet p p1) as Hq by (apply quiet_same; assumption).
  destruct Hcases as [(-> & e & _ & ->)|[(-> & _ & ->)
    |[(cached & -> & Hhit & _ & ->)|(-> & Hmiss & _ & ->)]]]; simpl.
  - eexists _, []. split; [reflexivity|]. split; [exact Htr|].
    split; [reflexivity|]. split; [intros _; exact Hq | intros _; reflexivity].
  - eexists _, [_]. split; [reflexivity|]. split; [exact Htr|].
    split; [reflexivity|]. split; [intros _; exact Hq | intros _; reflexivity].
  - eexists _, [_; _]. split; [reflexivity|]. split; [exact Htr|]. split; [reflexivity|].
    split; [auto|]. intros Hempty. rewrite Hempty, lookup_empty in Hhit. discriminate.
  - destruct (pages_compute_effect h net (clock p) coinId ca (JS.param_default chain "eth") p1)
      as (fetches & stores & Hf & Htr2 & Hst & Hnone).
    destruct (after_miss_fetches (PagesApi.cacheKey h coinId ca (JS.param_default chain "eth"))
                fetches Hf) as [Hord1 Hord2].
    assert (in_order ([Admission (JS.param_default clientId "default") true;
                       CacheLookup (PagesApi.cacheKey h coinId ca (JS.param_default chain "eth"))
                         false] ++ fetches ++ stores) = true) as Hord.
    { simpl. destruct Hst as [(-> & _)|(-> & _)]; [rewrite app_nil_r|]; assumption. }
    destruct (PagesApi.compute h net (clock p) coinId ca (JS.param_default chain "eth") p1)
      as [[r|e] q] eqn:Hrun; simpl in *.
    + exists r, ([Admission (JS.param_default clientId "default") true;
                  CacheLookup (PagesApi.cacheKey h coinId ca (JS.param_default chain "eth"))
                    false] ++ fetches ++ stores).
      split; [reflexivity|]. split; [rewrite Htr2, Htr, <- app_assoc; reflexivity|].
      split; [exact Hord|]. split.
      * intros [Hflag|Herr].
        -- destruct Hst as [(_ & Hq2)|(_ & Hflag' & _)]; [|congruence].
           eapply quiet_trans; eassumption.
        -- rewrite (pages_compute_computed _ _ _ _ _ _ _ _ _ Hrun) in Herr. discriminate.
      * intros _. destruct Hst as [(_ & _)|(_ & _ & r' & [= ->])]; [|reflexivity].
        pose proof Hrun as Hrun'. rewrite pages_compute_run in Hrun'.
        destruct (PagesApi.aggregate _ _ _ _ _).1 as [[[m c0] d]|e]; [|discriminate].
        injection Hrun' as <- _. reflexivity.
    + eexists _, ([Admission (JS.param_default clientId "default") true;
                   CacheLookup (PagesApi.cacheKey h coinId ca (JS.param_default chain "eth"))
                     false] ++ fetches ++ stores).
      split; [reflexivity|]. split; [rewrite Htr2, Htr, <- app_assoc; reflexivity|].
      split; [exact Hord|]. split; [|reflexivity].
      intros _. destruct Hst as [(_ & Hq2)|(_ & _ & r' & [=])].
      eapply quiet_trans; eassumption.
Qed.

Lemma api_analyze_effect h net coinId ca chain clientId coinName p :
  let run := Api.analyze h net coinId ca chain clientId coinName p in
  exists r evs,
    run.1 = Normal r
    /\ trace run.2 = trace p ++ evs
    /\ in_order evs = true
    /\ (CONFIG.ENCRYPT_CACHE h = false \/ is_error r = true -> quiet p run.2)
    /\ (cache p = ∅ -> from_cache r = false).
Proof.
  intros run. subst run. rewrite api_analyze_run.
  destruct (api_analyze_try_run h net (clock p) coinId ca (JS.param_default chain "eth")
              (JS.param_default clientId "default") (JS.param_default coinName "") p)
    as (c & p1 & res & rest & _ & Hres & [Htr Hq] & Hcases).
  destruct Hcases as [(-> & e & _ & ->)|[(-> & _ & ->)
    |[(id & ca' & ch' & cached & -> & Hhit & _ & ->)|(id & ca' & ch' & -> & Hmiss & _ & ->)]]];
    simpl.
  - eexists _, _. split; [reflexivity|]. split; [exact Htr|]. rewrite app_nil_r.
    split; [apply forallb_is_resolution_in_order; exact Hres|]. auto.
  - eexists _, _. split; [reflexivity|]. split; [exact Htr|].
    split; [apply in_order_resolution; [exact Hres | reflexivity]|]. auto.
  - eexists _, _. split; [reflexivity|]. split; [exact Htr|].
    split; [apply in_order_resolution; [exact Hres | reflexivity]|].
    split; [auto|]. intros Hempty.
    rewrite (subseteq_empty_lookup _ _ _ (proj1 Hq) Hempty) in Hhit. discriminate.
  - destruct (api_compute_effect h net (clock p) id ca' ch' (JS.param_default coinName "") p1)
      as (fetches & stores & Hf & Htr2 & Hst & Hnone).
    destruct (after_miss_fetches (Api.cacheKey h id ca' ch') fetches Hf) as [Hord1 Hord2].
    assert (in_order (res ++ [Admission (JS.param_default clientId "default") true;
                              CacheLookup (Api.cacheKey h id ca' ch') false]
                          ++ fetches ++ stores) = true) as Hord.
    { apply in_order_resolution; [exact Hres|]. simpl.
      destruct Hst as [(-> & _)|(-> & _)]; [rewrite app_nil_r|]; assumption. }
    destruct (Api.compute h net (clock p) id ca' ch' (JS.param_default coinName "") p1)
      as [[r|e] q] eqn:Hrun; simpl in *.
    + exists r, (res ++ [Admission (JS.param_default clientId "default") true;
                        CacheLookup (Api.cacheKey h id ca' ch') false] ++ fetches ++ stores).
      split; [reflexivity|].
      split; [rewrite Htr2, Htr, <- !app_assoc; reflexivity|].
      split; [exact Hord|]. split.
      * intros [Hflag|Herr].
        -- destruct Hst as [(_ & Hq2)|(_ & Hflag' & _)]; [|congruence].
           eapply quiet_trans; eassumption.
        -- rewrite (api_compute_computed _ _ _ _ _ _ _ _ _ _ Hrun) in Herr. discriminate.
      * intros _. pose proof Hrun as Hrun'. rewrite api_compute_run in Hrun'.
        destruct (Api.aggregate _ _ _ _ _).1 as [[[m c0] d]|e]; [|discriminate].
        injection Hrun' as <- _. reflexivity.
    + eexists _, (res ++ [Admission (JS.param_default clientId "default") true;
                         CacheLookup (Api.cacheKey h id ca' ch') false] ++ fetches ++ stores).
      split; [reflexivity|].
      split; [rewrite Htr2, Htr, <- !app_assoc; reflexivity|].
      split; [exact Hord|]. split; [|reflexivity].
      intros _. destruct Hst as [(_ & Hq2)|(_ & _ & r' & [=])].
      eapply quiet_trans; eassumption.
Qed.

(* --------------------------------------------------------------------- *)
(** *** C6                                                                *)
(* --------------------------------------------------------------------- *)

(** C6. Aggregation is fail-fast, in both revisions: when an invocation has
    been admitted and has missed the cache, and one of the fetchers it
    launches fails (no answer, a status that is not a success, or a payload
    that cannot be read; the liquidity fetcher alone, say), then [analyze]
    returns the error-shaped result, nothing is added to the cache, and
    after the lookup only requests went out: no score set is produced and
    nothing is stored. *)
Theorem aggregation_is_fail_fast (h : host) (net : upstream) :
  (forall coinId ca chain clientId p0 p1,
      PagesApi.admit_and_lookup h coinId ca (JS.param_default chain "eth")
        (JS.param_default clientId "default") p0 = (Normal None, p1) ->
      PagesApi.a_fetcher_fails net coinId ca (JS.param_default chain "eth") (clock p1) = true ->
      let run := PagesApi.analyze h net coinId ca chain clientId p0 in
      exists e fetches,
        run.1 = Normal (Failed e (clock run.2 - clock p0) (clock run.2))
        /\ cache run.2 ⊆ cache p0
        /\ trace run.2 = trace p1 ++ fetches
        /\ forallb is_fetch fetches = true)
  /\ (forall coinId ca chain clientId coinName p0 p1 id ca' chain',
        Api.admit_and_lookup h net coinId ca (JS.param_default chain "eth")
          (JS.param_default clientId "default") (JS.param_default coinName "") p0
          = (Normal (id, ca', chain', None), p1) ->
        Api.a_fetcher_fails net id ca' chain' (clock p1) = true ->
        let run := Api.analyze h net coinId ca chain clientId coinName p0 in
        exists e fetches,
          run.1 = Normal (Failed e (clock run.2 - clock p0) (clock run.2))
          /\ cache run.2 ⊆ cache p0
          /\ trace run.2 = trace p1 ++ fetches
          /\ forallb is_fetch fetches = true).
Proof.
  split.
  - intros coinId ca chain clientId p0 p1 Hmiss Hfail run. subst run.
    rewrite pages_analyze_run. unfold PagesApi.analyze_try, bind. rewrite Hmiss.
    rewrite pages_compute_run.
    destruct (pages_aggregate_fails net _ _ _ _ Hfail) as [e He]. rewrite He. simpl.
    pose proof (pages_aggregate_evolves net coinId ca (JS.param_default chain "eth") p1)
      as [Htr [Hsub _]].
    destruct (pages_admit_and_lookup_run h coinId ca (JS.param_default chain "eth")
                (JS.param_default clientId "default") p0)
      as (c & p' & evs & Hrun & Hc & _). rewrite Hmiss in Hrun. injection Hrun as <- <-.
    exists e. eexists. split; [reflexivity|]. split; [rewrite <- Hc; exact Hsub|].
    split; [exact Htr|]. destruct (JS.is_str _ _); reflexivity.
  - intros coinId ca chain clientId coinName p0 p1 id ca' chain' Hmiss Hfail run. subst run.
    rewrite api_analyze_run. unfold Api.analyze_try, bind. rewrite Hmiss.
    rewrite api_compute_run.
    destruct (api_aggregate_fails net _ _ _ _ Hfail) as [e He]. rewrite He. simpl.
    destruct (api_aggregate_emits net id ca' chain' p1) as (fetches & Hf & Htr & Hsub & _).
    destruct (api_admit_and_lookup_run h net coinId ca (JS.param_default chain "eth")
                (JS.param_default clientId "default") (JS.param_default coinName "") p0)
      as (c & p' & res & rest & Hrun & _ & [_ [Hsub0 _]] & _).
    rewrite Hmiss in Hrun. injection Hrun as <- <-.
    exists e, fetches. split; [reflexivity|]. split; [etrans; eassumption|].
    split; assumption.
Qed.

(* --------------------------------------------------------------------- *)
(** *** C7                                                                *)
(* --------------------------------------------------------------------- *)


(* --------------------------------------------------------------------- *)
(** *** C8                                                                *)
(* --------------------------------------------------------------------- *)

(** C8, as the code has it. In every invocation of [analyze], of either
    revision, the steps happen in this order: the identity-resolution
    requests (none in [src/api/analyze.js]), then validation and the
    admission decision, and only after an admission the cache lookup, then
    after a miss the requests of the fetchers, then at most the store. *)
Theorem steps_are_in_order (h : host) (net : upstream) (call : M AnalysisResult) (p : process) :
  is_analyze h net call ->
  exists evs, trace (call p).2 = trace p ++ evs /\ in_order evs = true.
Proof.
  intros [coinId ca chain clientId | coinId ca chain clientId coinName].
  - destruct (pages_analyze_effect h net coinId ca chain clientId p)
      as (r & evs & _ & Htr & Hord & _). eauto.
  - destruct (api_analyze_effect h net coinId ca chain clientId coinName p)
      as (r & evs & _ & Htr & Hord & _). eauto.
Qed.

(* --------------------------------------------------------------------- *)
(** *** C10                                                               *)
(* --------------------------------------------------------------------- *)

Lemma analyze_without_store h net call p :
  CONFIG.ENCRYPT_CACHE h = false -> is_analyze h net call ->
  cache (call p).2 ⊆ cache p
  /\ exists r, (call p).1 = Normal r /\ (cache p = ∅ -> from_cache r = false).
Proof.
  intros Hflag [coinId ca chain clientId | coinId ca chain clientId coinName].
  - destruct (pages_analyze_effect h net coinId ca chain clientId p)
      as (r & evs & Hr & _ & _ & Hq & Hfc).
    split; [apply Hq; auto | eauto].
  - destruct (api_analyze_effect h net coinId ca chain clientId coinName p)
      as (r & evs & Hr & _ & _ & Hq & Hfc).
    split; [apply Hq; auto | eauto].
Qed.

Lemma serve_without_store h net calls p :
  CONFIG.ENCRYPT_CACHE h = false ->
  Forall (fun c => is_analyze h net c.2) calls ->
  cache p = ∅ ->
  cache (serve calls p).2 = ∅ /\ Forall (fun r => from_cache r = false) (serve calls p).1.
Proof.
  intros Hflag Hcalls. revert p.
  induction Hcalls as [|[t call] later Hcall _ IH]; intros p Hempty; simpl.
  - split; [exact Hempty | constructor].
  - unfold at_instant.
    assert (cache (elapse_until t p) = ∅) as Hidle.
    { eapply subseteq_empty; [|exact Hempty]. apply (elapse_until_evolves t p). }
    destruct (analyze_without_store h net call (elapse_until t p) Hflag Hcall)
      as (Hsub & r & Hr & Hfc).
    destruct (call (elapse_until t p)) as [c p'] eqn:Hrun. simpl in Hsub, Hr. subst c.
    specialize (IH p' (subseteq_empty _ _ Hsub Hidle)).
    destruct (serve later p') as [rs p'']. simpl in *. destruct IH as [IH1 IH2].
    split; [exact IH1|]. constructor; [apply Hfc; exact Hidle | exact IH2].
Qed.

(** C10. With [CONFIG.SECURITY.ENCRYPT_CACHE] false ([NODE_ENV] is not
    ['production']) no call of [analyze], of either revision, adds an entry
    to the cache; so in a process that starts with a new analyzer the cache
    is empty after any sequence of calls, and none of the results carries
    [fromCache: true]. *)
Theorem cache_stays_empty_outside_production
    (h : host) (net : upstream) (calls : list (Z * M AnalysisResult)) (start : Z) :
  CONFIG.ENCRYPT_CACHE h = false ->
  Forall (fun c => is_analyze h net c.2) calls ->
  (forall call p, is_analyze h net call -> cache (call p).2 ⊆ cache p)
  /\ cache (serve calls (new_process start)).2 = ∅
  /\ Forall (fun r => from_cache r = false) (serve calls (new_process start)).1.
Proof.
  intros Hflag Hcalls. split.
  - intros call p Hcall. apply (analyze_without_store h net call p Hflag Hcall).
  - apply (serve_without_store h net calls _ Hflag Hcalls). reflexivity.
Qed.

(* --------------------------------------------------------------------- *)
(** *** C4                                                                *)
(* --------------------------------------------------------------------- *)

(** After a call of [src/api/analyze.js] that returned a computed result,
    in production, the result is in the cache under the key of the call. *)
Lemma pages_result_is_cached h net coinId ca chain clientId p0 p1 r1 fc1 :
  CONFIG.ENCRYPT_CACHE h = true ->
  timers p0 = [] ->
  PagesApi.analyze h net coinId ca chain clientId p0 = (Normal (Computed r1 fc1), p1) ->
  cache p1 !! PagesApi.cacheKey h coinId ca (JS.param_default chain "eth") = Some r1
  /\ timers p1 = [].
Proof.
  intros Hflag Ht0. rewrite pages_analyze_run.
  destruct (pages_analyze_try_run h net (clock p0) coinId ca (JS.param_default chain "eth")
              (JS.param_default clientId "default") p0)
    as (c & q & evs & _ & Hc & Ht & _ & _ & Hcases).
  destruct Hcases as [(_ & e & _ & ->)|[(_ & _ & ->)
    |[(cached & _ & Hhit & _ & ->)|(_ & _ & _ & ->)]]]; try discriminate.
  - intros [= <- _ <-]. rewrite Hc, Ht. auto.
  - rewrite pages_compute_run, Hflag.
    pose proof (pages_aggregate_evolves net coinId ca (JS.param_default chain "eth") q) as [_ Hq].
    apply quiet_without_timers in Hq as [_ Hq]; [|congruence].
    destruct (PagesApi.aggregate net coinId ca (JS.param_default chain "eth") q)
      as [[[[m c0] d]|e] q']; simpl in *; [|discriminate].
    intros [= <- _ <-]. simpl. split; [apply lookup_insert_eq | exact Hq].
Qed.

(** The same for the name-resolving revision: the entry is there under the
    key of the resolved triple, if no timer pending at the start has removed
    it by the end of the call; and the only timer the call may have added is
    the one that removes the entry [CACHE_TTL] after the result's timestamp. *)
Lemma api_result_is_cached h net coinId ca chain clientId coinName p0 p1 r1 fc1
    id ca' chain' found q :
  CONFIG.ENCRYPT_CACHE h = true ->
  Api.admit_and_lookup h net coinId ca (JS.param_default chain "eth")
    (JS.param_default clientId "default") (JS.param_default coinName "") p0
    = (Normal (id, ca', chain', found), q) ->
  Api.analyze h net coinId ca chain clientId coinName p0 = (Normal (Computed r1 fc1), p1) ->
  (Forall (spares (Api.cacheKey h id ca' chain') (clock p1)) (timers p0) ->
   cache p1 !! Api.cacheKey h id ca' chain' = Some r1)
  /\ (clock p0 <= clock p1)%Z
  /\ incl (timers p1)
          (timers p0 ++ [(timestamp r1 + CONFIG.CACHE_TTL, Api.cacheKey h id ca' chain')%Z]).
Proof.
  intros Hflag Hadmit. rewrite api_analyze_run.
  destruct (api_analyze_try_run h net (clock p0) coinId ca (JS.param_default chain "eth")
              (JS.param_default clientId "default") (JS.param_default coinName "") p0)
    as (c & q0 & res & rest & Hrun & _ & [_ Hq] & Hcases).
  rewrite Hadmit in Hrun. injection Hrun as <- <-.
  destruct Hcases as [(_ & e & [=] & _)|[(_ & [=] & _)
    |[(id0 & ca0 & ch0 & cached & _ & Hhit & [= -> -> -> ->] & ->)
     |(id0 & ca0 & ch0 & _ & _ & [= -> -> -> ->] & ->)]]].
  - intros [= <- _ <-]. destruct Hq as (_ & Hk & Hi & Hq).
    split; [intros _; exact Hhit|]. split; [exact Hk|].
    apply incl_appl. exact Hi.
  - rewrite api_compute_run, Hflag.
    destruct (api_aggregate_emits net id0 ca0 ch0 q) as (fetches & _ & _ & Hq2).
    pose proof (quiet_trans _ _ _ Hq Hq2) as (_ & Hk & Hi & _).
    destruct (Api.aggregate net id0 ca0 ch0 q) as [[[[m c0] d]|e] q']; simpl in *; [|discriminate].
    intros [= <- _ <-]. simpl.
    split; [intros _; apply lookup_insert_eq|]. split; [exact Hk|].
    apply incl_app; [apply incl_appl; exact Hi | apply incl_appr, incl_refl].
Qed.

(** C4, as the code has it. With [ENCRYPT_CACHE] true (production): when a
    call has returned a computed result, a later successful call for the same
    triple returns that very object with [fromCache: true] added, so [scores]
    and [basic] are identical. In [src/api/analyze.js], which sets no timer,
    the triple is the arguments and this holds at any later instant; in the
    name-resolving revision the triple is the one both calls resolved to,
    and the second lookup has to happen within the TTL window: less than
    [CACHE_TTL] after the result's timestamp, and before any eviction of
    that key that was pending when the first call started. *)
Theorem repeated_call_is_served_from_cache (h : host) (net : upstream) :
  CONFIG.ENCRYPT_CACHE h = true ->
  (forall coinId ca chain clientId1 clientId2 p0 p1 r1 fc1 t r2 p2,
      timers p0 = [] ->
      PagesApi.analyze h net coinId ca chain clientId1 p0 = (Normal (Computed r1 fc1), p1) ->
      at_instant t (PagesApi.analyze h net coinId ca chain clientId2) p1 = (Normal r2, p2) ->
      is_error r2 = false ->
      r2 = Computed r1 true)
  /\ (forall coinId1 ca1 chain1 clientId1 coinName1 coinId2 ca2 chain2 clientId2 coinName2
             p0 p1 r1 fc1 t id ca chain found1 found2 q1 q2,
        Api.admit_and_lookup h net coinId1 ca1 (JS.param_default chain1 "eth")
          (JS.param_default clientId1 "default") (JS.param_default coinName1 "") p0
          = (Normal (id, ca, chain, found1), q1) ->
        Api.analyze h net coinId1 ca1 chain1 clientId1 coinName1 p0
          = (Normal (Computed r1 fc1), p1) ->
        Api.admit_and_lookup h net coinId2 ca2 (JS.param_default chain2 "eth")
          (JS.param_default clientId2 "default") (JS.param_default coinName2 "")
          (elapse_until t p1)
          = (Normal (id, ca, chain, found2), q2) ->
        (clock q2 < timestamp r1 + CONFIG.CACHE_TTL)%Z ->
        Forall (spares (Api.cacheKey h id ca chain) (clock q2)) (timers p0) ->
        at_instant t (Api.analyze h net coinId2 ca2 chain2 clientId2 coinName2) p1
          = (Normal (Computed r1 true), q2)).
Proof.
  intros Hflag. split.
  - intros coinId ca chain clientId1 clientId2 p0 p1 r1 fc1 t r2 p2 Ht0 Hfirst Hsecond Hok.
    destruct (pages_result_is_cached _ _ _ _ _ _ _ _ _ _ Hflag Ht0 Hfirst) as [Hentry Ht1].
    unfold at_instant in Hsecond. rewrite pages_analyze_run in Hsecond.
    pose proof (elapse_until_evolves t p1) as [_ Hidle].
    apply quiet_without_timers in Hidle as [Hidle _]; [|exact Ht1].
    destruct (pages_analyze_try_run h net (clock (elapse_until t p1)) coinId ca
                (JS.param_default chain "eth") (JS.param_default clientId2 "default")
                (elapse_until t p1))
      as (c & q & evs & _ & _ & _ & _ & _ & Hcases).
    rewrite Hidle, Hentry in Hcases.
    destruct Hcases as [(_ & e & _ & Htry)|[(_ & _ & Htry)
      |[(cached & _ & [= <-] & _ & Htry)|(_ & [=] & _)]]];
      rewrite Htry in Hsecond; injection Hsecond as <- _; try discriminate.
    reflexivity.
  - intros coinId1 ca1 chain1 clientId1 coinName1 coinId2 ca2 chain2 clientId2 coinName2
           p0 p1 r1 fc1 t id ca chain found1 found2 q1 q2 Hadmit1 Hfirst Hadmit2 Hfresh Hspared.
    destruct (api_result_is_cached _ _ _ _ _ _ _ _ _ _ _ _ _ _ _ _ Hflag Hadmit1 Hfirst)
      as (Hentry & Hk01 & Htimers).
    unfold at_instant. rewrite api_analyze_run.
    destruct (api_analyze_try_run h net (clock (elapse_until t p1)) coinId2 ca2
                (JS.param_default chain2 "eth") (JS.param_default clientId2 "default")
                (JS.param_default coinName2 "") (elapse_until t p1))
      as (c & q & res & rest & Hrun & _ & [_ Hq] & Hcases).
    rewrite Hadmit2 in Hrun. injection Hrun as <- <-.
    pose proof (elapse_until_evolves t p1) as [_ Hidle].
    pose proof (quiet_trans _ _ _ Hidle Hq) as (_ & Hk12 & _ & Hkept).
    assert (cache q2 !! Api.cacheKey h id ca chain = Some r1) as Hthere.
    { rewrite Hkept.
      - apply Hentry. eapply spares_earlier; [exact Hk12 | exact Hspared].
      - eapply incl_Forall; [exact Htimers|]. apply Forall_app. split; [exact Hspared|].
        constructor; [|constructor]. intros _. simpl. exact Hfresh. }
    destruct Hcases as [(_ & e & [=] & _)|[(_ & [=] & _)
      |[(id0 & ca0 & ch0 & cached & _ & Hhit & [= -> -> -> ->] & ->)
       |(id0 & ca0 & ch0 & _ & Hmiss & [= -> -> -> ->] & _)]]].
    + rewrite Hthere in Hhit. injection Hhit as <-. reflexivity.
    + rewrite Hthere in Hmiss. discriminate.
Qed.

(* --------------------------------------------------------------------- *)
(** *** C5                                                                *)
(* --------------------------------------------------------------------- *)









(* --------------------------------------------------------------------- *)
(** *** C1                                                                *)
(* --------------------------------------------------------------------- *)

(** C1 fails on the code. The score functions clamp on one side only and
    divide without looking at the divisor. Evaluated on the snapshots the
    fetchers build: for an asset listed with no market cap and no volume,
    greed, volatility and liquidity are NaN; with a volume and no market cap,
    volatility is -Infinity; with a 24h volume of twenty times the market
    cap, volatility is -570; for a token with an empty holder list, and for
    any Solana token in [src/api/analyze.js], decentralization is NaN. None
    of these is an integer of [[0,100]]. *)
Theorem scores_escape_the_range :
  let unlisted := Fetchers.market_snapshot Scenario.unlisted in
  let capless := Fetchers.market_snapshot Scenario.capless in
  let churned := Fetchers.market_snapshot Scenario.churned in
  Scoring._calculateGreedScore unlisted Fetchers.no_holders = nan
  /\ Scoring._calculateVolatility unlisted = nan
  /\ Scoring._calculateLiquidity unlisted Fetchers.no_liquidity = nan
  /\ Scoring._calculateVolatility capless = neg_infinity
  /\ Scoring._calculateVolatility churned = (-570)%float
  /\ Scoring._calculateDecentralization (Fetchers.holder_statistics []) = nan
  /\ Scoring._calculateDecentralization (Fetchers.activity_only []) = nan
  /\ JS.is_score (Scoring._calculateGreedScore unlisted Fetchers.no_holders) = false
  /\ JS.is_score (Scoring._calculateVolatility capless) = false
  /\ JS.is_score (Scoring._calculateVolatility churned) = false
  /\ JS.is_score (Scoring._calculateLiquidity unlisted Fetchers.no_liquidity) = false
  /\ JS.is_score (Scoring._calculateDecentralization (Fetchers.holder_statistics [])) = false.
Proof. vm_compute. repeat split; reflexivity. Qed.

(* --------------------------------------------------------------------- *)
(** *** C3                                                                *)
(* --------------------------------------------------------------------- *)

(** C3 fails on [src/api/analyze.js]. In production, an analysis of UNI
    starting at instant 0 is stored with timestamp 500. The same call
    arriving at instant 600000, which is later than 500 + [CACHE_TTL],
    is answered with that entry ([fromCache: true]), and the entry is still
    in the cache afterwards: [CACHE_TTL] is declared and never read. *)
Theorem stale_entry_is_served_after_ttl :
  let call := PagesApi.analyze Scenario.production Scenario.steady
                Scenario.uniswap Scenario.UNI JS.Undefined JS.Undefined in
  let first := call (new_process 0) in
  let second := at_instant 600000 call first.2 in
  first.1 = Normal (Computed Scenario.first_result false)
  /\ (timestamp Scenario.first_result + CONFIG.CACHE_TTL < 600000)%Z
  /\ second.1 = Normal (Computed Scenario.first_result true)
  /\ cache second.2
       !! PagesApi.cacheKey Scenario.production Scenario.uniswap Scenario.UNI (JS.Str "eth")
     = Some Scenario.first_result.
Proof. vm_compute. repeat split; reflexivity. Qed.

(* --------------------------------------------------------------------- *)
(** *** C9                                                                *)
(* --------------------------------------------------------------------- *)

(** C9 fails on the cache-hit path. In production, an analysis of UNI
    starting at instant 0 takes 500 ms, all of it the wait for the
    providers. The same call arriving at instant 1000 is a cache hit that
    enters and exits at instant 1000; its result carries
    [processingTime = 500] and [timestamp = 500], those of the first call,
    since the hit path returns the stored object with [fromCache] added and
    takes no reading of the clock. *)
Theorem cache_hit_reports_the_first_calls_time :
  let call := PagesApi.analyze Scenario.production Scenario.steady
                Scenario.uniswap Scenario.UNI JS.Undefined JS.Undefined in
  let first := call (new_process 0) in
  let entry := elapse_until 1000 first.2 in
  let second := call entry in
  exists r2,
    second.1 = Normal r2
    /\ from_cache r2 = true
    /\ clock entry = 1000%Z /\ clock second.2 = 1000%Z
    /\ result_processingTime r2 = 500%Z
    /\ result_processingTime r2 = result_processingTime (Computed Scenario.first_result false).
Proof. eexists. vm_compute. repeat split; reflexivity. Qed.

(* --------------------------------------------------------------------- *)
(** *** Counterexamples to C4 and C8 as stated                            *)
(* --------------------------------------------------------------------- *)

(** C4 as stated fails when [NODE_ENV] is not ['production']: two calls for
    the same valid triple, at instants 0 and 2000 (well within the TTL),
    both succeed; the second is computed anew, is not flagged [fromCache],
    and its scores and basic fields differ from the first's, as the market
    has moved in between. *)
Lemma repeated_call_is_recomputed_outside_production :
  let call := PagesApi.analyze Scenario.development Scenario.steady
                Scenario.uniswap Scenario.UNI JS.Undefined JS.Undefined in
  let first := call (new_process 0) in
  let second := at_instant 2000 call first.2 in
  exists r1 r2,
    first.1 = Normal r1 /\ second.1 = Normal r2
    /\ is_error r1 = false /\ is_error r2 = false
    /\ (2000 - 0 < CONFIG.CACHE_TTL)%Z
    /\ from_cache r2 = false
    /\ result_scores r1 <> result_scores r2
    /\ result_basic r1 <> result_basic r2.
Proof.
  do 2 eexists. split; [vm_compute; reflexivity|]. split; [vm_compute; reflexivity|].
  split; [reflexivity|]. split; [reflexivity|]. split; [reflexivity|]. split; [reflexivity|].
  split; intros H.
  - apply (f_equal (fun s => match s with
                             | Some s => PrimFloat.eqb (volatility s) 36
                             | None => false
                             end)) in H.
    vm_compute in H. discriminate.
  - apply (f_equal (fun b => match b with
                             | Some b => PrimFloat.eqb (basic_volume_24h b) 2e8
                             | None => false
                             end)) in H.
    vm_compute in H. discriminate.
Qed.

(** C8 as stated fails on the name-resolving revision: a client that has
    already made 100 calls in the last minute sends a coin name only; the
    search request and the platform request go out to CoinGecko, and only
    then is the admission decided, and denied. *)
Lemma resolution_precedes_admission :
  let run := Api.analyze Scenario.production Scenario.steady
               (JS.Str "") (JS.Str "") (JS.Str "") (JS.Str "default") (JS.Str "uniswap")
               (Scenario.after_calls (JS.Str "default") 100) in
  trace run.2 = [SearchRequest "uniswap"; PlatformRequest "uniswap";
                 Admission (JS.Str "default") false]
  /\ admission_first (trace run.2) = false.
Proof. vm_compute. split; reflexivity. Qed.

(* --------------------------------------------------------------------- *)
(** *** The theorems at work                                              *)
(* --------------------------------------------------------------------- *)

Lemma repeated_call_is_served_from_cache_witness :
  let first := PagesApi.analyze Scenario.production Scenario.steady
                 Scenario.uniswap Scenario.UNI JS.Undefined JS.Undefined (new_process 0) in
  let second := at_instant 2000
                  (PagesApi.analyze Scenario.production Scenario.steady
                     Scenario.uniswap Scenario.UNI JS.Undefined (JS.Str "another client"))
                  first.2 in
  let by_name := Api.analyze Scenario.production Scenario.steady
                   (JS.Str "") (JS.Str "") (JS.Str "") (JS.Str "default") (JS.Str "uniswap") in
  let by_slug := Api.analyze Scenario.production Scenario.steady
                   Scenario.uniswap (JS.Str "") (JS.Str "") (JS.Str "default") (JS.Str "") in
  (first.1 = Normal (Computed Scenario.first_result false)
   /\ second.1 = Normal (Computed Scenario.first_result true))
  /\ ((by_name (new_process 0)).1 = Normal (Computed Scenario.resolved_result false)
      /\ (at_instant 200000 by_slug (by_name (new_process 0)).2).1
         = Normal (Computed Scenario.resolved_result true)).
Proof.
  intros first second by_name by_slug.
  pose proof (repeated_call_is_served_from_cache Scenario.production Scenario.steady eq_refl)
    as [Hpages Hapi].
  split; (split; [vm_compute; reflexivity|]).
  - apply (f_equal (fun r => Normal r)).
    apply (Hpages Scenario.uniswap Scenario.UNI JS.Undefined JS.Undefined
             (JS.Str "another client") (new_process 0) first.2 Scenario.first_result false
             2000%Z (Computed Scenario.first_result true) second.2).
    + reflexivity.
    + vm_compute. reflexivity.
    + vm_compute. reflexivity.
    + reflexivity.
  - apply (f_equal fst
             (Hapi (JS.Str "") (JS.Str "") (JS.Str "") (JS.Str "default") (JS.Str "uniswap")
                Scenario.uniswap (JS.Str "") (JS.Str "") (JS.Str "default") (JS.Str "")
                (new_process 0) (by_name (new_process 0)).2 Scenario.resolved_result false
                200000%Z Scenario.uniswap Scenario.UNI (JS.Str "eth") None
                (Some Scenario.resolved_result)
                (Api.admit_and_lookup Scenario.production Scenario.steady
                   (JS.Str "") (JS.Str "") (JS.Str "") (JS.Str "default") (JS.Str "uniswap")
                   (new_process 0)).2
                (Api.admit_and_lookup Scenario.production Scenario.steady
                   Scenario.uniswap (JS.Str "") (JS.Str "") (JS.Str "default") (JS.Str "")
                   (elapse_until 200000 (by_name (new_process 0)).2)).2
                ltac:(vm_compute; reflexivity) ltac:(vm_compute; reflexivity)
                ltac:(vm_compute; reflexivity) ltac:(vm_compute; reflexivity)
                ltac:(constructor))).
Defined.

Lemma aggregation_is_fail_fast_witness :
  let run := Api.analyze Scenario.production Scenario.liquidity_down
               (JS.Str "") (JS.Str "") (JS.Str "") (JS.Str "default") (JS.Str "uniswap")
               (new_process 0) in
  let admitted := Api.admit_and_lookup Scenario.production Scenario.liquidity_down
                    (JS.Str "") (JS.Str "") (JS.Str "") (JS.Str "default") (JS.Str "uniswap")
                    (new_process 0) in
  exists e fetches,
    run.1 = Normal (Failed e (clock run.2 - clock (new_process 0)) (clock run.2))
    /\ cache run.2 ⊆ cache (new_process 0)
    /\ trace run.2 = trace admitted.2 ++ fetches
    /\ forallb is_fetch fetches = true.
Proof.
  intros run admitted. subst run.
  apply (proj2 (aggregation_is_fail_fast Scenario.production Scenario.liquidity_down)
           (JS.Str "") (JS.Str "") (JS.Str "") (JS.Str "default") (JS.Str "uniswap")
           (new_process 0) admitted.2 Scenario.uniswap Scenario.UNI (JS.Str "eth")).
  - vm_compute. reflexivity.
  - vm_compute. reflexivity.
Defined.

Lemma steps_are_in_order_witness :
  exists evs,
    trace (Api.analyze Scenario.production Scenario.steady
             (JS.Str "") (JS.Str "") (JS.Str "") (JS.Str "default") (JS.Str "uniswap")
             (new_process 0)).2 = trace (new_process 0) ++ evs
    /\ in_order evs = true.
Proof.
  apply (steps_are_in_order Scenario.production Scenario.steady
           (Api.analyze Scenario.production Scenario.steady
              (JS.Str "") (JS.Str "") (JS.Str "") (JS.Str "default") (JS.Str "uniswap"))
           (new_process 0)).
  apply api_call.
Defined.

Lemma cache_stays_empty_outside_production_witness :
  let calls :=
    [ (0%Z, PagesApi.analyze Scenario.development Scenario.steady
              Scenario.uniswap Scenario.UNI JS.Undefined JS.Undefined);
      (2000%Z, Api.analyze Scenario.development Scenario.steady
                 (JS.Str "") (JS.Str "") (JS.Str "") (JS.Str "default") (JS.Str "uniswap"));
      (3000%Z, PagesApi.analyze Scenario.development Scenario.steady
                 Scenario.uniswap Scenario.UNI JS.Undefined JS.Undefined) ] in
  (forall call p,
      is_analyze Scenario.development Scenario.steady call -> cache (call p).2 ⊆ cache p)
  /\ cache (serve calls (new_process 0)).2 = ∅
  /\ Forall (fun r => from_cache r = false) (serve calls (new_process 0)).1.
Proof.
  intros calls.
  apply (cache_stays_empty_outside_production Scenario.development Scenario.steady calls 0).
  - reflexivity.
  - subst calls. repeat constructor.
Defined.

(* ===================================================================== *)
(** ** Further properties of the code                                     *)
(* ===================================================================== *)

(* --------------------------------------------------------------------- *)
(** *** Validation patterns                                               *)
(* --------------------------------------------------------------------- *)

Lemma all_chars_impl (p q : ascii -> bool) s :
  (forall c, p c = true -> q c = true) ->
  VALIDATION_PATTERNS.all_chars p s = true -> VALIDATION_PATTERNS.all_chars q s = true.
Proof.
  intros Hpq. induction s as [|c s IH]; simpl; [reflexivity|].
  intros H. apply andb_true_iff in H as [Hc Hs]. rewrite (Hpq c Hc), (IH Hs). reflexivity.
Qed.

Lemma lower_digit_hyphen_no_colon c :
  VALIDATION_PATTERNS.lower_digit_hyphen c = true -> negb (Ascii.eqb c ":") = true.
Proof. destruct c as [[] [] [] [] [] [] [] []]; vm_compute; intros H; congruence. Qed.

Lemma hex_digit_no_colon c :
  VALIDATION_PATTERNS.hex_digit c = true -> negb (Ascii.eqb c ":") = true.
Proof. destruct c as [[] [] [] [] [] [] [] []]; vm_compute; intros H; congruence. Qed.

Lemma base58_digit_no_colon c :
  VALIDATION_PATTERNS.base58_digit c = true -> negb (Ascii.eqb c ":") = true.
Proof. destruct c as [[] [] [] [] [] [] [] []]; vm_compute; intros H; congruence. Qed.

Lemma COIN_ID_no_colon s : VALIDATION_PATTERNS.COIN_ID s = true -> no_colon s = true.
Proof.
  unfold VALIDATION_PATTERNS.COIN_ID, no_colon. intros H. apply andb_true_iff in H as [_ H].
  eapply all_chars_impl; [apply lower_digit_hyphen_no_colon | exact H].
Qed.

Lemma CONTRACT_ADDRESS_shape s :
  VALIDATION_PATTERNS.CONTRACT_ADDRESS s = true ->
  exists digits,
    s = String "0" (String "x" digits)
    /\ String.length digits = 40
    /\ VALIDATION_PATTERNS.all_chars VALIDATION_PATTERNS.hex_digit digits = true.
Proof.
  unfold VALIDATION_PATTERNS.CONTRACT_ADDRESS.
  destruct s as [|c0 [|c1 digits]]; try discriminate.
  - destruct c0 as [[] [] [] [] [] [] [] []]; discriminate.
  - destruct (Ascii.eqb_spec c0 "0") as [->|Hc0].
    2:{ destruct c0 as [[] [] [] [] [] [] [] []]; try discriminate; contradiction. }
    destruct (Ascii.eqb_spec c1 "x") as [->|Hc1].
    2:{ destruct c1 as [[] [] [] [] [] [] [] []]; try discriminate; contradiction. }
    intros H. apply andb_true_iff in H as [Hlen Hhex]. apply Nat.eqb_eq in Hlen. eauto.
Qed.

Lemma CONTRACT_ADDRESS_no_colon s :
  VALIDATION_PATTERNS.CONTRACT_ADDRESS s = true -> no_colon s = true.
Proof.
  intros H. apply CONTRACT_ADDRESS_shape in H as (digits & -> & _ & Hhex).
  unfold no_colon. simpl. eapply all_chars_impl; [apply hex_digit_no_colon | exact Hhex].
Qed.

Lemma SOLANA_ADDRESS_no_colon s :
  VALIDATION_PATTERNS.SOLANA_ADDRESS s = true -> no_colon s = true.
Proof.
  unfold VALIDATION_PATTERNS.SOLANA_ADDRESS, no_colon. intros H.
  apply andb_true_iff in H as [_ H].
  eapply all_chars_impl; [apply base58_digit_no_colon | exact H].
Qed.

(** X1. The two address patterns are disjoint and fix the length: a string
    accepted as an Ethereum contract address is 42 characters long and is
    never accepted as a Solana address (it starts with the digit 0, which
    is not a base-58 digit), and a string accepted as a Solana address is
    32 to 44 characters long. *)
Theorem address_patterns_are_disjoint (s : string) :
  (VALIDATION_PATTERNS.CONTRACT_ADDRESS s = true ->
   String.length s = 42 /\ VALIDATION_PATTERNS.SOLANA_ADDRESS s = false)
  /\ (VALIDATION_PATTERNS.SOLANA_ADDRESS s = true ->
      32 <= String.length s <= 44 /\ VALIDATION_PATTERNS.CONTRACT_ADDRESS s = false).
Proof.
  assert (VALIDATION_PATTERNS.CONTRACT_ADDRESS s = true ->
          String.length s = 42 /\ VALIDATION_PATTERNS.SOLANA_ADDRESS s = false) as Heth.
  { intros H. apply CONTRACT_ADDRESS_shape in H as (digits & -> & Hlen & _).
    split; [simpl; rewrite Hlen; reflexivity|].
    unfold VALIDATION_PATTERNS.SOLANA_ADDRESS. simpl. rewrite andb_false_r. reflexivity. }
  split; [exact Heth|].
  intros Hsol. split.
  - unfold VALIDATION_PATTERNS.SOLANA_ADDRESS in Hsol.
    apply andb_true_iff in Hsol as [Hlen _]. apply andb_true_iff in Hlen as [Hlo Hhi].
    apply Nat.leb_le in Hlo, Hhi. lia.
  - destruct (VALIDATION_PATTERNS.CONTRACT_ADDRESS s) eqn:Hc; [|reflexivity].
    destruct (Heth eq_refl) as [_ Hno]. congruence.
Qed.


(* --------------------------------------------------------------------- *)
(** *** What validation lets through                                      *)
(* --------------------------------------------------------------------- *)

Lemma pages_validateInput_passed coinId ca chain p :
  (PagesApi._validateInput coinId ca chain p).1 = Normal tt ->
  VALIDATION_PATTERNS.test VALIDATION_PATTERNS.COIN_ID coinId = true
  /\ (JS.is_str chain "eth" = true ->
      VALIDATION_PATTERNS.test VALIDATION_PATTERNS.CONTRACT_ADDRESS ca = true)
  /\ (JS.is_str chain "sol" = true ->
      VALIDATION_PATTERNS.test VALIDATION_PATTERNS.SOLANA_ADDRESS ca = true).
Proof.
  unfold PagesApi._validateInput.
  destruct (VALIDATION_PATTERNS.test VALIDATION_PATTERNS.COIN_ID coinId),
    (JS.is_str chain "eth"),
    (VALIDATION_PATTERNS.test VALIDATION_PATTERNS.CONTRACT_ADDRESS ca),
    (JS.is_str chain "sol"),
    (VALIDATION_PATTERNS.test VALIDATION_PATTERNS.SOLANA_ADDRESS ca);
    simpl; intros H; try discriminate H; auto.
Qed.

Lemma api_validateInput_passed coinId ca chain p :
  (Api._validateInput coinId ca chain p).1 = Normal tt ->
  (JS.truthy coinId = true ->
   VALIDATION_PATTERNS.test VALIDATION_PATTERNS.COIN_ID coinId = true)
  /\ (JS.truthy ca = true -> JS.is_str chain "eth" = true ->
      VALIDATION_PATTERNS.test VALIDATION_PATTERNS.CONTRACT_ADDRESS ca = true)
  /\ (JS.truthy ca = true -> JS.is_str chain "sol" = true ->
      VALIDATION_PATTERNS.test VALIDATION_PATTERNS.SOLANA_ADDRESS ca = true).
Proof.
  unfold Api._validateInput.
  destruct (JS.truthy coinId), (JS.truthy ca),
    (VALIDATION_PATTERNS.test VALIDATION_PATTERNS.COIN_ID coinId),
    (JS.is_str chain "eth"),
    (VALIDATION_PATTERNS.test VALIDATION_PATTERNS.CONTRACT_ADDRESS ca),
    (JS.is_str chain "sol"),
    (VALIDATION_PATTERNS.test VALIDATION_PATTERNS.SOLANA_ADDRESS ca);
    simpl; intros H; try discriminate H; auto.
Qed.

Lemma pages_validateInput_message coinId ca chain p e :
  (PagesApi._validateInput coinId ca chain p).1 = Throw e ->
  exists violations, e = "Validation failed: " +:+ violations.
Proof.
  unfold PagesApi._validateInput. cbv zeta. destruct (0 <? _)%nat; simpl; [|discriminate].
  intros [= <-]. eauto.
Qed.

Lemma pages_admitted_is_valid h coinId ca chain clientId p found p' :
  PagesApi.admit_and_lookup h coinId ca chain clientId p = (Normal found, p') ->
  (PagesApi._validateInput coinId ca chain p).1 = Normal tt.
Proof.
  unfold PagesApi.admit_and_lookup. unfold bind at 1.
  destruct (PagesApi._validateInput coinId ca chain p) as [[[]|e] q]; [reflexivity | discriminate].
Qed.

Lemma api_admitted_is_valid h net coinId ca chain clientId coinName p id ca' chain' found p' :
  Api.admit_and_lookup h net coinId ca chain clientId coinName p
    = (Normal (id, ca', chain', found), p') ->
  exists q,
    ((if JS.truthy ca' && JS.truthy chain' then Api._validateInput id ca' chain'
      else Api._validateInput id JS.Null JS.Null) q).1 = Normal tt.
Proof.
  unfold Api.admit_and_lookup. unfold bind at 1.
  destruct (Api.resolve net coinId ca chain coinName p) as [[[[id0 ca0] ch0]|e] q];
    [|discriminate].
  unfold bind at 1.
  destruct ((if JS.truthy ca0 && JS.truthy ch0 then Api._validateInput id0 ca0 ch0
             else Api._validateInput id0 JS.Null JS.Null) q) as [[[]|e] q0] eqn:Hv;
    [|discriminate].
  unfold bind. destruct (RateLimiter._checkRateLimit clientId q0) as [[[]|e] q1]; [|discriminate].
  simpl. intros [= <- <- <- _ _]. exists q. rewrite Hv. reflexivity.
Qed.

Lemma falsy_to_string v :
  JS.truthy v = false ->
  VALIDATION_PATTERNS.COIN_ID (JS.to_string v) = true \/ JS.to_string v = "".
Proof.
  destruct v as [| |s]; simpl; [left; reflexivity | left; reflexivity |].
  destruct (String.eqb_spec s ""); [auto | discriminate].
Qed.

(* --------------------------------------------------------------------- *)
(** *** The requests of one call                                          *)
(* --------------------------------------------------------------------- *)

Lemma pages_analyze_requests h net coinId ca chain clientId p :
  exists before fetches stores,
    trace (PagesApi.analyze h net coinId ca chain clientId p).2
      = trace p ++ before ++ fetches ++ stores
    /\ forallb (fun e => negb (is_fetch e)) (before ++ stores) = true
    /\ (fetches = []
        \/ ((PagesApi._validateInput coinId ca (JS.param_default chain "eth") p).1 = Normal tt
            /\ fetches =
                 [MarketRequest (JS.to_string coinId);
                  (if JS.is_str (JS.param_default chain "eth") "eth"
                   then HolderRequest (JS.to_string ca)
                   else TransferRequest (JS.to_string ca));
                  PoolRequest (JS.to_string ca)])).
Proof.
  rewrite pages_analyze_run.
  destruct (pages_analyze_try_run h net (clock p) coinId ca (JS.param_default chain "eth")
              (JS.param_default clientId "default") p)
    as (c & p1 & evs & Hadmit & _ & _ & _ & Htr & Hcases).
  destruct Hcases as [(-> & e & _ & ->)|[(-> & _ & ->)
    |[(cached & -> & _ & _ & ->)|(-> & _ & -> & ->)]]]; simpl.
  - exists [], [], []. rewrite Htr. auto.
  - exists [Admission (JS.param_default clientId "default") false], [], []. rewrite Htr. auto.
  - exists [Admission (JS.param_default clientId "default") true;
            CacheLookup (PagesApi.cacheKey h coinId ca (JS.param_default chain "eth")) true],
           [], []. rewrite Htr. auto.
  - apply pages_admitted_is_valid in Hadmit.
    rewrite pages_compute_run.
    pose proof (pages_aggregate_evolves net coinId ca (JS.param_default chain "eth") p1)
      as [Htr2 _].
    set (fetches := [MarketRequest _; _; _]) in Htr2.
    exists [Admission (JS.param_default clientId "default") true;
            CacheLookup (PagesApi.cacheKey h coinId ca (JS.param_default chain "eth")) false],
           fetches.
    destruct (PagesApi.aggregate net coinId ca (JS.param_default chain "eth") p1)
      as [[[[m c0] d]|e] q]; simpl fst; simpl snd; cbv iota beta.
    + destruct (CONFIG.ENCRYPT_CACHE h).
      * exists [CacheStore (PagesApi.cacheKey h coinId ca (JS.param_default chain "eth"))].
        split; [|split; [reflexivity | right; split; [exact Hadmit | reflexivity]]].
        cbn [trace snd] in *. rewrite Htr2, Htr, <- !app_assoc. reflexivity.
      * exists [].
        split; [|split; [reflexivity | right; split; [exact Hadmit | reflexivity]]].
        cbn [trace snd] in *. rewrite app_nil_r, Htr2, Htr, <- !app_assoc. reflexivity.
    + exists [].
      split; [|split; [reflexivity | right; split; [exact Hadmit | reflexivity]]].
      cbn [trace snd] in *. rewrite app_nil_r, Htr2, Htr, <- !app_assoc. reflexivity.
Qed.

Lemma not_fetch_not_in before e :
  forallb (fun e => negb (is_fetch e)) before = true -> is_fetch e = true -> ~ In e before.
Proof.
  intros Hall He Hin. rewrite forallb_forall in Hall. specialize (Hall e Hin).
  rewrite He in Hall. discriminate.
Qed.

Lemma in_fetches before fetches stores e :
  forallb (fun e => negb (is_fetch e)) (before ++ stores) = true ->
  is_fetch e = true -> In e (before ++ fetches ++ stores) -> In e fetches.
Proof.
  intros Hall He Hin. rewrite forallb_app in Hall. apply andb_true_iff in Hall as [Hb Hs].
  apply in_app_or in Hin as [Hin|Hin]; [exfalso; exact (not_fetch_not_in _ _ Hb He Hin)|].
  apply in_app_or in Hin as [Hin|Hin]; [exact Hin|].
  exfalso. exact (not_fetch_not_in _ _ Hs He Hin).
Qed.

(** X2. [src/api/analyze.js] sends a provider only identifiers that passed
    validation: in every call, a market request carries a coin id that
    matches [COIN_ID], a holder request (Etherscan) carries an address that
    matches [CONTRACT_ADDRESS], and when the chain is ['sol'] the transfer
    and liquidity requests carry an address that matches [SOLANA_ADDRESS]. *)
Theorem pages_requests_carry_validated_identifiers
    (h : host) (net : upstream) (coinId ca chain clientId : JS.value) (p : process)
    (evs : list event) :
  trace (PagesApi.analyze h net coinId ca chain clientId p).2 = trace p ++ evs ->
  (forall s, In (MarketRequest s) evs -> VALIDATION_PATTERNS.COIN_ID s = true)
  /\ (forall a, In (HolderRequest a) evs -> VALIDATION_PATTERNS.CONTRACT_ADDRESS a = true)
  /\ (JS.is_str chain "sol" = true ->
      forall a, In (TransferRequest a) evs \/ In (PoolRequest a) evs ->
                VALIDATION_PATTERNS.SOLANA_ADDRESS a = true).
Proof.
  intros Htrace.
  destruct (pages_analyze_requests h net coinId ca chain clientId p)
    as (before & fetches & stores & Htr & Hquiet & Hfetches).
  rewrite Htrace in Htr. apply app_inv_head in Htr. subst evs.
  assert (forall e, is_fetch e = true -> In e (before ++ fetches ++ stores) -> In e fetches)
    as Hin by (intros e; apply in_fetches; exact Hquiet).
  destruct Hfetches as [->|[Hvalid ->]].
  { repeat split; intros; repeat match goal with
      | H : _ \/ _ |- _ => destruct H
      | H : In _ (before ++ [] ++ stores) |- _ => apply Hin in H; [destruct H | reflexivity]
      end. }
  apply pages_validateInput_passed in Hvalid as (Hid & Heth & Hsol).
  split; [|split].
  - intros s Hs. apply Hin in Hs; [|reflexivity]. simpl in Hs.
    destruct (JS.is_str (JS.param_default chain "eth") "eth");
      destruct Hs as [[= <-]|[[=]|[[=]|[]]]]; exact Hid.
  - intros a Ha. apply Hin in Ha; [|reflexivity]. simpl in Ha.
    destruct (JS.is_str (JS.param_default chain "eth") "eth") eqn:Hchain;
      destruct Ha as [[=]|[[=]|[[=]|[]]]]; subst. apply Heth. reflexivity.
  - intros Hchain a Ha.
    assert (JS.is_str (JS.param_default chain "eth") "sol" = true) as Hchain'
      by (destruct chain; try discriminate; exact Hchain).
    destruct Ha as [Ha|Ha]; (apply Hin in Ha; [|reflexivity]); simpl in Ha;
      destruct (JS.is_str (JS.param_default chain "eth") "eth");
      destruct Ha as [[=]|[[=]|[[=]|[]]]]; subst; apply Hsol; exact Hchain'.
Qed.


Lemma resolution_is_not_fetch res :
  forallb is_resolution res = true -> forallb (fun e => negb (is_fetch e)) res = true.
Proof.
  induction res as [|e res IH]; [reflexivity|]. simpl. intros H.
  apply andb_true_iff in H as [He Hres]. rewrite (IH Hres).
  destruct e; try discriminate; reflexivity.
Qed.

Lemma api_analyze_requests h net coinId ca chain clientId coinName p :
  exists before fetches stores,
    trace (Api.analyze h net coinId ca chain clientId coinName p).2
      = trace p ++ before ++ fetches ++ stores
    /\ forallb (fun e => negb (is_fetch e)) (before ++ stores) = true
    /\ (fetches = []
        \/ exists id ca' chain' q,
             ((if JS.truthy ca' && JS.truthy chain' then Api._validateInput id ca' chain'
               else Api._validateInput id JS.Null JS.Null) q).1 = Normal tt
             /\ fetches =
                  MarketRequest (JS.to_string id)
                    :: (if JS.truthy ca' && JS.truthy chain'
                        then [ (if JS.is_str chain' "eth" then HolderRequest (JS.to_string ca')
                                else TransferRequest (JS.to_string ca'));
                               PoolRequest (JS.to_string ca') ]
                        else [])).
Proof.
  rewrite api_analyze_run.
  destruct (api_analyze_try_run h net (clock p) coinId ca (JS.param_default chain "eth")
              (JS.param_default clientId "default") (JS.param_default coinName "") p)
    as (c & p1 & res & rest & Hadmit & Hres & [Htr _] & Hcases).
  apply resolution_is_not_fetch in Hres.
  destruct Hcases as [(-> & e & _ & ->)|[(-> & _ & ->)
    |[(id & ca' & ch' & cached & -> & _ & _ & ->)|(id & ca' & ch' & -> & _ & -> & ->)]]]; simpl.
  - exists res, [], []. rewrite Htr, !app_nil_r. auto.
  - exists (res ++ [Admission (JS.param_default clientId "default") false]), [], [].
    rewrite Htr, !app_nil_r, forallb_app, Hres. auto.
  - exists (res ++ [Admission (JS.param_default clientId "default") true;
                    CacheLookup (Api.cacheKey h id ca' ch') true]), [], [].
    rewrite Htr, !app_nil_r, forallb_app, Hres. auto.
  - apply api_admitted_is_valid in Hadmit as [q0 Hvalid].
    rewrite api_compute_run.
    pose proof (api_aggregate_events net id ca' ch' p1) as [Htr2 _].
    set (fetches := MarketRequest _ :: _) in Htr2.
    set (admitted := [Admission (JS.param_default clientId "default") true;
                      CacheLookup (Api.cacheKey h id ca' ch') false]) in *.
    assert (forallb (fun e => negb (is_fetch e)) (res ++ admitted) = true) as Hq
      by (rewrite forallb_app, Hres; reflexivity).
    exists (res ++ admitted), fetches.
    destruct (Api.aggregate net id ca' ch' p1) as [[[[m c0] d]|e] q];
      simpl fst; simpl snd; cbv iota beta; cbn [trace snd] in *.
    + destruct (CONFIG.ENCRYPT_CACHE h).
      * exists [CacheStore (Api.cacheKey h id ca' ch')].
        split; [|split; [rewrite forallb_app, Hq; reflexivity
                        | right; exists id, ca', ch', q0; split; [exact Hvalid | reflexivity]]].
        cbn [trace]. rewrite Htr2, Htr, <- !app_assoc. reflexivity.
      * exists [].
        split; [|split; [rewrite app_nil_r; exact Hq
                        | right; exists id, ca', ch', q0; split; [exact Hvalid | reflexivity]]].
        rewrite app_nil_r, Htr2, Htr, <- !app_assoc. reflexivity.
    + exists [].
      split; [|split; [rewrite app_nil_r; exact Hq
                      | right; exists id, ca', ch', q0; split; [exact Hvalid | reflexivity]]].
      rewrite app_nil_r, Htr2, Htr, <- !app_assoc. reflexivity.
Qed.

(** X3. The name-resolving revision sends its fetchers only identifiers
    that passed validation: in every call, a holder request (Etherscan)
    carries an address that matches [CONTRACT_ADDRESS], and a market request
    carries a coin id that matches [COIN_ID] or is the empty string (an
    identity without a coin id is let through by validation). *)
Theorem api_requests_carry_validated_identifiers
    (h : host) (net : upstream) (coinId ca chain clientId coinName : JS.value) (p : process)
    (evs : list event) :
  trace (Api.analyze h net coinId ca chain clientId coinName p).2 = trace p ++ evs ->
  (forall s, In (MarketRequest s) evs -> VALIDATION_PATTERNS.COIN_ID s = true \/ s = "")
  /\ (forall a, In (HolderRequest a) evs -> VALIDATION_PATTERNS.CONTRACT_ADDRESS a = true).
Proof.
  intros Htrace.
  destruct (api_analyze_requests h net coinId ca chain clientId coinName p)
    as (before & fetches & stores & Htr & Hquiet & Hfetches).
  rewrite Htrace in Htr. apply app_inv_head in Htr. subst evs.
  assert (forall e, is_fetch e = true -> In e (before ++ fetches ++ stores) -> In e fetches)
    as Hin by (intros e; apply in_fetches; exact Hquiet).
  destruct Hfetches as [->|(id & ca' & ch' & q & Hvalid & ->)].
  { split; intros x Hx; apply Hin in Hx; try reflexivity; destruct Hx. }
  split.
  - intros s Hs. apply Hin in Hs; [|reflexivity].
    assert (s = JS.to_string id) as ->.
    { destruct Hs as [[= <-]|Hs]; [reflexivity|].
      destruct (JS.truthy ca' && JS.truthy ch'); [|destruct Hs].
      destruct (JS.is_str ch' "eth"); destruct Hs as [[=]|[[=]|[]]]. }
    destruct (JS.truthy id) eqn:Hid; [left | apply falsy_to_string; exact Hid].
    destruct (JS.truthy ca' && JS.truthy ch');
      apply api_validateInput_passed in Hvalid as (Hcoin & _); apply Hcoin; exact Hid.
  - intros a Ha. apply Hin in Ha; [|reflexivity].
    destruct Ha as [[=]|Ha].
    destruct (JS.truthy ca' && JS.truthy ch') eqn:Hlaunch; [|destruct Ha].
    apply andb_true_iff in Hlaunch as [Hca _].
    apply api_validateInput_passed in Hvalid as (_ & Heth & _).
    destruct (JS.is_str ch' "eth") eqn:Hchain; destruct Ha as [[=]|[[=]|[]]]; subst.
    apply Heth; [exact Hca | reflexivity].
Qed.

(* --------------------------------------------------------------------- *)
(** *** Cache keys                                                        *)
(* --------------------------------------------------------------------- *)

Lemma append_colon_inj x y r1 r2 :
  no_colon x = true -> no_colon y = true ->
  x +:+ String ":" r1 = y +:+ String ":" r2 -> x = y /\ r1 = r2.
Proof.
  unfold no_colon. revert y. induction x as [|a x IH]; intros [|b y]; simpl; intros Hx Hy H.
  - injection H as ->. auto.
  - injection H as <- _. discriminate.
  - injection H as -> _. discriminate.
  - injection H as -> H. apply andb_true_iff in Hx as [_ Hx], Hy as [_ Hy].
    destruct (IH y Hx Hy H) as [-> ->]. auto.
Qed.

Lemma key_text_inj c1 a1 ch1 c2 a2 ch2 :
  no_colon c1 = true -> no_colon c2 = true -> no_colon a1 = true -> no_colon a2 = true ->
  c1 +:+ ":" +:+ a1 +:+ ":" +:+ ch1 = c2 +:+ ":" +:+ a2 +:+ ":" +:+ ch2 ->
  c1 = c2 /\ a1 = a2 /\ ch1 = ch2.
Proof.
  intros Hc1 Hc2 Ha1 Ha2 H.
  apply (append_colon_inj c1 c2) in H as [-> H]; [|assumption..].
  apply (append_colon_inj a1 a2) in H as [-> ->]; [|assumption..].
  auto.
Qed.

Lemma is_eth_or_sol_address_no_colon ca chain :
  JS.is_str chain "eth" || JS.is_str chain "sol" = true ->
  (JS.is_str chain "eth" = true ->
   VALIDATION_PATTERNS.test VALIDATION_PATTERNS.CONTRACT_ADDRESS ca = true) ->
  (JS.is_str chain "sol" = true ->
   VALIDATION_PATTERNS.test VALIDATION_PATTERNS.SOLANA_ADDRESS ca = true) ->
  no_colon (JS.to_string ca) = true.
Proof.
  intros Hchain Heth Hsol. apply orb_true_iff in Hchain as [H|H].
  - apply CONTRACT_ADDRESS_no_colon, Heth, H.
  - apply SOLANA_ADDRESS_no_colon, Hsol, H.
Qed.

(** X4. Given a collision-free digest, the cache key separates validated
    triples on the two supported chains: in [src/api/analyze.js], two
    triples with chain ['eth'] or ['sol'] that both pass [_validateInput]
    and have the same cache key have the same coin id, the same address and
    the same chain, so neither is answered with the entry of the other. *)
Theorem cache_key_separates_validated_triples
    (h : host) (c1 a1 ch1 c2 a2 ch2 : JS.value) (p1 p2 : process) :
  (forall s1 s2, sha256_hex h s1 = sha256_hex h s2 -> s1 = s2) ->
  JS.is_str ch1 "eth" || JS.is_str ch1 "sol" = true ->
  JS.is_str ch2 "eth" || JS.is_str ch2 "sol" = true ->
  (PagesApi._validateInput c1 a1 ch1 p1).1 = Normal tt ->
  (PagesApi._validateInput c2 a2 ch2 p2).1 = Normal tt ->
  PagesApi.cacheKey h c1 a1 ch1 = PagesApi.cacheKey h c2 a2 ch2 ->
  JS.to_string c1 = JS.to_string c2
  /\ JS.to_string a1 = JS.to_string a2
  /\ JS.to_string ch1 = JS.to_string ch2.
Proof.
  intros Hdigest Hch1 Hch2 Hv1 Hv2 Hkey.
  apply pages_validateInput_passed in Hv1 as (Hc1 & Heth1 & Hsol1).
  apply pages_validateInput_passed in Hv2 as (Hc2 & Heth2 & Hsol2).
  apply Hdigest in Hkey. apply key_text_inj in Hkey; [exact Hkey | | | |].
  - apply COIN_ID_no_colon. exact Hc1.
  - apply COIN_ID_no_colon. exact Hc2.
  - apply (is_eth_or_sol_address_no_colon a1 ch1); assumption.
  - apply (is_eth_or_sol_address_no_colon a2 ch2); assumption.
Qed.

Lemma cache_key_separates_validated_triples_witness :
  JS.to_string Scenario.uniswap = JS.to_string Scenario.uniswap
  /\ JS.to_string Scenario.UNI = JS.to_string Scenario.UNI
  /\ JS.to_string (JS.Str "eth") = JS.to_string (JS.Str "eth").
Proof.
  apply (cache_key_separates_validated_triples Scenario.production
           Scenario.uniswap Scenario.UNI (JS.Str "eth")
           Scenario.uniswap Scenario.UNI (JS.Str "eth") (new_process 0) (new_process 0)).
  - intros s1 s2 H. exact H.
  - reflexivity.
  - reflexivity.
  - reflexivity.
  - reflexivity.
  - reflexivity.
Defined.

Lemma pages_requests_carry_validated_identifiers_witness :
  let evs := [Admission (JS.Str "default") true;
              CacheLookup "uniswap:0x1f9840a85d5af5bf1d1762f925bdaddc4201f984:eth" false;
              MarketRequest "uniswap";
              HolderRequest "0x1f9840a85d5af5bf1d1762f925bdaddc4201f984";
              PoolRequest "0x1f9840a85d5af5bf1d1762f925bdaddc4201f984"] in
  (forall s, In (MarketRequest s) evs -> VALIDATION_PATTERNS.COIN_ID s = true)
  /\ (forall a, In (HolderRequest a) evs -> VALIDATION_PATTERNS.CONTRACT_ADDRESS a = true)
  /\ (JS.is_str JS.Undefined "sol" = true ->
      forall a, In (TransferRequest a) evs \/ In (PoolRequest a) evs ->
                VALIDATION_PATTERNS.SOLANA_ADDRESS a = true).
Proof.
  intros evs.
  apply (pages_requests_carry_validated_identifiers Scenario.development Scenario.steady
           Scenario.uniswap Scenario.UNI JS.Undefined JS.Undefined (new_process 0) evs).
  vm_compute. reflexivity.
Defined.

Lemma api_requests_carry_validated_identifiers_witness :
  let evs := [SearchRequest "uniswap"; PlatformRequest "uniswap";
              Admission (JS.Str "default") true;
              CacheLookup "uniswap:0x1f9840a85d5af5bf1d1762f925bdaddc4201f984:eth" false;
              MarketRequest "uniswap";
              HolderRequest "0x1f9840a85d5af5bf1d1762f925bdaddc4201f984";
              PoolRequest "0x1f9840a85d5af5bf1d1762f925bdaddc4201f984"] in
  (forall s, In (MarketRequest s) evs -> VALIDATION_PATTERNS.COIN_ID s = true \/ s = "")
  /\ (forall a, In (HolderRequest a) evs -> VALIDATION_PATTERNS.CONTRACT_ADDRESS a = true).
Proof.
  intros evs.
  apply (api_requests_carry_validated_identifiers Scenario.development Scenario.steady
           (JS.Str "") (JS.Str "") (JS.Str "") (JS.Str "default") (JS.Str "uniswap")
           (new_process 0) evs).
  vm_compute. reflexivity.
Defined.


(* --------------------------------------------------------------------- *)
(** *** The rate limiter, client by client                                *)
(* --------------------------------------------------------------------- *)

Lemma checkRateLimit_state clientId p :
  (RateLimiter._checkRateLimit clientId p).2 =
    {| cache := cache p;
       requestCounts :=
         <[clientId := RateLimiter.window (clock p) (default [] (requestCounts p !! clientId))]>
           (match requestCounts p !! clientId with
            | None => <[clientId := []]> (requestCounts p)
            | Some _ => requestCounts p
            end);
       clock := clock p; timers := timers p;
       trace := trace p ++
         [Admission clientId
            (RateLimiter.admitted
               (RateLimiter.window (clock p) (default [] (requestCounts p !! clientId))))] |}.
Proof.
  unfold RateLimiter._checkRateLimit, bind, Date_now, get_requestCounts, set_requestCounts, log.
  simpl.
  assert ((match requestCounts p !! clientId with
           | None => <[clientId := []]> (requestCounts p)
           | Some _ => requestCounts p
           end) !! clientId = Some (default [] (requestCounts p !! clientId))) as Hlook.
  { destruct (requestCounts p !! clientId) as [stamps|] eqn:H; simpl;
      [exact H | apply lookup_insert_eq]. }
  rewrite Hlook. simpl. destruct (RateLimiter.admitted _); reflexivity.
Qed.

Lemma checkRateLimit_completion clientId p :
  (RateLimiter._checkRateLimit clientId p).1 =
    if RateLimiter.admitted
         (RateLimiter.window (clock p) (default [] (requestCounts p !! clientId)))
    then Normal tt else Throw "Rate limit exceeded".
Proof.
  unfold RateLimiter._checkRateLimit, bind, Date_now, get_requestCounts, set_requestCounts, log.
  simpl.
  assert ((match requestCounts p !! clientId with
           | None => <[clientId := []]> (requestCounts p)
           | Some _ => requestCounts p
           end) !! clientId = Some (default [] (requestCounts p !! clientId))) as Hlook.
  { destruct (requestCounts p !! clientId) as [stamps|] eqn:H; simpl;
      [exact H | apply lookup_insert_eq]. }
  rewrite Hlook. simpl. destruct (RateLimiter.admitted _); reflexivity.
Qed.


Lemma filter_none {A} (f : A -> bool) (l : list A) :
  Forall (fun x => f x = false) l -> List.filter f l = [].
Proof. induction 1 as [|x l Hx _ IH]; simpl; [reflexivity|]. rewrite Hx. exact IH. Qed.

(** X6. A client that is unknown to the limiter, or whose recorded calls
    are all at least 60 seconds old, is admitted whatever the length of its
    record, and its record becomes the one timestamp of this call. *)
Theorem idle_client_is_admitted (clientId : JS.value) (p : process) :
  (forall stamps, requestCounts p !! clientId = Some stamps ->
                  Forall (fun t => (t <= clock p - 60000)%Z) stamps) ->
  (RateLimiter._checkRateLimit clientId p).1 = Normal tt
  /\ requestCounts (RateLimiter._checkRateLimit clientId p).2 !! clientId = Some [clock p].
Proof.
  intros Hidle.
  assert (RateLimiter.window (clock p) (default [] (requestCounts p !! clientId)) = [clock p])
    as Hwindow.
  { unfold RateLimiter.window. rewrite filter_none; [reflexivity|].
    destruct (requestCounts p !! clientId) as [stamps|]; simpl; [|constructor].
    eapply Forall_impl; [apply Hidle; reflexivity|]. simpl. intros t Ht.
    apply Z.ltb_ge. exact Ht. }
  rewrite checkRateLimit_completion, checkRateLimit_state, Hwindow. simpl.
  split; [reflexivity | apply lookup_insert_eq].
Qed.

Lemma idle_client_is_admitted_witness :
  let p := elapse_until 70000 (Scenario.after_calls (JS.Str "default") 3) in
  (RateLimiter._checkRateLimit (JS.Str "default") p).1 = Normal tt
  /\ requestCounts (RateLimiter._checkRateLimit (JS.Str "default") p).2 !! JS.Str "default"
     = Some [clock p].
Proof.
  intros p. apply (idle_client_is_admitted (JS.Str "default") p).
  intros stamps H. vm_compute in H. injection H as <-.
  repeat (apply List.Forall_cons; [vm_compute; discriminate|]). apply List.Forall_nil.
Defined.


(* --------------------------------------------------------------------- *)
(** *** What [Promise.all] throws, and when                               *)
(* --------------------------------------------------------------------- *)

Lemma Promise_all3_throws {A B C} (pa : promise A) (pb : promise B) (pc : promise C) p e :
  (Promise_all3 pa pb pc p).1 = Throw e ->
  settled pa = inl e \/ settled pb = inl e \/ settled pc = inl e.
Proof.
  unfold Promise_all3, rejection, earlier.
  destruct (settled pa), (settled pb), (settled pc); simpl;
    repeat match goal with |- context [(?x <? ?y)%Z] => destruct (x <? y)%Z end;
    simpl; intros [= <-]; auto.
Qed.

Lemma Promise_all3_resolves_at {A B C} (pa : promise A) (pb : promise B) (pc : promise C) p x :
  (Promise_all3 pa pb pc p).1 = Normal x ->
  clock (Promise_all3 pa pb pc p).2
    = Z.max (clock p) (Z.max (settles_at pa) (Z.max (settles_at pb) (settles_at pc))).
Proof.
  unfold Promise_all3.
  destruct (settled pa), (settled pb), (settled pc);
    try (destruct (earlier _ _) as [[t e]|]); simpl; intros H; try discriminate.
  reflexivity.
Qed.

Lemma Promise_all3_rejects_by {A B C} (pa : promise A) (pb : promise B) (pc : promise C) p :
  ((exists e, settled pa = inl e) ->
   (clock (Promise_all3 pa pb pc p).2 <= Z.max (clock p) (settles_at pa))%Z)
  /\ ((exists e, settled pb = inl e) ->
      (clock (Promise_all3 pa pb pc p).2 <= Z.max (clock p) (settles_at pb))%Z)
  /\ ((exists e, settled pc = inl e) ->
      (clock (Promise_all3 pa pb pc p).2 <= Z.max (clock p) (settles_at pc))%Z).
Proof.
  unfold Promise_all3, rejection, earlier.
  destruct (settled pa), (settled pb), (settled pc); simpl;
    repeat match goal with |- context [(?x <? ?y)%Z] => destruct (Z.ltb_spec x y) end;
    simpl; (split; [|split]); intros [e' He']; try discriminate; lia.
Qed.

Lemma rethrow_as_message {A} failure (x : string + A) e :
  rethrow_as failure x = inl e -> e = failure.
Proof. destruct x; simpl; intros [= <-]; reflexivity. Qed.

Lemma read_response_answered {P A} label (map : P -> A) r :
  failed r = false -> exists payload, read_response label map r = inr (map payload).
Proof.
  destruct r as [e|ok status [e|payload]]; simpl; try discriminate.
  - destruct ok; discriminate.
  - destruct ok; [eauto | discriminate].
Qed.

(* --------------------------------------------------------------------- *)
(** *** The error messages of [src/api/analyze.js]                        *)
(* --------------------------------------------------------------------- *)

Lemma pages_aggregate_throws net coinId ca chain p e :
  (PagesApi.aggregate net coinId ca chain p).1 = Throw e ->
  In e ["Failed to fetch market data"; "Failed to fetch holder data";
        "Failed to fetch Solana activity data"; "Failed to fetch liquidity data"].
Proof.
  unfold PagesApi.aggregate, PagesApi._fetchCoinGeckoData, PagesApi._fetchEtherscanData,
    PagesApi._fetchSolanaData, PagesApi._fetchDexScreenerData, bind.
  rewrite request_run.
  destruct (JS.is_str chain "eth"); rewrite !request_run; intros H;
    apply Promise_all3_throws in H; cbn [settled] in H;
    destruct H as [H|[H|H]]; apply rethrow_as_message in H; subst e; simpl; auto.
Qed.

Lemma pages_admit_and_lookup_throws h coinId ca chain clientId p e p' :
  PagesApi.admit_and_lookup h coinId ca chain clientId p = (Throw e, p') ->
  (exists violations, e = "Validation failed: " +:+ violations) \/ e = "Rate limit exceeded".
Proof.
  unfold PagesApi.admit_and_lookup. unfold bind at 1.
  pose proof (pages_validateInput_message coinId ca chain p) as Hmessage.
  destruct (PagesApi._validateInput coinId ca chain p) as [[[]|e0] q]; simpl in Hmessage.
  - unfold bind at 1. pose proof (checkRateLimit_completion clientId q) as Hlimit.
    destruct (RateLimiter._checkRateLimit clientId q) as [[[]|e1] q1]; simpl in Hlimit.
    + unfold bind, get_cache, log, ret. simpl. discriminate.
    + intros [= <- _]. right. destruct (RateLimiter.admitted _); congruence.
  - intros [= <- _]. left. apply Hmessage. reflexivity.
Qed.

(** X7. The error messages of [src/api/analyze.js] form a closed list: the
    message of an error result either starts with ["Validation failed: "]
    or is one of ["Rate limit exceeded"], ["Failed to fetch market data"],
    ["Failed to fetch holder data"], ["Failed to fetch Solana activity
    data"], ["Failed to fetch liquidity data"]; the provider's status code
    and the text of the underlying error never reach the caller. *)
Theorem pages_error_messages_are_a_closed_list
    (h : host) (net : upstream) (coinId ca chain clientId : JS.value) (p : process)
    (message : string) (elapsed today : Z) (p' : process) :
  PagesApi.analyze h net coinId ca chain clientId p = (Normal (Failed message elapsed today), p') ->
  (exists violations, message = "Validation failed: " +:+ violations)
  \/ In message ["Rate limit exceeded"; "Failed to fetch market data";
                 "Failed to fetch holder data"; "Failed to fetch Solana activity data";
                 "Failed to fetch liquidity data"].
Proof.
  rewrite pages_analyze_run.
  destruct (PagesApi.analyze_try h net (clock p) coinId ca (JS.param_default chain "eth")
              (JS.param_default clientId "default") p) as [[r|e] q] eqn:Htry.
  { intros [= -> _]. apply pages_analyze_try_computed in Htry. discriminate. }
  intros [= <- _ _ _]. revert Htry. unfold PagesApi.analyze_try. unfold bind at 1.
  destruct (PagesApi.admit_and_lookup h coinId ca (JS.param_default chain "eth")
              (JS.param_default clientId "default") p) as [[[cached|]|e0] p1] eqn:Hadmit.
  - discriminate.
  - rewrite pages_compute_run.
    destruct (PagesApi.aggregate net coinId ca (JS.param_default chain "eth") p1)
      as [[[[m c] d]|e1] q1] eqn:Hagg; simpl; [discriminate|].
    intros [= <- _]. right. right.
    apply (pages_aggregate_throws net coinId ca (JS.param_default chain "eth") p1).
    rewrite Hagg. reflexivity.
  - intros [= <- _]. apply pages_admit_and_lookup_throws in Hadmit as [Hv| ->];
      [left; exact Hv | right; left; reflexivity].
Qed.

Lemma pages_error_messages_are_a_closed_list_witness :
  (exists violations, "Failed to fetch liquidity data" = "Validation failed: " +:+ violations)
  \/ In "Failed to fetch liquidity data"
        ["Rate limit exceeded"; "Failed to fetch market data";
         "Failed to fetch holder data"; "Failed to fetch Solana activity data";
         "Failed to fetch liquidity data"].
Proof.
  apply (pages_error_messages_are_a_closed_list Scenario.production Scenario.liquidity_down
           Scenario.uniswap Scenario.UNI JS.Undefined JS.Undefined (new_process 0)
           "Failed to fetch liquidity data" 200 200
           (PagesApi.analyze Scenario.production Scenario.liquidity_down
              Scenario.uniswap Scenario.UNI JS.Undefined JS.Undefined (new_process 0)).2).
  vm_compute. reflexivity.
Defined.


(* --------------------------------------------------------------------- *)
(** *** The time a result reports                                         *)
(* --------------------------------------------------------------------- *)

Lemma pages_reported_time h net coinId ca chain clientId p r p' :
  PagesApi.analyze h net coinId ca chain clientId p = (Normal r, p') ->
  from_cache r = false ->
  result_processingTime r = (clock p' - clock p)%Z
  /\ (clock p <= clock p')%Z
  /\ match r with
     | Computed a _ => timestamp a = clock p'
     | Failed _ _ today => today = clock p'
     end.
Proof.
  rewrite pages_analyze_run.
  destruct (pages_analyze_try_run h net (clock p) coinId ca (JS.param_default chain "eth")
              (JS.param_default clientId "default") p)
    as (c & p1 & evs & _ & _ & _ & Hk & _ & Hcases).
  destruct Hcases as [(_ & e & _ & ->)|[(_ & _ & ->)
    |[(cached & _ & _ & _ & ->)|(_ & _ & _ & ->)]]].
  - intros [= <- <-] _. simpl. rewrite Hk. repeat split; lia.
  - intros [= <- <-] _. simpl. rewrite Hk. repeat split; lia.
  - intros [= <- <-]. discriminate.
  - rewrite pages_compute_run.
    pose proof (pages_aggregate_evolves net coinId ca (JS.param_default chain "eth") p1)
      as (_ & _ & Hle & _).
    destruct (PagesApi.aggregate net coinId ca (JS.param_default chain "eth") p1)
      as [[[[m c0] d]|e] q]; simpl in *.
    + intros [= <- <-] _. simpl. destruct (CONFIG.ENCRYPT_CACHE h); simpl; repeat split; lia.
    + intros [= <- <-] _. simpl. repeat split; lia.
Qed.

Lemma api_reported_time h net coinId ca chain clientId coinName p r p' :
  Api.analyze h net coinId ca chain clientId coinName p = (Normal r, p') ->
  from_cache r = false ->
  result_processingTime r = (clock p' - clock p)%Z
  /\ (clock p <= clock p')%Z
  /\ match r with
     | Computed a _ => timestamp a = clock p'
     | Failed _ _ today => today = clock p'
     end.
Proof.
  rewrite api_analyze_run.
  destruct (api_analyze_try_run h net (clock p) coinId ca (JS.param_default chain "eth")
              (JS.param_default clientId "default") (JS.param_default coinName "") p)
    as (c & p1 & res & rest & _ & _ & (_ & _ & Hk & _) & Hcases).
  destruct Hcases as [(_ & e & _ & ->)|[(_ & _ & ->)
    |[(id & ca' & ch' & cached & _ & _ & _ & ->)|(id & ca' & ch' & _ & _ & _ & ->)]]].
  - intros [= <- <-] _. simpl. repeat split; lia.
  - intros [= <- <-] _. simpl. repeat split; lia.
  - intros [= <- <-]. discriminate.
  - rewrite api_compute_run.
    pose proof (api_aggregate_events net id ca' ch' p1) as (_ & _ & Hle & _).
    destruct (Api.aggregate net id ca' ch' p1) as [[[[m c0] d]|e] q]; simpl in *.
    + intros [= <- <-] _. simpl. destruct (CONFIG.ENCRYPT_CACHE h); simpl; repeat split; lia.
    + intros [= <- <-] _. simpl. repeat split; lia.
Qed.

(** X8. A result that does not come from the cache, error-shaped or not,
    of either revision, reports the time the call took: its
    [processingTime] is the reading of the clock when the call returns minus
    the reading when it was entered, it is never negative, and its
    [timestamp] is the instant the call returns. *)
Theorem reported_time_is_the_time_the_call_took
    (h : host) (net : upstream) (call : M AnalysisResult) (p : process)
    (r : AnalysisResult) (p' : process) :
  is_analyze h net call ->
  call p = (Normal r, p') ->
  from_cache r = false ->
  result_processingTime r = (clock p' - clock p)%Z
  /\ (0 <= result_processingTime r)%Z
  /\ match r with
     | Computed a _ => timestamp a = clock p'
     | Failed _ _ today => today = clock p'
     end.
Proof.
  intros [coinId ca chain clientId | coinId ca chain clientId coinName] Hrun Hfresh.
  - destruct (pages_reported_time _ _ _ _ _ _ _ _ _ Hrun Hfresh) as (H1 & H2 & H3).
    split; [exact H1|]. split; [lia | exact H3].
  - destruct (api_reported_time _ _ _ _ _ _ _ _ _ _ Hrun Hfresh) as (H1 & H2 & H3).
    split; [exact H1|]. split; [lia | exact H3].
Qed.

Lemma reported_time_is_the_time_the_call_took_witness :
  let p := new_process 0 in
  let call := Api.analyze Scenario.production Scenario.steady
                (JS.Str "") (JS.Str "") (JS.Str "") (JS.Str "default") (JS.Str "uniswap") in
  result_processingTime (Computed Scenario.resolved_result false)
    = (clock (call p).2 - clock p)%Z
  /\ (0 <= result_processingTime (Computed Scenario.resolved_result false))%Z
  /\ timestamp Scenario.resolved_result = clock (call p).2.
Proof.
  intros p call.
  apply (reported_time_is_the_time_the_call_took Scenario.production Scenario.steady
           call p (Computed Scenario.resolved_result false) (call p).2).
  - apply api_call.
  - vm_compute. reflexivity.
  - reflexivity.
Defined.

(* --------------------------------------------------------------------- *)
(** *** How long [src/api/analyze.js] waits                               *)
(* --------------------------------------------------------------------- *)

Lemma Promise_all3_throws_at {A B C} (pa : promise A) (pb : promise B) (pc : promise C) p e :
  (Promise_all3 pa pb pc p).1 = Throw e ->
  let now := clock (Promise_all3 pa pb pc p).2 in
  (settled pa = inl e /\ now = Z.max (clock p) (settles_at pa))
  \/ (settled pb = inl e /\ now = Z.max (clock p) (settles_at pb))
  \/ (settled pc = inl e /\ now = Z.max (clock p) (settles_at pc)).
Proof.
  unfold Promise_all3, rejection, earlier.
  destruct (settled pa), (settled pb), (settled pc); simpl;
    repeat match goal with |- context [(?x <? ?y)%Z] => destruct (x <? y)%Z end;
    simpl; intros [= <-]; auto.
Qed.

Lemma pages_aggregate_resolves_at net coinId ca chain p x :
  (PagesApi.aggregate net coinId ca chain p).1 = Normal x ->
  clock (PagesApi.aggregate net coinId ca chain p).2 =
    (clock p
     + Z.of_N (N.max (latency (coingecko_market net (JS.to_string coinId) (clock p)))
                 (N.max (chain_latency net ca chain (clock p))
                    (latency (dexscreener_pairs net (JS.to_string ca) (clock p))))))%Z.
Proof.
  unfold PagesApi.aggregate, PagesApi._fetchCoinGeckoData, PagesApi._fetchEtherscanData,
    PagesApi._fetchSolanaData, PagesApi._fetchDexScreenerData, chain_latency, bind.
  rewrite request_run.
  destruct (JS.is_str chain "eth"); rewrite !request_run; intros H;
    apply Promise_all3_resolves_at in H; rewrite H; cbn [settles_at clock log snd]; lia.
Qed.

(** X9. The three fetchers of [src/api/analyze.js] run side by side: a
    freshly computed result took as long as the slowest of the three
    requests (market, holders or transfers, liquidity), not their sum. *)
Theorem pages_fresh_result_takes_the_slowest_request
    (h : host) (net : upstream) (coinId ca chain clientId : JS.value) (p : process)
    (r : Analysis) (p' : process) :
  PagesApi.analyze h net coinId ca chain clientId p = (Normal (Computed r false), p') ->
  processingTime r =
    Z.of_N (N.max (latency (coingecko_market net (JS.to_string coinId) (clock p)))
              (N.max (chain_latency net ca (JS.param_default chain "eth") (clock p))
                 (latency (dexscreener_pairs net (JS.to_string ca) (clock p))))).
Proof.
  rewrite pages_analyze_run.
  destruct (pages_analyze_try_run h net (clock p) coinId ca (JS.param_default chain "eth")
              (JS.param_default clientId "default") p)
    as (c & p1 & evs & _ & _ & _ & Hk & _ & Hcases).
  destruct Hcases as [(_ & e & _ & ->)|[(_ & _ & ->)
    |[(cached & _ & _ & _ & ->)|(_ & _ & _ & ->)]]]; try discriminate.
  rewrite pages_compute_run.
  pose proof (pages_aggregate_resolves_at net coinId ca (JS.param_default chain "eth") p1) as Hat.
  destruct (PagesApi.aggregate net coinId ca (JS.param_default chain "eth") p1)
    as [[[[m c0] d]|e] q]; simpl in *; [|discriminate].
  intros [= <- _]. simpl. rewrite (Hat _ eq_refl), Hk. lia.
Qed.

Lemma pages_fresh_result_takes_the_slowest_request_witness :
  processingTime Scenario.first_result = Z.of_N (N.max 500 (N.max 300 200)).
Proof.
  apply (pages_fresh_result_takes_the_slowest_request Scenario.production Scenario.steady
           Scenario.uniswap Scenario.UNI JS.Undefined JS.Undefined (new_process 0)
           Scenario.first_result
           (PagesApi.analyze Scenario.production Scenario.steady
              Scenario.uniswap Scenario.UNI JS.Undefined JS.Undefined (new_process 0)).2).
  vm_compute. reflexivity.
Defined.


Lemma fetcher_rejects {P A} failure label (map : P -> A) (r : response P) e :
  rethrow_as failure (read_response label map r) = inl e -> failed r = true.
Proof.
  destruct (failed r) eqn:Hf; [reflexivity|].
  destruct (read_response_answered label map r Hf) as [payload ->]. discriminate.
Qed.

Lemma fetcher_rejected {P A} failure label (map : P -> A) (r : response P) :
  failed r = true -> exists e, rethrow_as failure (read_response label map r) = inl e.
Proof. intros H. apply rethrow_as_failed, read_response_failed, H. Qed.

Lemma pages_aggregate_throws_at net coinId ca chain p e :
  (PagesApi.aggregate net coinId ca chain p).1 = Throw e ->
  let market := coingecko_market net (JS.to_string coinId) (clock p) in
  let pools := dexscreener_pairs net (JS.to_string ca) (clock p) in
  let chain_failed :=
    if JS.is_str chain "eth"
    then failed (answer (etherscan_holders net (JS.to_string ca) (clock p)))
    else failed (answer (helius_transfers net (JS.to_string ca) (clock p))) in
  let waited := (clock (PagesApi.aggregate net coinId ca chain p).2 - clock p)%Z in
  (failed (answer market) = true -> (waited <= Z.of_N (latency market))%Z)
  /\ (chain_failed = true -> (waited <= Z.of_N (chain_latency net ca chain (clock p)))%Z)
  /\ (failed (answer pools) = true -> (waited <= Z.of_N (latency pools))%Z)
  /\ ((failed (answer market) = true /\ waited = Z.of_N (latency market))
      \/ (chain_failed = true /\ waited = Z.of_N (chain_latency net ca chain (clock p)))
      \/ (failed (answer pools) = true /\ waited = Z.of_N (latency pools))).
Proof.
  unfold PagesApi.aggregate, PagesApi._fetchCoinGeckoData, PagesApi._fetchEtherscanData,
    PagesApi._fetchSolanaData, PagesApi._fetchDexScreenerData, chain_latency, bind.
  rewrite request_run.
  destruct (JS.is_str chain "eth"); rewrite !request_run; intros H; cbv zeta;
    match type of H with (Promise_all3 ?a ?b ?c ?q).1 = _ =>
      pose proof (Promise_all3_rejects_by a b c q) as (Ha & Hb & Hc);
      apply Promise_all3_throws_at in H;
      set (now := clock (Promise_all3 a b c q).2) in *
    end;
    cbn [settled settles_at clock log snd] in *;
    (split; [intros Hf; specialize (Ha (fetcher_rejected _ _ _ _ Hf)); lia|]);
    (split; [intros Hf; specialize (Hb (fetcher_rejected _ _ _ _ Hf)); lia|]);
    (split; [intros Hf; specialize (Hc (fetcher_rejected _ _ _ _ Hf)); lia|]);
    destruct H as [[H Hnow]|[[H Hnow]|[H Hnow]]]; apply fetcher_rejects in H;
    [left|right; left|right; right|left|right; left|right; right]; (split; [exact H | lia]).
Qed.

Lemma validation_message_is_no_fetch_message violations :
  ~ In ("Validation failed: " +:+ violations)
       ["Failed to fetch market data"; "Failed to fetch holder data";
        "Failed to fetch Solana activity data"; "Failed to fetch liquidity data"].
Proof. simpl. intros [H|[H|[H|[H|[]]]]]; discriminate H. Qed.

(** X10. Aggregation in [src/api/analyze.js] gives up at the first rejection:
    when [analyze] reports that a fetch failed, the call took exactly as long
    as one of the failing requests, and no longer than any failing request;
    the answers of the slower requests are not waited for. *)
Theorem pages_failure_is_reported_at_the_first_rejection
    (h : host) (net : upstream) (coinId ca chain clientId : JS.value) (p : process)
    (message : string) (elapsed today : Z) (p' : process) :
  PagesApi.analyze h net coinId ca chain clientId p
    = (Normal (Failed message elapsed today), p') ->
  In message ["Failed to fetch market data"; "Failed to fetch holder data";
              "Failed to fetch Solana activity data"; "Failed to fetch liquidity data"] ->
  let chain := JS.param_default chain "eth" in
  let market := coingecko_market net (JS.to_string coinId) (clock p) in
  let pools := dexscreener_pairs net (JS.to_string ca) (clock p) in
  let chain_failed :=
    if JS.is_str chain "eth"
    then failed (answer (etherscan_holders net (JS.to_string ca) (clock p)))
    else failed (answer (helius_transfers net (JS.to_string ca) (clock p))) in
  (failed (answer market) = true -> (elapsed <= Z.of_N (latency market))%Z)
  /\ (chain_failed = true -> (elapsed <= Z.of_N (chain_latency net ca chain (clock p)))%Z)
  /\ (failed (answer pools) = true -> (elapsed <= Z.of_N (latency pools))%Z)
  /\ ((failed (answer market) = true /\ elapsed = Z.of_N (latency market))
      \/ (chain_failed = true /\ elapsed = Z.of_N (chain_latency net ca chain (clock p)))
      \/ (failed (answer pools) = true /\ elapsed = Z.of_N (latency pools))).
Proof.
  rewrite pages_analyze_run.
  destruct (pages_analyze_try_run h net (clock p) coinId ca (JS.param_default chain "eth")
              (JS.param_default clientId "default") p)
    as (c & p1 & evs & Hadmit & _ & _ & Hk & _ & Hcases).
  destruct Hcases as [(_ & e & -> & ->)|[(_ & -> & ->)
    |[(cached & _ & _ & _ & ->)|(_ & _ & _ & ->)]]]; try discriminate.
  - intros [= <- _ _ _] Hin. exfalso.
    apply pages_admit_and_lookup_throws in Hadmit as [[violations ->]| ->].
    + exact (validation_message_is_no_fetch_message _ Hin).
    + simpl in Hin. destruct Hin as [H|[H|[H|[H|[]]]]]; discriminate H.
  - intros [= <- _ _ _] Hin. exfalso.
    simpl in Hin. destruct Hin as [H|[H|[H|[H|[]]]]]; discriminate H.
  - rewrite pages_compute_run.
    pose proof (pages_aggregate_throws_at net coinId ca (JS.param_default chain "eth") p1) as Hat.
    destruct (PagesApi.aggregate net coinId ca (JS.param_default chain "eth") p1)
      as [[[[m c0] d]|e] q]; [discriminate|].
    intros [= _ <- _ _] _. specialize (Hat e eq_refl). rewrite Hk in Hat. exact Hat.
Qed.

Lemma pages_failure_is_reported_at_the_first_rejection_witness :
  let p := new_process 0 in
  let market := coingecko_market Scenario.liquidity_down "uniswap" 0 in
  let pools := dexscreener_pairs Scenario.liquidity_down
                 "0x1f9840a85d5af5bf1d1762f925bdaddc4201f984" 0 in
  (failed (answer market) = true -> (200 <= Z.of_N (latency market))%Z)
  /\ (failed (answer (etherscan_holders Scenario.liquidity_down
                        "0x1f9840a85d5af5bf1d1762f925bdaddc4201f984" 0)) = true ->
      (200 <= Z.of_N (chain_latency Scenario.liquidity_down Scenario.UNI (JS.Str "eth") 0))%Z)
  /\ (failed (answer pools) = true -> (200 <= Z.of_N (latency pools))%Z)
  /\ ((failed (answer market) = true /\ 200%Z = Z.of_N (latency market))
      \/ (failed (answer (etherscan_holders Scenario.liquidity_down
                            "0x1f9840a85d5af5bf1d1762f925bdaddc4201f984" 0)) = true
          /\ 200%Z = Z.of_N (chain_latency Scenario.liquidity_down Scenario.UNI (JS.Str "eth") 0))
      \/ (failed (answer pools) = true /\ 200%Z = Z.of_N (latency pools))).
Proof.
  apply (pages_failure_is_reported_at_the_first_rejection
           Scenario.production Scenario.liquidity_down
           Scenario.uniswap Scenario.UNI JS.Undefined JS.Undefined (new_process 0)
           "Failed to fetch liquidity data" 200 200
           (PagesApi.analyze Scenario.production Scenario.liquidity_down
              Scenario.uniswap Scenario.UNI JS.Undefined JS.Undefined (new_process 0)).2).
  - vm_compute. reflexivity.
  - simpl. auto.
Defined.

(* --------------------------------------------------------------------- *)
(** *** Invalid input                                                     *)
(* --------------------------------------------------------------------- *)

Lemma pages_validateInput_rejects coinId ca chain p :
  VALIDATION_PATTERNS.test VALIDATION_PATTERNS.COIN_ID coinId = false
  \/ (JS.is_str chain "eth" = true
      /\ VALIDATION_PATTERNS.test VALIDATION_PATTERNS.CONTRACT_ADDRESS ca = false)
  \/ (JS.is_str chain "sol" = true
      /\ VALIDATION_PATTERNS.test VALIDATION_PATTERNS.SOLANA_ADDRESS ca = false) ->
  exists violations,
    PagesApi._validateInput coinId ca chain p
      = (Throw ("Validation failed: " +:+ violations), p).
Proof.
  unfold PagesApi._validateInput.
  destruct (VALIDATION_PATTERNS.test VALIDATION_PATTERNS.COIN_ID coinId),
    (JS.is_str chain "eth"),
    (VALIDATION_PATTERNS.test VALIDATION_PATTERNS.CONTRACT_ADDRESS ca),
    (JS.is_str chain "sol"),
    (VALIDATION_PATTERNS.test VALIDATION_PATTERNS.SOLANA_ADDRESS ca);
    simpl; intros [H|[[H1 H2]|[H1 H2]]]; try discriminate; eexists; reflexivity.
Qed.

(** X11. In [src/api/analyze.js] an input that fails validation is turned
    down on the spot and leaves no mark: the call returns the error result
    with a message that starts with ["Validation failed: "] and a processing
    time of 0, and the process is exactly as before: nothing is sent, the
    cache is not looked at, and the call is not counted against the client's
    rate limit. *)
Theorem pages_invalid_input_leaves_no_mark
    (h : host) (net : upstream) (coinId ca chain clientId : JS.value) (p : process) :
  VALIDATION_PATTERNS.test VALIDATION_PATTERNS.COIN_ID coinId = false
  \/ (JS.is_str (JS.param_default chain "eth") "eth" = true
      /\ VALIDATION_PATTERNS.test VALIDATION_PATTERNS.CONTRACT_ADDRESS ca = false)
  \/ (JS.is_str (JS.param_default chain "eth") "sol" = true
      /\ VALIDATION_PATTERNS.test VALIDATION_PATTERNS.SOLANA_ADDRESS ca = false) ->
  exists violations,
    PagesApi.analyze h net coinId ca chain clientId p
      = (Normal (Failed ("Validation failed: " +:+ violations) 0 (clock p)), p).
Proof.
  intros H.
  destruct (pages_validateInput_rejects coinId ca (JS.param_default chain "eth") p H)
    as [violations Hv].
  exists violations.
  unfold PagesApi.analyze, PagesApi.analyze_try, PagesApi.admit_and_lookup,
    PagesApi.error_result, bind, Date_now, try_catch, ret.
  rewrite Hv. simpl. rewrite Z.sub_diag. reflexivity.
Qed.

Lemma pages_invalid_input_leaves_no_mark_witness :
  exists violations,
    PagesApi.analyze Scenario.production Scenario.steady
      (JS.Str "Uniswap") Scenario.UNI JS.Undefined JS.Undefined
      (Scenario.after_calls (JS.Str "default") 3)
    = (Normal (Failed ("Validation failed: " +:+ violations) 0 3),
       Scenario.after_calls (JS.Str "default") 3).
Proof.
  apply (pages_invalid_input_leaves_no_mark Scenario.production Scenario.steady
           (JS.Str "Uniswap") Scenario.UNI JS.Undefined JS.Undefined
           (Scenario.after_calls (JS.Str "default") 3)).
  left. reflexivity.
Defined.

(* --------------------------------------------------------------------- *)
(** *** The cache of [src/api/analyze.js] only grows                      *)
(* --------------------------------------------------------------------- *)







(* --------------------------------------------------------------------- *)
(** *** Identity resolution                                               *)
(* --------------------------------------------------------------------- *)

Lemma slugFromName_trace net name p :
  trace (Api.slugFromName net name p).2 = trace p ++ [SearchRequest (JS.to_string name)].
Proof.
  unfold Api.slugFromName, bind. rewrite request_run, await_run. reflexivity.
Qed.

Lemma contractAndChainFromSlug_trace net slug p :
  trace (Api.contractAndChainFromSlug net slug p).2
    = trace p ++ [PlatformRequest (JS.to_string slug)].
Proof.
  unfold Api.contractAndChainFromSlug, bind. rewrite request_run, await_run. reflexivity.
Qed.

Lemma resolveCoinId_trace net ca chain p :
  trace (Api.resolveCoinId net ca chain p).2
    = trace p ++ [ContractRequest (if JS.is_str chain "eth" then "ethereum" else "solana")
                    (JS.to_string ca)].
Proof.
  unfold Api.resolveCoinId, bind. rewrite request_run, await_run. reflexivity.
Qed.

Ltac lookup_step :=
  match goal with
  | |- context [Api.slugFromName ?n ?name ?p] =>
      let H := fresh "Htrace" in
      pose proof (slugFromName_trace n name p) as H;
      destruct (Api.slugFromName n name p) as [[?|?] ?]; cbn [fst snd] in H |- *
  | |- context [Api.contractAndChainFromSlug ?n ?slug ?p] =>
      let H := fresh "Htrace" in
      pose proof (contractAndChainFromSlug_trace n slug p) as H;
      destruct (Api.contractAndChainFromSlug n slug p) as [[[? ?]|?] ?]; cbn [fst snd] in H |- *
  | |- context [Api.resolveCoinId ?n ?ca ?chain ?p] =>
      let H := fresh "Htrace" in
      pose proof (resolveCoinId_trace n ca chain p) as H;
      destruct (Api.resolveCoinId n ca chain p) as [[?|?] ?]; cbn [fst snd] in H |- *
  | |- context [JS.truthy ?v] => destruct (JS.truthy v) eqn:?; cbn [negb andb orb]
  end.

Ltac give_events :=
  repeat match goal with H : trace _ = _ |- _ => rewrite H; clear H end;
  rewrite <- ?app_assoc;
  first [ exists []; split; [symmetry; apply app_nil_r | split; [simpl; lia | reflexivity]]
        | eexists [_]; split; [reflexivity | split; [simpl; lia | reflexivity]]
        | eexists [_; _]; split; [reflexivity | split; [simpl; lia | reflexivity]] ].

Lemma api_resolve_run net coinId ca chain coinName p :
  let run := Api.resolve net coinId ca chain coinName p in
  (exists evs,
      trace run.2 = trace p ++ evs /\ (length evs <= 2)%nat
      /\ forallb is_resolution evs = true)
  /\ (forall id ca' ch',
        run.1 = Normal (id, ca', ch') ->
        (JS.truthy coinId = true -> id = coinId)
        /\ (JS.truthy ca = true -> ca' = ca)
        /\ (JS.truthy chain = true -> ch' = chain)).
Proof.
  unfold Api.resolve, bind, ret, JS.or.
  destruct (JS.truthy coinId) eqn:Hid, (JS.truthy coinName) eqn:Hname,
    (JS.truthy ca) eqn:Hca, (JS.truthy chain) eqn:Hchain;
    cbn [negb andb orb fst snd]; rewrite ?Hid, ?Hca, ?Hchain; cbn [negb andb orb fst snd];
    repeat (lookup_step; rewrite ?Hid, ?Hca, ?Hchain; cbn [negb andb orb fst snd]);
    (split; [give_events|]);
    intros ? ? ? Hrun; try discriminate Hrun; injection Hrun as <- <- <-;
    repeat split; intros; congruence.
Qed.

Lemma api_resolve_nothing_missing net coinId ca chain coinName p :
  JS.truthy coinId = true -> JS.truthy ca = true -> JS.truthy chain = true ->
  Api.resolve net coinId ca chain coinName p = (Normal (coinId, ca, chain), p).
Proof.
  intros Hid Hca Hchain. unfold Api.resolve, bind, ret. rewrite Hid, Hca, Hchain. simpl.
  rewrite Hid. reflexivity.
Qed.

(** X13. The "auto-fill" of the name-resolving revision fills only what is
    missing and is cheap: [resolve] sends at most two lookups to CoinGecko
    and nothing else; a coin id, a contract address or a chain the caller
    supplied comes back as supplied, whatever CoinGecko answers; and when
    all three are supplied nothing is sent and no time passes. *)
Theorem resolve_fills_only_what_is_missing
    (net : upstream) (coinId ca chain coinName : JS.value) (p : process) :
  let run := Api.resolve net coinId ca chain coinName p in
  (exists evs,
      trace run.2 = trace p ++ evs /\ (length evs <= 2)%nat
      /\ forallb is_resolution evs = true)
  /\ (forall id ca' ch',
        run.1 = Normal (id, ca', ch') ->
        (JS.truthy coinId = true -> id = coinId)
        /\ (JS.truthy ca = true -> ca' = ca)
        /\ (JS.truthy chain = true -> ch' = chain))
  /\ (JS.truthy coinId = true -> JS.truthy ca = true -> JS.truthy chain = true ->
      run = (Normal (coinId, ca, chain), p)).
Proof.
  intros run. subst run.
  destruct (api_resolve_run net coinId ca chain coinName p) as [Hevs Hkept].
  split; [exact Hevs|]. split; [exact Hkept|]. apply api_resolve_nothing_missing.
Qed.


(* --------------------------------------------------------------------- *)
(** *** The handler of the name-resolving revision                        *)
(* --------------------------------------------------------------------- *)

Lemma truthy_param_default_empty v : JS.truthy (JS.param_default v "") = JS.truthy v.
Proof. destruct v; reflexivity. Qed.

(** X14. The handler of the name-resolving revision always answers, and
    never with 500: a request that is not a POST gets 405; a POST with no
    coin id, no coin name and no contract address (a POST without a body
    among them) gets 400; any other POST gets the result of [analyze], with
    status 200 when it is an analysis and 400 when it is the error result. *)
Theorem api_handler_never_answers_500
    (h : host) (net : upstream) (method : string)
    (coinId coinName ca chain clientId : JS.value) (p : process) :
  exists s,
    (Api.handler h net method coinId coinName ca chain clientId p).1 = Normal s
    /\ match s with
       | PagesApi.JsonError code _ =>
           (code = 405%Z /\ method <> "POST")
           \/ (code = 400%Z /\ method = "POST" /\ JS.truthy coinId = false
               /\ JS.truthy coinName = false /\ JS.truthy ca = false)
       | PagesApi.Json code result =>
           method = "POST"
           /\ (JS.truthy coinId = true \/ JS.truthy coinName = true \/ JS.truthy ca = true)
           /\ code = (if is_error result then 400%Z else 200%Z)
       end.
Proof.
  unfold Api.handler. destruct (String.eqb_spec method "POST") as [->|Hmethod]; simpl.
  2:{ eexists. split; [reflexivity|]. left. auto. }
  unfold try_catch. rewrite !truthy_param_default_empty.
  destruct (JS.truthy coinId) eqn:Hid, (JS.truthy coinName) eqn:Hname, (JS.truthy ca) eqn:Hca;
    simpl; try (eexists; split; [reflexivity|]; right; auto; fail);
    unfold bind;
    match goal with |- context [Api.analyze ?h ?n ?a ?b ?c ?d ?e ?p] =>
      destruct (api_analyze_effect h n a b c d e p) as (r & evs & Hrun & _);
      destruct (Api.analyze h n a b c d e p) as [[r'|e'] q]; simpl in Hrun;
      [|discriminate Hrun]
    end;
    simpl; eexists; (split; [reflexivity|]); simpl; auto.
Qed.

(* --------------------------------------------------------------------- *)
(** *** The eviction timers of the name-resolving revision                *)
(* --------------------------------------------------------------------- *)

Lemma run_timers_removes key now d ts : forall c : gmap string Analysis,
  In (d, key) ts -> (d <= now)%Z -> run_timers now ts c !! key = None.
Proof.
  unfold run_timers. induction ts as [|timer ts IH]; intros c Hin Hdue; [destruct Hin|].
  simpl. destruct Hin as [->|Hin]; [|apply IH; assumption].
  unfold due at 2. simpl. destruct (Z.leb_spec d now); [|lia].
  eapply lookup_weaken_None; [|apply (run_timers_subseteq now ts)].
  apply lookup_delete_eq.
Qed.

Lemma unexpired_same p p' :
  cache p' = cache p -> timers p' = timers p -> clock p' = clock p -> unexpired p -> unexpired p'.
Proof.
  intros Hc Ht Hk Hf key r. rewrite Hc, Ht, Hk. apply Hf.
Qed.

Lemma unexpired_elapse_until t p : unexpired p -> unexpired (elapse_until t p).
Proof.
  intros Hf key r Hlook. simpl in Hlook.
  assert (cache p !! key = Some r) as Hold
    by (eapply lookup_weaken; [exact Hlook | apply run_timers_subseteq]).
  destruct (Hf key r Hold) as (d & Hin & Hlt & Hle).
  destruct (Z.le_gt_cases d (Z.max (clock p) t)) as [Hdue|Hpending].
  - rewrite (run_timers_removes key _ d _ _ Hin Hdue) in Hlook. discriminate.
  - exists d. simpl. split; [|split; [lia | exact Hle]].
    apply filter_In. split; [exact Hin|]. unfold due. simpl.
    destruct (Z.leb_spec d (Z.max (clock p) t)); [lia | reflexivity].
Qed.

Lemma unexpired_new_process t : unexpired (new_process t).
Proof. intros key r H. simpl in H. rewrite lookup_empty in H. discriminate. Qed.

Lemma keeps_ret {A} (a : A) : keeps (ret a).
Proof. intros p H. exact H. Qed.

Lemma keeps_throw {A} e : keeps (@throw A e).
Proof. intros p H. exact H. Qed.

Lemma keeps_bind {A B} (m : M A) (k : A -> M B) :
  keeps m -> (forall a, keeps (k a)) -> keeps (bind m k).
Proof.
  intros Hm Hk p Hf. specialize (Hm p Hf). unfold bind.
  destruct (m p) as [[a|e] q]; simpl in Hm; [apply Hk; exact Hm | exact Hm].
Qed.

Lemma keeps_if {A} (b : bool) (m1 m2 : M A) :
  keeps m1 -> keeps m2 -> keeps (if b then m1 else m2).
Proof. destruct b; auto. Qed.

Lemma keeps_log e : keeps (log e).
Proof. intros p. apply unexpired_same; reflexivity. Qed.

Lemma keeps_request {P A} e (ask : Z -> reply P) (read : response P -> string + A) :
  keeps (request e ask read).
Proof. intros p. rewrite request_run. apply keeps_log. Qed.

Lemma keeps_await {A} (pr : promise A) : keeps (await pr).
Proof. intros p. rewrite await_run. apply unexpired_elapse_until. Qed.

Lemma keeps_Promise_resolve {A} (v : A) : keeps (Promise_resolve v).
Proof. intros p H. exact H. Qed.

Lemma keeps_Promise_all3 {A B C} (pa : promise A) (pb : promise B) (pc : promise C) :
  keeps (Promise_all3 pa pb pc).
Proof.
  intros p. destruct (Promise_all3_elapses pa pb pc p) as [t ->]. apply unexpired_elapse_until.
Qed.

Lemma keeps_Date_now : keeps Date_now.
Proof. intros p H. exact H. Qed.

Lemma keeps_get_cache : keeps get_cache.
Proof. intros p H. exact H. Qed.

Lemma keeps_checkRateLimit clientId : keeps (RateLimiter._checkRateLimit clientId).
Proof.
  intros p. destruct (checkRateLimit_run clientId p) as (b & rc & ->).
  apply unexpired_same; reflexivity.
Qed.

Lemma keeps_api_validateInput coinId ca chain : keeps (Api._validateInput coinId ca chain).
Proof. intros p. rewrite api_validateInput_state. auto. Qed.

Create HintDb keeps.
#[local] Hint Resolve keeps_ret keeps_throw keeps_await keeps_Promise_resolve
  keeps_Promise_all3 keeps_Date_now keeps_get_cache keeps_log keeps_request
  keeps_checkRateLimit keeps_api_validateInput : keeps.

Ltac keeps_step :=
  first
    [ solve [ auto with keeps ]
    | apply keeps_bind; [| intros ? ]
    | apply keeps_if
    | match goal with |- keeps (match ?x with _ => _ end) => destruct x end ].

Lemma keeps_api_resolve net coinId ca chain coinName :
  keeps (Api.resolve net coinId ca chain coinName).
Proof.
  unfold Api.resolve, Api.slugFromName, Api.contractAndChainFromSlug, Api.resolveCoinId.
  repeat keeps_step.
Qed.

Lemma keeps_api_aggregate net coinId ca chain : keeps (Api.aggregate net coinId ca chain).
Proof.
  unfold Api.aggregate, Api._fetchCoinGeckoData, Api._fetchEtherscanData,
    Api._fetchSolanaData, Api._fetchDexScreenerData.
  repeat keeps_step.
Qed.

Lemma keeps_api_admit_and_lookup h net coinId ca chain clientId coinName :
  keeps (Api.admit_and_lookup h net coinId ca chain clientId coinName).
Proof.
  unfold Api.admit_and_lookup.
  apply keeps_bind; [apply keeps_api_resolve|]. intros [[id ca'] ch'].
  repeat keeps_step.
Qed.

Lemma keeps_api_compute h net t0 coinId ca chain coinName :
  keeps (Api.compute h net t0 coinId ca chain coinName).
Proof.
  intros p Hf. rewrite api_compute_run.
  pose proof (keeps_api_aggregate net coinId ca chain p Hf) as Hq.
  destruct (Api.aggregate net coinId ca chain p) as [[[[m c] d]|e] q]; simpl in *; [|exact Hq].
  destruct (CONFIG.ENCRYPT_CACHE h); [|exact Hq].
  intros key r. simpl.
  destruct (decide (key = Api.cacheKey h coinId ca chain)) as [->|Hne].
  - rewrite lookup_insert_eq. intros [= <-]. simpl.
    exists (clock q + CONFIG.CACHE_TTL)%Z.
    split; [apply in_or_app; right; left; reflexivity|].
    unfold CONFIG.CACHE_TTL. lia.
  - rewrite lookup_insert_ne by congruence. intros Hlook.
    destruct (Hq key r Hlook) as (due & Hin & Hlt & Hle).
    exists due. split; [apply in_or_app; left; exact Hin | split; assumption].
Qed.

Lemma keeps_api_analyze_try h net t0 coinId ca chain clientId coinName :
  keeps (Api.analyze_try h net t0 coinId ca chain clientId coinName).
Proof.
  unfold Api.analyze_try.
  apply keeps_bind; [apply keeps_api_admit_and_lookup|].
  intros [[[id ca'] ch'] [cached|]]; [apply keeps_ret | apply keeps_api_compute].
Qed.

Lemma keeps_api_analyze h net coinId ca chain clientId coinName :
  keeps (Api.analyze h net coinId ca chain clientId coinName).
Proof.
  intros p Hf. rewrite api_analyze_run.
  pose proof (keeps_api_analyze_try h net (clock p) coinId ca (JS.param_default chain "eth")
                (JS.param_default clientId "default") (JS.param_default coinName "") p Hf) as Hq.
  destruct (Api.analyze_try _ _ _ _ _ _ _ _ p) as [[r|e] q]; exact Hq.
Qed.

Lemma api_serve_keeps_unexpired h net calls : forall p,
  Forall (fun call => exists coinId ca chain clientId coinName,
            call.2 = Api.analyze h net coinId ca chain clientId coinName) calls ->
  unexpired p -> unexpired (serve calls p).2.
Proof.
  induction calls as [|[t call] calls IH]; intros p Hcalls Hf; simpl; [exact Hf|].
  inversion Hcalls as [|? ? (coinId & ca & chain & clientId & coinName & Hcall) Hrest]; subst.
  simpl in Hcall. subst call. unfold at_instant.
  pose proof (keeps_api_analyze h net coinId ca chain clientId coinName _
                (unexpired_elapse_until t p Hf)) as Hq.
  destruct (Api.analyze h net coinId ca chain clientId coinName (elapse_until t p))
    as [[r|e] p1]; simpl in Hq.
  - specialize (IH p1 Hrest Hq). destruct (serve calls p1) as [rs p2]. exact IH.
  - apply IH; assumption.
Qed.

Lemma api_hit_is_unexpired h net coinId ca chain clientId coinName p r p' :
  unexpired p ->
  Api.analyze h net coinId ca chain clientId coinName p = (Normal (Computed r true), p') ->
  (clock p' < timestamp r + CONFIG.CACHE_TTL)%Z.
Proof.
  intros Hf. rewrite api_analyze_run.
  pose proof (keeps_api_admit_and_lookup h net coinId ca (JS.param_default chain "eth")
                (JS.param_default clientId "default") (JS.param_default coinName "") p Hf) as Hq.
  destruct (api_analyze_try_run h net (clock p) coinId ca (JS.param_default chain "eth")
              (JS.param_default clientId "default") (JS.param_default coinName "") p)
    as (c & p1 & res & rest & Hadmit & _ & _ & Hcases).
  rewrite Hadmit in Hq. simpl in Hq.
  destruct Hcases as [(_ & e & _ & ->)|[(_ & _ & ->)
    |[(id & ca' & ch' & cached & _ & Hhit & _ & ->)|(id & ca' & ch' & _ & _ & _ & ->)]]];
    try discriminate.
  - intros [= <- <-]. destruct (Hq _ _ Hhit) as (due & _ & Hlt & Hle). lia.
  - rewrite api_compute_run.
    destruct (Api.aggregate net id ca' ch' p1).1 as [[[m c0] d]|e]; discriminate.
Qed.

(** X15. In a process that serves the [analyze] of the name-resolving
    revision, a result served from the cache is always younger than
    [CACHE_TTL]: whatever calls were served before and whenever they
    arrived, a result flagged [fromCache] was computed less than
    [CACHE_TTL] before the instant it is returned. *)
Theorem api_cache_hits_are_younger_than_the_ttl
    (h : host) (net : upstream) (calls : list (Z * M AnalysisResult)) (t0 t : Z)
    (coinId ca chain clientId coinName : JS.value) (r : Analysis) (p' : process) :
  Forall (fun call => exists coinId ca chain clientId coinName,
            call.2 = Api.analyze h net coinId ca chain clientId coinName) calls ->
  at_instant t (Api.analyze h net coinId ca chain clientId coinName)
    (serve calls (new_process t0)).2 = (Normal (Computed r true), p') ->
  (clock p' - timestamp r < CONFIG.CACHE_TTL)%Z.
Proof.
  intros Hcalls Hrun. unfold at_instant in Hrun.
  apply api_hit_is_unexpired in Hrun; [lia|].
  apply unexpired_elapse_until, (api_serve_keeps_unexpired h net); [exact Hcalls|].
  apply unexpired_new_process.
Qed.

Lemma api_cache_hits_are_younger_than_the_ttl_witness :
  let by_name := Api.analyze Scenario.production Scenario.steady
                   (JS.Str "") (JS.Str "") (JS.Str "") (JS.Str "default") (JS.Str "uniswap") in
  let by_slug := Api.analyze Scenario.production Scenario.steady
                   Scenario.uniswap (JS.Str "") (JS.Str "") (JS.Str "default") (JS.Str "") in
  (clock (at_instant 200000 by_slug (serve [(0%Z, by_name)] (new_process 0)).2).2
   - timestamp Scenario.resolved_result < CONFIG.CACHE_TTL)%Z.
Proof.
  intros by_name by_slug.
  apply (api_cache_hits_are_younger_than_the_ttl Scenario.production Scenario.steady
           [(0%Z, by_name)] 0 200000
           Scenario.uniswap (JS.Str "") (JS.Str "") (JS.Str "default") (JS.Str "")).
  - repeat constructor. simpl. subst by_name. eauto 10.
  - vm_compute. reflexivity.
Defined.


(* --------------------------------------------------------------------- *)
(** *** Scores without holder data                                        *)
(* --------------------------------------------------------------------- *)

Lemma api_admit_resolved h net coinId ca chain clientId coinName p id ca' ch' found p' :
  Api.admit_and_lookup h net coinId ca chain clientId coinName p
    = (Normal (id, ca', ch', found), p') ->
  (Api.resolve net coinId ca chain coinName p).1 = Normal (id, ca', ch').
Proof.
  unfold Api.admit_and_lookup. unfold bind at 1.
  destruct (Api.resolve net coinId ca chain coinName p) as [[[[id0 ca0] ch0]|e] q];
    [|discriminate].
  unfold bind at 1.
  destruct ((if JS.truthy ca0 && JS.truthy ch0 then Api._validateInput id0 ca0 ch0
             else Api._validateInput id0 JS.Null JS.Null) q) as [[[]|e] q0]; [|discriminate].
  unfold bind. destruct (RateLimiter._checkRateLimit clientId q0) as [[[]|e] q1]; [|discriminate].
  simpl. intros [= <- <- <- _ _]. reflexivity.
Qed.

Lemma api_aggregate_without_holders net coinId ca chain p m c d :
  JS.truthy ca && JS.truthy chain = false \/ JS.is_str chain "eth" = false ->
  (Api.aggregate net coinId ca chain p).1 = Normal (m, c, d) ->
  c = Fetchers.no_holders.
Proof.
  intros Hcase Hrun.
  destruct (JS.truthy ca && JS.truthy chain) eqn:Hlaunch.
  2:{ eapply api_aggregate_substitutes; eassumption. }
  destruct Hcase as [Hcase|Hsol]; [discriminate|].
  revert Hrun. unfold Api.aggregate, Api._fetchCoinGeckoData, Api._fetchSolanaData,
    Api._fetchDexScreenerData, bind.
  rewrite Hlaunch, Hsol, !request_run. intros H.
  apply Promise_all3_resolved in H as (_ & Hc & _). simpl in Hc.
  destruct (answer _) as [e|ok status [e|payload]]; simpl in Hc; try discriminate;
    destruct ok; simpl in Hc; try discriminate.
  injection Hc as <-. reflexivity.
Qed.

(** X16. The name-resolving revision has no holder data for a Solana token
    or for a coin without a contract, and scores them as perfectly
    decentralized: when the chain the caller gives is not ['eth'], or the
    analysis ends without a contract address, a freshly computed result has
    a decentralization score of exactly 100, whatever the providers
    answered. *)
Theorem api_decentralization_is_100_without_holder_data
    (h : host) (net : upstream) (coinId ca chain clientId coinName : JS.value)
    (p : process) (r : Analysis) (p' : process) :
  Api.analyze h net coinId ca chain clientId coinName p = (Normal (Computed r false), p') ->
  JS.truthy (contract_address (basic r)) = false
  \/ (JS.truthy (JS.param_default chain "eth") = true
      /\ JS.is_str (JS.param_default chain "eth") "eth" = false) ->
  decentralization (scores r) = 100%float.
Proof.
  rewrite api_analyze_run.
  destruct (api_analyze_try_run h net (clock p) coinId ca (JS.param_default chain "eth")
              (JS.param_default clientId "default") (JS.param_default coinName "") p)
    as (c & p1 & res & rest & Hadmit & _ & _ & Hcases).
  destruct Hcases as [(_ & e & _ & ->)|[(_ & _ & ->)
    |[(id & ca' & ch' & cached & _ & _ & _ & ->)|(id & ca' & ch' & _ & _ & -> & ->)]]];
    try discriminate.
  apply api_admit_resolved in Hadmit.
  destruct (api_resolve_run net coinId ca (JS.param_default chain "eth")
              (JS.param_default coinName "") p) as [_ Hkept].
  destruct (Hkept _ _ _ Hadmit) as (_ & _ & Hchain).
  rewrite api_compute_run.
  pose proof (api_aggregate_without_holders net id ca' ch' p1) as Hnone.
  destruct (Api.aggregate net id ca' ch' p1) as [[[[m c0] d]|e] q]; simpl in *; [|discriminate].
  intros [= <- _] Hcase. simpl in *.
  rewrite (Hnone m c0 d); [vm_compute; reflexivity | | reflexivity].
  destruct Hcase as [Hca|[Htruthy Hsol]].
  - left. rewrite Hca. reflexivity.
  - right. rewrite (Hchain Htruthy). exact Hsol.
Qed.

Lemma api_decentralization_is_100_without_holder_data_witness :
  exists r,
    (Api.analyze Scenario.production Scenario.steady
       (JS.Str "solana") (JS.Str "So11111111111111111111111111111111111111112") (JS.Str "sol") JS.Undefined JS.Undefined
       (new_process 0)).1 = Normal (Computed r false)
    /\ decentralization (scores r) = 100%float.
Proof.
  eexists. split; [vm_compute; reflexivity|].
  apply (api_decentralization_is_100_without_holder_data Scenario.production Scenario.steady
           (JS.Str "solana") (JS.Str "So11111111111111111111111111111111111111112") (JS.Str "sol") JS.Undefined JS.Undefined
           (new_process 0) _
           (Api.analyze Scenario.production Scenario.steady
              (JS.Str "solana") (JS.Str "So11111111111111111111111111111111111111112") (JS.Str "sol") JS.Undefined JS.Undefined
              (new_process 0)).2).
  - vm_compute. reflexivity.
  - right. split; reflexivity.
Defined.


Lemma add_nan_r (x : float) : (x + nan)%float = nan.
Proof.
  apply Prim2SF_inj. rewrite FloatAxioms.add_spec.
  destruct (Prim2SF x) as [s|s| |s m e]; try destruct s; reflexivity.
Qed.

Lemma add_nan_l (x : float) : (nan + x)%float = nan.
Proof.
  apply Prim2SF_inj. rewrite FloatAxioms.add_spec.
  destruct (Prim2SF x) as [s|s| |s m e]; try destruct s; reflexivity.
Qed.

Lemma pages_aggregate_off_ethereum net coinId ca chain p m c d :
  JS.is_str chain "eth" = false ->
  (PagesApi.aggregate net coinId ca chain p).1 = Normal (m, c, d) ->
  exists transfers, c = Fetchers.activity_only transfers.
Proof.
  intros Hsol. unfold PagesApi.aggregate, PagesApi._fetchCoinGeckoData,
    PagesApi._fetchSolanaData, PagesApi._fetchDexScreenerData, bind.
  rewrite Hsol, !request_run. intros H.
  apply Promise_all3_resolved in H as (_ & Hc & _). simpl in Hc.
  destruct (answer _) as [e|ok status [e|payload]]; simpl in Hc; try discriminate;
    destruct ok; simpl in Hc; try discriminate.
  injection Hc as <-. eauto.
Qed.

(** X17. [src/api/analyze.js] has no holder data for any chain other than
    ['eth'] and does not notice: for such a chain every freshly computed
    result carries NaN as its greed, decentralization and retail scores,
    whatever the providers answered. *)
Theorem pages_scores_are_nan_off_ethereum
    (h : host) (net : upstream) (coinId ca chain clientId : JS.value)
    (p : process) (r : Analysis) (p' : process) :
  PagesApi.analyze h net coinId ca chain clientId p = (Normal (Computed r false), p') ->
  JS.is_str (JS.param_default chain "eth") "eth" = false ->
  greed (scores r) = nan /\ decentralization (scores r) = nan /\ retail (scores r) = nan.
Proof.
  rewrite pages_analyze_run.
  destruct (pages_analyze_try_run h net (clock p) coinId ca (JS.param_default chain "eth")
              (JS.param_default clientId "default") p)
    as (c & p1 & evs & _ & _ & _ & _ & _ & Hcases).
  destruct Hcases as [(_ & e & _ & ->)|[(_ & _ & ->)
    |[(cached & _ & _ & _ & ->)|(_ & _ & _ & ->)]]]; try discriminate.
  rewrite pages_compute_run.
  pose proof (pages_aggregate_off_ethereum net coinId ca (JS.param_default chain "eth") p1) as Hoff.
  destruct (PagesApi.aggregate net coinId ca (JS.param_default chain "eth") p1)
    as [[[[m c0] d]|e] q]; simpl in *; [|discriminate].
  intros [= <- _] Hsol. destruct (Hoff m c0 d Hsol eq_refl) as [transfers ->].
  cbn [scores greed decentralization retail PagesApi.score].
  unfold Scoring._calculateGreedScore, Scoring._calculateRetailScore, Fetchers.activity_only.
  cbn [top_10_holders retail_pct top_1_pct total_holders].
  assert (JS.Math_min 100 (nan * 1.5) * 0.25 = nan)%float as -> by (vm_compute; reflexivity).
  assert (nan * 1.5 - nan * 0.8 = nan)%float as -> by (vm_compute; reflexivity).
  rewrite add_nan_r, add_nan_l.
  repeat split; vm_compute; reflexivity.
Qed.

Lemma pages_scores_are_nan_off_ethereum_witness :
  exists r,
    (PagesApi.analyze Scenario.production Scenario.steady
       (JS.Str "solana") (JS.Str "So11111111111111111111111111111111111111112")
       (JS.Str "sol") JS.Undefined (new_process 0)).1 = Normal (Computed r false)
    /\ greed (scores r) = nan /\ decentralization (scores r) = nan /\ retail (scores r) = nan.
Proof.
  eexists. split; [vm_compute; reflexivity|].
  apply (pages_scores_are_nan_off_ethereum Scenario.production Scenario.steady
           (JS.Str "solana") (JS.Str "So11111111111111111111111111111111111111112")
           (JS.Str "sol") JS.Undefined (new_process 0) _
           (PagesApi.analyze Scenario.production Scenario.steady
              (JS.Str "solana") (JS.Str "So11111111111111111111111111111111111111112")
              (JS.Str "sol") JS.Undefined (new_process 0)).2).
  - vm_compute. reflexivity.
  - reflexivity.
Defined.

(* --------------------------------------------------------------------- *)
(** *** Holder statistics                                                 *)
(* --------------------------------------------------------------------- *)

Lemma index_of_one_percent n :
  (1 <= n <= 100)%nat -> JS.to_index (JS.Math_ceil (JS.of_nat n * 0.01)%float) = 1%nat.
Proof.
  intros Hn.
  assert (forallb (fun n => Nat.eqb (JS.to_index (JS.Math_ceil (JS.of_nat n * 0.01)%float)) 1)
            (seq 1 100) = true) as Hall by (vm_compute; reflexivity).
  apply Nat.eqb_eq. apply (proj1 (forallb_forall _ _) Hall). apply in_seq. lia.
Qed.

Lemma index_of_the_whole n :
  (n <= 100)%nat -> JS.to_index (JS.Math_ceil (JS.of_nat n * 1)%float) = n.
Proof.
  intros Hn.
  assert (forallb (fun n => Nat.eqb (JS.to_index (JS.Math_ceil (JS.of_nat n * 1)%float)) n)
            (seq 0 101) = true) as Hall by (vm_compute; reflexivity).
  apply Nat.eqb_eq. apply (proj1 (forallb_forall _ _) Hall). apply in_seq. lia.
Qed.

(** X18. On the one page of at most 100 holders that the Etherscan request
    asks for, two of the holder statistics say less than their names:
    [top_1_pct] is the share of the first holder alone, and [top_100_pct] is
    the share of all listed holders in the total of their own balances, the
    quotient of that total by itself. *)
Theorem holder_shares_of_one_page (first : JS.number) (others : list JS.number) :
  (length (first :: others) <= 100)%nat ->
  let holders := first :: others in
  let total := JS.sum_by id holders in
  top_1_pct (Fetchers.holder_statistics holders) = ((0 + first) / total * 100)%float
  /\ top_100_pct (Fetchers.holder_statistics holders) = (total / total * 100)%float.
Proof.
  intros Hlen holders total.
  unfold Fetchers.holder_statistics, Fetchers._calculateHolderPercentage.
  cbn [top_1_pct top_100_pct]. fold total.
  assert ((0.01 <=? 1)%float = true) as -> by reflexivity.
  assert ((1 <=? 1)%float = true) as -> by reflexivity.
  unfold JS.slice0. split.
  - rewrite index_of_one_percent by (subst holders; simpl in *; lia). reflexivity.
  - rewrite (take_ge holders 100) by exact Hlen.
    rewrite index_of_the_whole by exact Hlen.
    rewrite take_ge by reflexivity. reflexivity.
Qed.

Lemma holder_shares_of_one_page_witness :
  let holders := [50; 30; 20]%float in
  top_1_pct (Fetchers.holder_statistics holders)
    = ((0 + 50) / JS.sum_by id holders * 100)%float
  /\ top_100_pct (Fetchers.holder_statistics holders)
     = (JS.sum_by id holders / JS.sum_by id holders * 100)%float.
Proof.
  apply (holder_shares_of_one_page 50%float [30; 20]%float). simpl. lia.
Defined.

(* --------------------------------------------------------------------- *)
(** *** A contract address without a chain                                *)
(* --------------------------------------------------------------------- *)

Lemma api_resolve_address_alone net ca p :
  Api.resolve net (JS.Str "") ca (JS.Str "") (JS.Str "") p
    = (Normal (JS.Str "", ca, JS.Str ""), p).
Proof.
  unfold Api.resolve, bind, ret. simpl. rewrite !andb_false_r. reflexivity.
Qed.

Lemma api_analyze_address_alone h net ca clientId p :
  JS.truthy ca = true ->
  let client := JS.param_default clientId "default" in
  let key := Api.cacheKey h (JS.Str "") ca (JS.Str "") in
  exists evs,
    trace (Api.analyze h net (JS.Str "") ca (JS.Str "") clientId (JS.Str "") p).2
      = trace p ++ evs
    /\ (evs = [Admission client false]
        \/ evs = [Admission client true; CacheLookup key true]
        \/ evs = [Admission client true; CacheLookup key false; MarketRequest ""]
        \/ evs = [Admission client true; CacheLookup key false; MarketRequest "";
                  CacheStore key]).
Proof.
  intros Hca client key. rewrite api_analyze_run. simpl JS.param_default. fold client.
  assert (exists c p1 evs,
            Api.analyze_try h net (clock p) (JS.Str "") ca (JS.Str "") client (JS.Str "") p
              = (c, p1)
            /\ trace p1 = trace p ++ evs
            /\ (evs = [Admission client false]
                \/ evs = [Admission client true; CacheLookup key true]
                \/ evs = [Admission client true; CacheLookup key false; MarketRequest ""]
                \/ evs = [Admission client true; CacheLookup key false; MarketRequest "";
                          CacheStore key]))
    as (c & p1 & evs & Hrun & Htrace & Hevs).
  { unfold Api.analyze_try, Api.admit_and_lookup, bind.
    rewrite api_resolve_address_alone. rewrite Hca. cbn [andb JS.truthy String.eqb negb].
    change (Api._validateInput (JS.Str "") JS.Null JS.Null p) with (@Normal unit tt, p).
    cbv beta iota. destruct (checkRateLimit_run client p) as (b & rc & ->).
    destruct b; cbv beta iota.
    2:{ do 3 eexists. split; [reflexivity|]. split; [reflexivity|]. auto. }
    unfold get_cache, log, ret. cbv beta iota. cbn [cache]. fold key.
    destruct (cache p !! key) as [cached|] eqn:Hlook.
    - do 3 eexists. split; [reflexivity|]. cbn [trace]. rewrite <- app_assoc.
      split; [reflexivity|]. auto.
    - fold (@ret AnalysisResult). rewrite api_compute_run. fold key.
      match goal with |- context [Api.aggregate net _ _ _ ?q] =>
        pose proof (api_aggregate_events net (JS.Str "") ca (JS.Str "") q) as [Hagg _];
        destruct (Api.aggregate net (JS.Str "") ca (JS.Str "") q) as [[[[m c0] d]|e] q1]
      end; rewrite andb_false_r in Hagg; cbn [fst snd trace JS.to_string] in Hagg |- *.
      + destruct (CONFIG.ENCRYPT_CACHE h).
        * do 3 eexists. split; [reflexivity|]. cbn [trace]. rewrite Hagg, <- !app_assoc.
          split; [reflexivity|]. auto.
        * do 3 eexists. split; [reflexivity|]. rewrite Hagg, <- !app_assoc.
          split; [reflexivity|]. auto.
      + do 3 eexists. split; [reflexivity|]. rewrite Hagg, <- !app_assoc.
        split; [reflexivity|]. auto. }
  exists evs. rewrite Hrun. destruct c; simpl; auto.
Qed.

(** X19. The handler of the name-resolving revision defaults a missing
    chain to the empty string, which defeats the ['eth'] default of
    [analyze]: a POST that gives a contract address and nothing else is
    neither resolved nor turned down by validation, whatever the address
    looks like; once admitted, and unless the cache answers, exactly one
    request goes out, a market request for the empty coin id, and the
    address is sent to no provider. *)
Theorem api_handler_ignores_an_address_without_chain
    (h : host) (net : upstream) (ca clientId : JS.value) (p : process) :
  JS.truthy ca = true ->
  let client := JS.param_default clientId "default" in
  let key := Api.cacheKey h (JS.Str "") ca (JS.Str "") in
  exists evs,
    trace (Api.handler h net "POST" JS.Undefined JS.Undefined ca JS.Undefined clientId p).2
      = trace p ++ evs
    /\ (evs = [Admission client false]
        \/ evs = [Admission client true; CacheLookup key true]
        \/ evs = [Admission client true; CacheLookup key false; MarketRequest ""]
        \/ evs = [Admission client true; CacheLookup key false; MarketRequest "";
                  CacheStore key]).
Proof.
  intros Hca client key.
  destruct (api_analyze_address_alone h net ca client p Hca) as (evs & Htrace & Hevs).
  assert (JS.param_default client "default" = client) as Hclient
    by (subst client; destruct clientId; reflexivity).
  rewrite Hclient in Hevs. fold key in Hevs.
  exists evs. split; [|exact Hevs].
  unfold Api.handler, try_catch, bind.
  change (String.eqb "POST" "POST") with true. cbn [negb JS.param_default]. fold client.
  assert (JS.param_default ca "" = ca) as -> by (destruct ca; [discriminate..|reflexivity]).
  rewrite Hca. cbn [JS.truthy String.eqb negb andb].
  destruct (Api.analyze h net (JS.Str "") ca (JS.Str "") client (JS.Str "") p)
    as [[r|e] q]; exact Htrace.
Qed.

Lemma api_handler_ignores_an_address_without_chain_witness :
  exists evs,
    trace (Api.handler Scenario.production Scenario.steady "POST"
             JS.Undefined JS.Undefined (JS.Str "not an address") JS.Undefined JS.Undefined
             (new_process 0)).2
      = trace (new_process 0) ++ evs
    /\ (evs = [Admission (JS.Str "default") false]
        \/ evs = [Admission (JS.Str "default") true; CacheLookup ":not an address:" true]
        \/ evs = [Admission (JS.Str "default") true; CacheLookup ":not an address:" false; MarketRequest ""]
        \/ evs = [Admission (JS.Str "default") true; CacheLookup ":not an address:" false; MarketRequest "";
                  CacheStore ":not an address:"]).
Proof.
  apply (api_handler_ignores_an_address_without_chain Scenario.production Scenario.steady
           (JS.Str "not an address") JS.Undefined (new_process 0)).
  reflexivity.
Defined.

(* --------------------------------------------------------------------- *)
(** *** A chain that is neither ['eth'] nor ['sol']                       *)
(* --------------------------------------------------------------------- *)

Lemma pages_validateInput_unknown_chain coinId ca chain p :
  VALIDATION_PATTERNS.test VALIDATION_PATTERNS.COIN_ID coinId = true ->
  JS.is_str chain "eth" = false -> JS.is_str chain "sol" = false ->
  PagesApi._validateInput coinId ca chain p = (Normal tt, p).
Proof.
  intros Hid Heth Hsol. unfold PagesApi._validateInput. rewrite Hid, Heth, Hsol. reflexivity.
Qed.

(** X20. [src/api/analyze.js] tests the chain against no pattern: with a
    chain that is neither ['eth'] nor ['sol'] (['ETH'], ['bsc'], [null])
    the contract address is not validated at all, whatever it looks like,
    and the token is taken for a Solana token: once the call is admitted,
    and unless the cache answers, the address goes as it is to the transfer
    request and to the liquidity request. *)
Theorem pages_unknown_chain_is_taken_for_solana
    (h : host) (net : upstream) (coinId ca chain clientId : JS.value) (p : process) :
  VALIDATION_PATTERNS.test VALIDATION_PATTERNS.COIN_ID coinId = true ->
  chain <> JS.Undefined ->
  JS.is_str chain "eth" = false -> JS.is_str chain "sol" = false ->
  let client := JS.param_default clientId "default" in
  let key := PagesApi.cacheKey h coinId ca chain in
  let requests := [MarketRequest (JS.to_string coinId); TransferRequest (JS.to_string ca);
                   PoolRequest (JS.to_string ca)] in
  exists evs,
    trace (PagesApi.analyze h net coinId ca chain clientId p).2 = trace p ++ evs
    /\ (evs = [Admission client false]
        \/ evs = [Admission client true; CacheLookup key true]
        \/ evs = [Admission client true; CacheLookup key false] ++ requests
        \/ evs = [Admission client true; CacheLookup key false] ++ requests
                   ++ [CacheStore key]).
Proof.
  intros Hid Hgiven Heth Hsol client key requests.
  assert (JS.param_default chain "eth" = chain) as Hchain
    by (destruct chain; [congruence | reflexivity..]).
  rewrite pages_analyze_run, Hchain. fold client.
  assert (exists c p1 evs,
            PagesApi.analyze_try h net (clock p) coinId ca chain client p = (c, p1)
            /\ trace p1 = trace p ++ evs
            /\ (evs = [Admission client false]
                \/ evs = [Admission client true; CacheLookup key true]
                \/ evs = [Admission client true; CacheLookup key false] ++ requests
                \/ evs = [Admission client true; CacheLookup key false] ++ requests
                           ++ [CacheStore key]))
    as (c & p1 & evs & Hrun & Htrace & Hevs).
  { unfold PagesApi.analyze_try, PagesApi.admit_and_lookup, bind.
    rewrite (pages_validateInput_unknown_chain coinId ca chain p Hid Heth Hsol).
    destruct (checkRateLimit_run client p) as (b & rc & ->).
    destruct b; cbv beta iota.
    2:{ do 3 eexists. split; [reflexivity|]. split; [reflexivity|]. auto. }
    unfold get_cache, log, ret. cbv beta iota. cbn [cache]. fold key.
    destruct (cache p !! key) as [cached|] eqn:Hlook.
    - do 3 eexists. split; [reflexivity|]. cbn [trace]. rewrite <- app_assoc.
      split; [reflexivity|]. auto.
    - fold (@ret AnalysisResult). rewrite pages_compute_run. fold key.
      match goal with |- context [PagesApi.aggregate net _ _ _ ?q] =>
        pose proof (pages_aggregate_evolves net coinId ca chain q) as [Hagg _];
        destruct (PagesApi.aggregate net coinId ca chain q) as [[[[m c0] d]|e] q1]
      end; rewrite Heth in Hagg; cbn [fst snd trace] in Hagg |- *.
      + destruct (CONFIG.ENCRYPT_CACHE h).
        * do 3 eexists. split; [reflexivity|]. cbn [trace]. rewrite Hagg, <- !app_assoc.
          split; [reflexivity|]. auto.
        * do 3 eexists. split; [reflexivity|]. rewrite Hagg, <- !app_assoc.
          split; [reflexivity|]. auto.
      + do 3 eexists. split; [reflexivity|]. rewrite Hagg, <- !app_assoc.
        split; [reflexivity|]. auto. }
  exists evs. rewrite Hrun. destruct c; simpl; auto.
Qed.

Lemma pages_unknown_chain_is_taken_for_solana_witness :
  let requests := [MarketRequest "uniswap"; TransferRequest "not an address";
                   PoolRequest "not an address"] in
  exists evs,
    trace (PagesApi.analyze Scenario.development Scenario.steady
             Scenario.uniswap (JS.Str "not an address") (JS.Str "ETH") JS.Undefined
             (new_process 0)).2 = trace (new_process 0) ++ evs
    /\ (evs = [Admission (JS.Str "default") false]
        \/ evs = [Admission (JS.Str "default") true;
                  CacheLookup "uniswap:not an address:ETH" true]
        \/ evs = [Admission (JS.Str "default") true;
                  CacheLookup "uniswap:not an address:ETH" false] ++ requests
        \/ evs = [Admission (JS.Str "default") true;
                  CacheLookup "uniswap:not an address:ETH" false] ++ requests
                   ++ [CacheStore "uniswap:not an address:ETH"]).
Proof.
  apply (pages_unknown_chain_is_taken_for_solana Scenario.development Scenario.steady
           Scenario.uniswap (JS.Str "not an address") (JS.Str "ETH") JS.Undefined
           (new_process 0)).
  - reflexivity.
  - discriminate.
  - reflexivity.
  - reflexivity.
Defined.
